(** * selfware: checkpoint deltas and the long-running session runner

    A shallow embedding of

    - [compute_delta] / [apply_delta] on [TaskCheckpoint]
      (the Rust code carried by [src/fix_checkpoints.py]), and
    - [CheckpointManager], [TestMonitor] and [MegaTestRunner]
      ([src/system_tests/long_running/test_runner.py]),

    followed by the properties of the specification that concern them. *)

From stdpp Require Import base decidable option list strings numbers pretty gmap.
From Stdlib Require Import ZArith QArith Lqa Lia Ascii.

(* ===================================================================== *)
(** ** Checkpoint deltas ([src/fix_checkpoints.py]) *)
(* ===================================================================== *)

Module Checkpoint.

(** Modelled from the spec: the enum [TaskStatus] is declared in
    [src/session/checkpoint.rs], which is not part of the sources at hand;
    the data model lists its values as Pending, Running, Blocked, Completed
    and Failed.  The code only clones it and compares it with [!=]. *)
Inductive TaskStatus := Pending | Running | Blocked | Completed | Failed.

#[global] Instance TaskStatus_eq_dec : EqDecision TaskStatus.
Proof. solve_decision. Defined.

(** [anyhow::Error]: an error value carrying its message. *)
Inductive anyhow_Error := anyhow (msg : string).

(** The error the specification calls [TaskMismatch]. *)
Definition TaskMismatch : anyhow_Error := anyhow "Delta task ID mismatch".

Inductive Result (A : Type) := Ok (a : A) | Err (e : anyhow_Error).
Arguments Ok {A} a.
Arguments Err {A} e.

Section Delta.

(** The element types of the four sequences, the version-control marker
    and the timestamp are declared outside the sources at hand; the code
    clones them, and compares [GitCheckpointInfo] with [!=]. *)
Context {Message MemoryEntry ToolCallLog ErrorLog : Type}.
Context {GitCheckpointInfo DateTime : Type}.
Context `{!EqDecision GitCheckpointInfo}.

(** Modelled from the spec: the declaration of [struct TaskCheckpoint] is
    not part of the sources at hand (only the text inserted in front of it
    is); its fields are those of the data model, which are also exactly
    the fields [compute_delta] and [apply_delta] read and write.
    [u32] and [usize] are [N]: the code does no arithmetic on them. *)
Record TaskCheckpoint := mkTaskCheckpoint {
  task_id : string;
  version : N;
  status : TaskStatus;
  current_step : N;
  current_iteration : N;
  messages : list Message;
  memory_entries : list MemoryEntry;
  tool_calls : list ToolCallLog;
  errors : list ErrorLog;
  estimated_tokens : N;
  git_checkpoint : option GitCheckpointInfo;
  updated_at : DateTime;
}.

(** [pub struct CheckpointDelta] *)
Record CheckpointDelta := mkCheckpointDelta {
  d_task_id : string;
  base_version : N;
  target_version : N;
  d_updated_at : DateTime;
  d_status : option TaskStatus;
  d_current_step : option N;
  d_current_iteration : option N;
  new_messages : list Message;
  new_memory_entries : list MemoryEntry;
  new_tool_calls : list ToolCallLog;
  new_errors : list ErrorLog;
  updated_tokens : option N;
  d_git_checkpoint : option GitCheckpointInfo;
}.

(** [if a != b { Some(a.clone()) } else { None }] *)
Definition changed {A} `{!EqDecision A} (a b : A) : option A :=
  if decide (a ≠ b) then Some a else None.

(** [if cur.len() > base.len() { cur[base.len()..].to_vec() } else { Vec::new() }] *)
Definition appended {A} (cur base : list A) : list A :=
  if (length base <? length cur)%nat then drop (length base) cur else [].

(** [TaskCheckpoint::compute_delta(&self, base)] *)
Definition compute_delta (self base : TaskCheckpoint) : option CheckpointDelta :=
  if decide (task_id self ≠ task_id base) then None
  else Some {|
    d_task_id := task_id self;
    base_version := version base;
    target_version := version self;
    d_updated_at := updated_at self;
    d_status := changed (status self) (status base);
    d_current_step := changed (current_step self) (current_step base);
    d_current_iteration :=
      changed (current_iteration self) (current_iteration base);
    new_messages := appended (messages self) (messages base);
    new_memory_entries := appended (memory_entries self) (memory_entries base);
    new_tool_calls := appended (tool_calls self) (tool_calls base);
    new_errors := appended (errors self) (errors base);
    updated_tokens := changed (estimated_tokens self) (estimated_tokens base);
    d_git_checkpoint :=
      if decide (git_checkpoint self ≠ git_checkpoint base)
      then git_checkpoint self else None;
  |}.

(** Field assignments on [&mut self]. *)
Definition set_version (v : N) (c : TaskCheckpoint) :=
  mkTaskCheckpoint (task_id c) v (status c) (current_step c)
    (current_iteration c) (messages c) (memory_entries c) (tool_calls c)
    (errors c) (estimated_tokens c) (git_checkpoint c) (updated_at c).
Definition set_updated_at (t : DateTime) (c : TaskCheckpoint) :=
  mkTaskCheckpoint (task_id c) (version c) (status c) (current_step c)
    (current_iteration c) (messages c) (memory_entries c) (tool_calls c)
    (errors c) (estimated_tokens c) (git_checkpoint c) t.
Definition set_status (s : TaskStatus) (c : TaskCheckpoint) :=
  mkTaskCheckpoint (task_id c) (version c) s (current_step c)
    (current_iteration c) (messages c) (memory_entries c) (tool_calls c)
    (errors c) (estimated_tokens c) (git_checkpoint c) (updated_at c).
Definition set_current_step (n : N) (c : TaskCheckpoint) :=
  mkTaskCheckpoint (task_id c) (version c) (status c) n
    (current_iteration c) (messages c) (memory_entries c) (tool_calls c)
    (errors c) (estimated_tokens c) (git_checkpoint c) (updated_at c).
Definition set_current_iteration (n : N) (c : TaskCheckpoint) :=
  mkTaskCheckpoint (task_id c) (version c) (status c) (current_step c)
    n (messages c) (memory_entries c) (tool_calls c)
    (errors c) (estimated_tokens c) (git_checkpoint c) (updated_at c).
Definition extend_messages (l : list Message) (c : TaskCheckpoint) :=
  mkTaskCheckpoint (task_id c) (version c) (status c) (current_step c)
    (current_iteration c) (messages c ++ l) (memory_entries c) (tool_calls c)
    (errors c) (estimated_tokens c) (git_checkpoint c) (updated_at c).
Definition extend_memory_entries (l : list MemoryEntry) (c : TaskCheckpoint) :=
  mkTaskCheckpoint (task_id c) (version c) (status c) (current_step c)
    (current_iteration c) (messages c) (memory_entries c ++ l) (tool_calls c)
    (errors c) (estimated_tokens c) (git_checkpoint c) (updated_at c).
Definition extend_tool_calls (l : list ToolCallLog) (c : TaskCheckpoint) :=
  mkTaskCheckpoint (task_id c) (version c) (status c) (current_step c)
    (current_iteration c) (messages c) (memory_entries c) (tool_calls c ++ l)
    (errors c) (estimated_tokens c) (git_checkpoint c) (updated_at c).
Definition extend_errors (l : list ErrorLog) (c : TaskCheckpoint) :=
  mkTaskCheckpoint (task_id c) (version c) (status c) (current_step c)
    (current_iteration c) (messages c) (memory_entries c) (tool_calls c)
    (errors c ++ l) (estimated_tokens c) (git_checkpoint c) (updated_at c).
Definition set_estimated_tokens (n : N) (c : TaskCheckpoint) :=
  mkTaskCheckpoint (task_id c) (version c) (status c) (current_step c)
    (current_iteration c) (messages c) (memory_entries c) (tool_calls c)
    (errors c) n (git_checkpoint c) (updated_at c).
Definition set_git_checkpoint (g : option GitCheckpointInfo) (c : TaskCheckpoint) :=
  mkTaskCheckpoint (task_id c) (version c) (status c) (current_step c)
    (current_iteration c) (messages c) (memory_entries c) (tool_calls c)
    (errors c) (estimated_tokens c) g (updated_at c).

(** [if let Some(x) = o { self.field = x; }] *)
Definition if_let_Some {A} (o : option A)
    (assign : A → TaskCheckpoint → TaskCheckpoint) (c : TaskCheckpoint) :=
  match o with Some x => assign x c | None => c end.

(** [TaskCheckpoint::apply_delta(&mut self, delta)]: the state of [self]
    after the call, and the value returned. *)
Definition apply_delta (self : TaskCheckpoint) (delta : CheckpointDelta)
    : TaskCheckpoint * Result unit :=
  if decide (task_id self ≠ d_task_id delta) then (self, Err TaskMismatch)
  else
    let self := set_version (target_version delta) self in
    let self := set_updated_at (d_updated_at delta) self in
    let self := if_let_Some (d_status delta) set_status self in
    let self := if_let_Some (d_current_step delta) set_current_step self in
    let self :=
      if_let_Some (d_current_iteration delta) set_current_iteration self in
    let self := extend_messages (new_messages delta) self in
    let self := extend_memory_entries (new_memory_entries delta) self in
    let self := extend_tool_calls (new_tool_calls delta) self in
    let self := extend_errors (new_errors delta) self in
    let self := if_let_Some (updated_tokens delta) set_estimated_tokens self in
    let self :=
      if_let_Some (d_git_checkpoint delta)
        (λ git, set_git_checkpoint (Some git)) self in
    (self, Ok ()).

(** What the assignments of a successful [apply_delta] leave in each
    field of the target; the theorems compare [apply_delta] with it. *)
Definition applied (target : TaskCheckpoint) (delta : CheckpointDelta)
    : TaskCheckpoint :=
  {| task_id := task_id target;
     version := target_version delta;
     status := default (status target) (d_status delta);
     current_step := default (current_step target) (d_current_step delta);
     current_iteration :=
       default (current_iteration target) (d_current_iteration delta);
     messages := messages target ++ new_messages delta;
     memory_entries := memory_entries target ++ new_memory_entries delta;
     tool_calls := tool_calls target ++ new_tool_calls delta;
     errors := errors target ++ new_errors delta;
     estimated_tokens :=
       default (estimated_tokens target) (updated_tokens delta);
     git_checkpoint :=
       match d_git_checkpoint delta with
       | Some git => Some git
       | None => git_checkpoint target
       end;
     updated_at := d_updated_at delta |}.

End Delta.

Arguments TaskCheckpoint : clear implicits.
Arguments CheckpointDelta : clear implicits.

End Checkpoint.

(* ===================================================================== *)
(** ** The session runner ([src/system_tests/long_running/test_runner.py]) *)
(* ===================================================================== *)

Module Runner.

(** *** Python values *)

(** The values [json.load] produces, which are also the values the
    dynamically typed fields of [SessionMetrics] can hold.  Floats are
    idealised as rationals. *)
#[warnings="-register-all"]
Inductive pyval :=
| PNone
| PBool (b : bool)
| PInt (n : Z)
| PFloat (q : Q)
| PStr (s : string)
| PList (l : list pyval)
| PDict (d : gmap string pyval).

(** The exceptions the modelled code can meet; all derive from
    [Exception]. *)
Inductive exn :=
| AttributeError | TypeError | ZeroDivisionError | OSError | JSONDecodeError.

(** The outcome of a call: a value, an exception in flight, or no outcome
    within the fuel of a loop. *)
Inductive outcome (A : Type) := Return (a : A) | Raise (e : exn) | Diverge.
Arguments Return {A} a.
Arguments Raise {A} e.
Arguments Diverge {A}.

#[global] Instance outcome_ret : MRet outcome := λ A a, Return a.
#[global] Instance outcome_bind : MBind outcome := λ A B f m,
  match m with
  | Return a => f a
  | Raise e => Raise e
  | Diverge => Diverge
  end.

Definition Qltb (a b : Q) : bool := negb (Qle_bool b a).

(** [int(x)] on a float: truncation towards zero. *)
Definition py_int (x : Q) : Z := Z.quot (Qnum x) (Z.pos (Qden x)).

Definition bool_to_Z (b : bool) : Z := if b then 1 else 0.

(** [d.get(key, default)]: only a dict has the method. *)
Definition py_get (d : pyval) (key : string) (dflt : pyval) : outcome pyval :=
  match d with
  | PDict m => Return (default dflt (m !! key))
  | _ => Raise AttributeError
  end.

(** [len(v)] *)
Definition py_len (v : pyval) : outcome Z :=
  match v with
  | PStr s => Return (Z.of_nat (String.length s))
  | PList l => Return (Z.of_nat (length l))
  | PDict m => Return (Z.of_nat (size m))
  | PNone | PBool _ | PInt _ | PFloat _ => Raise TypeError
  end.

(** Truth value of [v] in [if v:]. *)
Definition py_truthy (v : pyval) : bool :=
  match v with
  | PNone => false
  | PBool b => b
  | PInt n => negb (n =? 0)%Z
  | PFloat q => negb (Qeq_bool q 0)
  | PStr s => negb (String.eqb s "")
  | PList l => negb (Nat.eqb (length l) 0)
  | PDict m => negb (Nat.eqb (size m) 0)
  end.

(** [v * k] for an int literal [k]. *)
Definition py_mul_int (v : pyval) (k : Z) : outcome pyval :=
  match v with
  | PBool b => Return (PInt (bool_to_Z b * k))
  | PInt n => Return (PInt (n * k))
  | PFloat q => Return (PFloat (q * inject_Z k))
  | PStr s => Return (PStr (String.concat "" (replicate (Z.to_nat k) s)))
  | PList l => Return (PList (mjoin (replicate (Z.to_nat k) l)))
  | PNone | PDict _ => Raise TypeError
  end.

(** [k + v] for an int literal [k]. *)
Definition py_int_add (k : Z) (v : pyval) : outcome pyval :=
  match v with
  | PBool b => Return (PInt (k + bool_to_Z b))
  | PInt n => Return (PInt (k + n))
  | PFloat q => Return (PFloat (inject_Z k + q))
  | PNone | PStr _ | PList _ | PDict _ => Raise TypeError
  end.

(** [v / x] for a float [x]. *)
Definition py_truediv (v : pyval) (x : Q) : outcome Q :=
  let div (a : Q) :=
    if Qeq_bool x 0 then Raise ZeroDivisionError else Return (a / x)%Q in
  match v with
  | PBool b => div (inject_Z (bool_to_Z b))
  | PInt n => div (inject_Z n)
  | PFloat q => div q
  | PNone | PStr _ | PList _ | PDict _ => Raise TypeError
  end.

(** *** Paths *)

(** A path is its text.  [a / b] is [b] itself when [b] is absolute, and
    otherwise the two joined by a separator.  (pathlib also drops the
    empty and the dot components of [b]; every right operand below is a
    plain name, the session id apart.) *)
Definition path_join (a b : string) : string :=
  if String.prefix "/" b then b else a +:+ "/" +:+ b.

Fixpoint rfind_go (c : ascii) (s : string) (i : nat) (acc : option nat) : option nat :=
  match s with
  | EmptyString => acc
  | String a s' =>
      rfind_go c s' (S i) (if Ascii.eqb a c then Some i else acc)
  end.

(** [s.rfind(c)] *)
Definition rfind (c : ascii) (s : string) : option nat := rfind_go c s 0 None.

(** [Path.name]: the final component. *)
Definition path_name (p : string) : string :=
  match rfind "/"%char p with
  | Some i => String.substring (S i) (String.length p - S i) p
  | None => p
  end.

(** [Path.stem]: the final component without its last suffix. *)
Definition path_stem (p : string) : string :=
  let name := path_name p in
  match rfind "."%char name with
  | Some i =>
      if (0 <? i)%nat && (i <? String.length name - 1)%nat
      then String.substring 0 i name else name
  | None => name
  end.

(** A name matches the pattern ["*.json"]. *)
Definition is_json (name : string) : bool :=
  String.prefix (String.rev ".json") (String.rev name).

(** *** The executor's checkpoint directory *)

(** A file of [~/.selfware/checkpoints]: its modification time and what
    [json.load] makes of its text ([None]: the text is not JSON). *)
Record File := mkFile { mtime : Q; content : option pyval }.

(** [os.path.getmtime(path)] *)
Definition getmtime (dir : gmap string File) (path : string) : outcome Q :=
  match dir !! path with
  | Some f => Return (mtime f)
  | None => Raise OSError
  end.

(** [json.load(open(path))] *)
Definition json_load (dir : gmap string File) (path : string) : outcome pyval :=
  match dir !! path with
  | Some f =>
      match content f with
      | Some v => Return v
      | None => Raise JSONDecodeError
      end
  | None => Raise OSError
  end.

(** [checkpoint_dir.glob("*.json")] *)
Definition glob_json (dir : gmap string File) : list string :=
  List.filter is_json (map fst (map_to_list dir)).

Fixpoint insert_desc (x : Q * string) (l : list (Q * string)) : list (Q * string) :=
  match l with
  | [] => [x]
  | y :: l' => if Qltb x.1 y.1 then y :: insert_desc x l' else x :: l
  end.

(** [sorted(paths, key=os.path.getmtime, reverse=True)]: the keys are
    computed first, the sort is stable. *)
Definition sorted_by_mtime_desc (dir : gmap string File) (paths : list string)
    : outcome (list string) :=
  keys ← mapM (getmtime dir) paths;
  mret (map snd (foldr insert_desc [] (zip keys paths))).

(** *** Configuration, metrics, files of the session *)

(** [class TestConfig].  [project_specs] is left out: [run] only reads
    its ['name'] for a log line, before the [try] block; the specs that
    [__post_init__] fills in have that key. *)
Record TestConfig := mkTestConfig {
  session_id : string;
  project_type : string;
  duration_hours : Z;
  agent_count : Z;
  checkpoint_interval_min : Z;
}.

(** [class SessionMetrics].  The fields assigned from the payload of a
    checkpoint file hold whatever value the file gives. *)
Record SessionMetrics := mkSessionMetrics {
  elapsed_seconds : Z;
  total_tokens : pyval;
  tokens_per_minute : Q;
  tasks_completed : pyval;
  tasks_remaining : Z;
  test_pass_rate : Q;
  lines_of_code : pyval;
  test_coverage : Q;
  checkpoint_count : Z;
  errors_encountered : Z;
  phase : string;
  status : string;
}.

(** [SessionMetrics()] *)
Definition SessionMetrics_default : SessionMetrics :=
  mkSessionMetrics 0 (PInt 0) 0 (PInt 0) 0 0 (PInt 0) 0 0 0 "bootstrap" "running".

Definition set_elapsed_seconds (v : Z) (m : SessionMetrics) :=
  mkSessionMetrics v (total_tokens m) (tokens_per_minute m) (tasks_completed m)
    (tasks_remaining m) (test_pass_rate m) (lines_of_code m) (test_coverage m)
    (checkpoint_count m) (errors_encountered m) (phase m) (status m).
Definition set_total_tokens (v : pyval) (m : SessionMetrics) :=
  mkSessionMetrics (elapsed_seconds m) v (tokens_per_minute m) (tasks_completed m)
    (tasks_remaining m) (test_pass_rate m) (lines_of_code m) (test_coverage m)
    (checkpoint_count m) (errors_encountered m) (phase m) (status m).
Definition set_tokens_per_minute (v : Q) (m : SessionMetrics) :=
  mkSessionMetrics (elapsed_seconds m) (total_tokens m) v (tasks_completed m)
    (tasks_remaining m) (test_pass_rate m) (lines_of_code m) (test_coverage m)
    (checkpoint_count m) (errors_encountered m) (phase m) (status m).
Definition set_tasks_completed (v : pyval) (m : SessionMetrics) :=
  mkSessionMetrics (elapsed_seconds m) (total_tokens m) (tokens_per_minute m) v
    (tasks_remaining m) (test_pass_rate m) (lines_of_code m) (test_coverage m)
    (checkpoint_count m) (errors_encountered m) (phase m) (status m).
Definition set_lines_of_code (v : pyval) (m : SessionMetrics) :=
  mkSessionMetrics (elapsed_seconds m) (total_tokens m) (tokens_per_minute m)
    (tasks_completed m) (tasks_remaining m) (test_pass_rate m) v (test_coverage m)
    (checkpoint_count m) (errors_encountered m) (phase m) (status m).
Definition set_checkpoint_count (v : Z) (m : SessionMetrics) :=
  mkSessionMetrics (elapsed_seconds m) (total_tokens m) (tokens_per_minute m)
    (tasks_completed m) (tasks_remaining m) (test_pass_rate m) (lines_of_code m)
    (test_coverage m) v (errors_encountered m) (phase m) (status m).
Definition set_errors_encountered (v : Z) (m : SessionMetrics) :=
  mkSessionMetrics (elapsed_seconds m) (total_tokens m) (tokens_per_minute m)
    (tasks_completed m) (tasks_remaining m) (test_pass_rate m) (lines_of_code m)
    (test_coverage m) (checkpoint_count m) v (phase m) (status m).
Definition set_phase (v : string) (m : SessionMetrics) :=
  mkSessionMetrics (elapsed_seconds m) (total_tokens m) (tokens_per_minute m)
    (tasks_completed m) (tasks_remaining m) (test_pass_rate m) (lines_of_code m)
    (test_coverage m) (checkpoint_count m) (errors_encountered m) v (status m).
Definition set_status (v : string) (m : SessionMetrics) :=
  mkSessionMetrics (elapsed_seconds m) (total_tokens m) (tokens_per_minute m)
    (tasks_completed m) (tasks_remaining m) (test_pass_rate m) (lines_of_code m)
    (test_coverage m) (checkpoint_count m) (errors_encountered m) (phase m) v.

(** An entry of [TestMonitor.metrics_history]:
    [{'timestamp': ..., 'metrics': asdict(metrics)}].  The timestamp is the
    reading of the clock rather than its ISO text. *)
Record Snapshot := mkSnapshot { s_timestamp : Q; s_metrics : SessionMetrics }.

(** The [checkpoint_data] written by [CheckpointManager.create_checkpoint]. *)
Record CheckpointData := mkCheckpointData {
  cp_id : string;
  cp_timestamp : Q;
  cp_phase : string;
  cp_metrics : SessionMetrics;
  cp_git_commit : option string;
}.

(** A [Dict] with string keys, in insertion order. *)
Definition Report := list (string * pyval).

(** What the runner writes under its session directory. *)
Inductive FileData :=
| CheckpointFile (d : CheckpointData)
| MetricsFile (s : Snapshot)
| ReportFile (r : Report).

(** The observable steps of a run, oldest first: the verdict of each
    health check of the phase loop, the verdict of each recovery attempt
    of the phase loop, each invocation of [selfware resume] with its return
    code ([None]: the call raised), each file the runner opens and
    writes (a write is taken to succeed; the log file of the logging
    handler is not among them), and the exception [run] logs as "Test
    session failed". *)
Inductive Event :=
| EvHealthCheck (healthy : bool)
| EvRecovery (recovered : bool)
| EvResume (task_id : string) (returncode : option Z)
| EvWrite (path : string) (data : FileData)
| EvSessionFailed (e : exn).

(** *** The world outside the runner *)

(** Everything the runner only observes, as a function of the time of the
    observation: the executor's checkpoint directory ([None]: it does not
    exist), the return code of [selfware resume <task_id>] ([None]: the
    call raises), the exit code and stripped output of [git rev-parse HEAD]
    ([None]: the call raises), and whether SIGINT or SIGTERM arrives during
    the sleep that starts at that time. *)
Record World := mkWorld {
  selfware_checkpoints : Q → option (gmap string File);
  selfware_resume : Q → string → option Z;
  git_rev_parse : Q → option (Z * string);
  signal_during_sleep : Q → bool;
}.

(** *** The runner's state *)

(** The mutable state reachable from a [MegaTestRunner]: its own fields,
    [checkpoint_mgr.last_checkpoint], [monitor.metrics_history], a virtual
    clock that [time.time()] reads and only [time.sleep] advances (every
    other step is taken to be instantaneous), and the trace of events so
    far. *)
Record RunnerState := mkRunnerState {
  clock : Q;
  running : bool;
  current_phase : string;
  phase_start_time : Q;
  metrics : SessionMetrics;
  last_checkpoint : option string;
  metrics_history : list Snapshot;
  trace : list Event;
}.

Definition set_clock (v : Q) (r : RunnerState) :=
  mkRunnerState v (running r) (current_phase r) (phase_start_time r)
    (metrics r) (last_checkpoint r) (metrics_history r) (trace r).
Definition set_running (v : bool) (r : RunnerState) :=
  mkRunnerState (clock r) v (current_phase r) (phase_start_time r)
    (metrics r) (last_checkpoint r) (metrics_history r) (trace r).
Definition set_current_phase (v : string) (r : RunnerState) :=
  mkRunnerState (clock r) (running r) v (phase_start_time r)
    (metrics r) (last_checkpoint r) (metrics_history r) (trace r).
Definition set_phase_start_time (v : Q) (r : RunnerState) :=
  mkRunnerState (clock r) (running r) (current_phase r) v
    (metrics r) (last_checkpoint r) (metrics_history r) (trace r).
Definition set_metrics (v : SessionMetrics) (r : RunnerState) :=
  mkRunnerState (clock r) (running r) (current_phase r) (phase_start_time r)
    v (last_checkpoint r) (metrics_history r) (trace r).
Definition set_last_checkpoint (v : option string) (r : RunnerState) :=
  mkRunnerState (clock r) (running r) (current_phase r) (phase_start_time r)
    (metrics r) v (metrics_history r) (trace r).
Definition set_metrics_history (v : list Snapshot) (r : RunnerState) :=
  mkRunnerState (clock r) (running r) (current_phase r) (phase_start_time r)
    (metrics r) (last_checkpoint r) v (trace r).
Definition set_trace (v : list Event) (r : RunnerState) :=
  mkRunnerState (clock r) (running r) (current_phase r) (phase_start_time r)
    (metrics r) (last_checkpoint r) (metrics_history r) v.

(** [MegaTestRunner(config)], constructed at time [t0]. *)
Definition MegaTestRunner_init (t0 : Q) : RunnerState :=
  mkRunnerState t0 false "bootstrap" t0 SessionMetrics_default None [] [].

(** *** Calls as state transformers with exceptions *)

Definition M (A : Type) : Type := RunnerState → RunnerState * outcome A.

#[global] Instance M_ret : MRet M := λ A a r, (r, Return a).
#[global] Instance M_bind : MBind M := λ A B f m r,
  match m r with
  | (r', Return a) => f a r'
  | (r', Raise e) => (r', Raise e)
  | (r', Diverge) => (r', Diverge)
  end.

Definition get : M RunnerState := λ r, (r, Return r).
Definition modify (f : RunnerState → RunnerState) : M unit := λ r, (f r, Return ()).
Definition lift {A} (o : outcome A) : M A := λ r, (r, o).
Definition diverge {A} : M A := λ r, (r, Diverge).

(** [try: body  except Exception: handler] *)
Definition try_except {A} (body : M A) (handler : exn → M A) : M A := λ r,
  match body r with
  | (r', Raise e) => handler e r'
  | res => res
  end.

(** [try: body  finally: final] *)
Definition try_finally {A} (body : M A) (final : M unit) : M A := λ r,
  match body r with
  | (r', Diverge) => (r', Diverge)
  | (r', res) =>
      match final r' with
      | (r'', Return _) => (r'', res)
      | (r'', Raise e) => (r'', Raise e)
      | (r'', Diverge) => (r'', Diverge)
      end
  end.

Definition emit (e : Event) : M unit := modify (λ r, set_trace (trace r ++ [e]) r).
Definition modify_metrics (f : SessionMetrics → SessionMetrics) : M unit :=
  modify (λ r, set_metrics (f (metrics r)) r).

(** [time.time()] *)
Definition time_time : M Q := r ← get; mret (clock r).

Section WithWorld.

Variable w : World.
Variable config : TestConfig.

(** [time.sleep(seconds)]: the clock advances; a signal that arrives
    meanwhile runs [_signal_handler], which clears [running], and the
    sleep then runs to its end.  Signals are delivered during sleeps
    only. *)
Definition time_sleep (seconds : Q) : M unit :=
  r ← get;
  (if signal_during_sleep w (clock r)
   then modify (set_running false) else mret ());;
  modify (set_clock (clock r + seconds)%Q).

(** *** [class CheckpointManager] *)

Definition session_dir : string := path_join "test_runs" (session_id config).
Definition checkpoint_dir : string := path_join session_dir "checkpoints".
Definition metrics_dir : string := path_join session_dir "metrics".

(** [CheckpointManager._get_git_commit] *)
Definition _get_git_commit : M (option string) :=
  try_except
    (t ← time_time;
     match git_rev_parse w t with
     | Some (returncode, stdout) =>
         mret (if (returncode =? 0)%Z then Some stdout else None)
     | None => lift (Raise OSError)
     end)
    (λ _, mret None).

(** [CheckpointManager.create_checkpoint]; the write of the file is taken
    to succeed. *)
Definition create_checkpoint (phase : string) (metrics : SessionMetrics)
    : M string :=
  timestamp ← time_time;
  t ← time_time;
  let checkpoint_id := "checkpoint_" +:+ pretty (py_int t) in
  git_commit ← _get_git_commit;
  let checkpoint_data :=
    mkCheckpointData checkpoint_id timestamp phase metrics git_commit in
  let checkpoint_path := path_join checkpoint_dir (checkpoint_id +:+ ".json") in
  emit (EvWrite checkpoint_path (CheckpointFile checkpoint_data));;
  modify (set_last_checkpoint (Some checkpoint_path));;
  mret checkpoint_path.

(** [CheckpointManager.restore_checkpoint] *)
Definition restore_checkpoint (checkpoint_path : string) : M bool :=
  try_except
    (let task_id := path_stem checkpoint_path in
     t ← time_time;
     let result := selfware_resume w t task_id in
     emit (EvResume task_id result);;
     match result with
     | Some returncode => mret (returncode =? 0)%Z
     | None => lift (Raise OSError)
     end)
    (λ _, mret false).

(** *** [class TestMonitor] *)

(** [TestMonitor.record_snapshot]; the write of the file, which follows
    the append to the history, is taken to succeed. *)
Definition record_snapshot (metrics : SessionMetrics) : M unit :=
  timestamp ← time_time;
  let snapshot := mkSnapshot timestamp metrics in
  modify (λ r, set_metrics_history (metrics_history r ++ [snapshot]) r);;
  t ← time_time;
  let snapshot_path :=
    path_join metrics_dir ("metrics_" +:+ pretty (py_int t) +:+ ".json") in
  emit (EvWrite snapshot_path (MetricsFile snapshot)).

(** [TestMonitor.generate_report], on [self.metrics_history] *)
Definition generate_report (metrics_history : list Snapshot) : Report :=
  match metrics_history with
  | [] => []
  | first :: _ =>
      let last := List.last metrics_history first in
      [ ("duration_seconds", PInt (elapsed_seconds (s_metrics last)));
        ("total_tokens", total_tokens (s_metrics last));
        ("final_coverage", PFloat (test_coverage (s_metrics last)));
        ("final_loc", lines_of_code (s_metrics last));
        ("checkpoints", PInt (Z.of_nat (length metrics_history)));
        ("errors", PInt (errors_encountered (s_metrics last)));
        ("status", PStr (status (s_metrics last))) ]
  end.

(** *** [class MegaTestRunner] *)

(** [MegaTestRunner._update_metrics] *)
Definition _update_metrics : M unit :=
  now ← time_time;
  r ← get;
  let elapsed := (now - phase_start_time r)%Q in
  modify_metrics (set_elapsed_seconds (py_int elapsed));;
  modify_metrics (set_phase (current_phase r));;
  match selfware_checkpoints w now with
  | None => mret ()
  | Some dir =>
      checkpoints ← lift (sorted_by_mtime_desc dir (glob_json dir));
      match checkpoints with
      | [] => mret ()
      | latest_cp_path :: _ =>
          try_except
            (data ← lift (json_load dir latest_cp_path);
             payload ← lift (py_get data "payload" data);
             v ← lift (py_get payload "estimated_tokens" (PInt 0));
             modify_metrics (set_total_tokens v);;
             v ← lift (py_get payload "current_step" (PInt 0));
             modify_metrics (set_tasks_completed v);;
             modify_metrics
               (set_checkpoint_count (Z.of_nat (length checkpoints)));;
             errs ← lift (py_get payload "errors" (PList []));
             n ← lift (py_len errs);
             modify_metrics (set_errors_encountered n);;
             git_info ← lift (py_get payload "git_checkpoint" PNone);
             if py_truthy git_info then
               r ← get;
               x ← lift (py_mul_int (tasks_completed (metrics r)) 50);
               loc ← lift (py_int_add 1000 x);
               modify_metrics (set_lines_of_code loc)
             else mret ())
            (λ _, mret ());;
          if Qltb 0 elapsed then
            r ← get;
            tpm ← lift (py_truediv (total_tokens (metrics r)) (elapsed / 60));
            modify_metrics (set_tokens_per_minute tpm)
          else mret ()
      end
  end.

(** [MegaTestRunner._create_checkpoint] *)
Definition _create_checkpoint : M unit :=
  r ← get;
  create_checkpoint (current_phase r) (metrics r);;
  modify_metrics (λ m, set_checkpoint_count (checkpoint_count m + 1) m).

(** [MegaTestRunner._health_check] *)
Definition _health_check : M bool :=
  t ← time_time;
  match selfware_checkpoints w t with
  | None => mret true
  | Some dir =>
      checkpoints ← lift (sorted_by_mtime_desc dir (glob_json dir));
      match checkpoints with
      | [] => mret true
      | latest_cp_path :: _ =>
          try_except
            (mtime ← lift (getmtime dir latest_cp_path);
             now ← time_time;
             if Qltb 300 (now - mtime) then mret false else mret true)
            (λ _, mret false)
      end
  end.

(** [MegaTestRunner._attempt_recovery] *)
Definition _attempt_recovery : M bool :=
  r ← get;
  match last_checkpoint r with
  | Some p => restore_checkpoint p
  | None => mret false
  end.

(** One pass through the body of the [while] loop of [_run_phase], given
    the local [last_checkpoint]: [inl] of its new value when the body runs
    to its end, [inr b] when it executes [return b]. *)
Definition phase_iteration (last_checkpoint : Q) : M (Q + bool) :=
  _update_metrics;;
  let checkpoint_interval := (checkpoint_interval_min config * 60)%Z in
  t ← time_time;
  last_checkpoint ←
    (if Qle_bool (inject_Z checkpoint_interval) (t - last_checkpoint)
     then _create_checkpoint;; time_time
     else mret last_checkpoint);
  let rest : M (Q + bool) :=
    r ← get;
    record_snapshot (metrics r);;
    time_sleep 30;;
    mret (inl last_checkpoint) in
  healthy ← _health_check;
  emit (EvHealthCheck healthy);;
  if negb healthy then
    recovered ← _attempt_recovery;
    emit (EvRecovery recovered);;
    if negb recovered then mret (inr false) else rest
  else rest.

(** [while self.running and time.time() < phase_end: ...], then
    [return True]. *)
Fixpoint phase_loop (fuel : nat) (phase_end last_checkpoint : Q) : M bool :=
  match fuel with
  | O => diverge
  | S fuel =>
      r ← get;
      if running r && Qltb (clock r) phase_end then
        res ← phase_iteration last_checkpoint;
        match res with
        | inl last_checkpoint => phase_loop fuel phase_end last_checkpoint
        | inr b => mret b
        end
      else mret true
  end.

(** A bound on the passes of the loop: each pass that does not return
    sleeps 30 seconds. *)
Definition phase_fuel (duration_seconds : Z) : nat :=
  S (S (Z.to_nat (duration_seconds / 30))).

(** [MegaTestRunner._run_phase] *)
Definition _run_phase (phase : string) (duration_seconds : Z) : M bool :=
  modify (set_current_phase phase);;
  t ← time_time;
  modify (set_phase_start_time t);;
  t ← time_time;
  let phase_end := (t + inject_Z duration_seconds)%Q in
  last_checkpoint ← time_time;
  phase_loop (phase_fuel duration_seconds) phase_end last_checkpoint.

(** [MegaTestRunner._finalize_session]; the writes are taken to
    succeed. *)
Definition _finalize_session : M unit :=
  _create_checkpoint;;
  r ← get;
  let report := generate_report (metrics_history r) in
  let report_path := path_join session_dir "final_report.json" in
  emit (EvWrite report_path (ReportFile report)).

(** [MegaTestRunner.run], from [self.running = True] on: the log lines
    before it, one of which reads [project_specs['name']], are left
    out. *)
Definition run : M bool :=
  modify (set_running true);;
  start_time ← time_time;
  try_finally
    (try_except
       (ok ← _run_phase "bootstrap" (60 * 60);
        if negb ok then mret false else
        ok ← _run_phase "development" (2 * 60 * 60);
        if negb ok then mret false else
        ok ← _run_phase "refinement" (2 * 60 * 60);
        if negb ok then mret false else
        ok ← _run_phase "finalization" (60 * 60);
        if negb ok then mret false else
        modify_metrics (set_status "completed");;
        mret true)
       (λ e,
          emit (EvSessionFailed e);;
          modify_metrics (set_status "failed");;
          mret false))
    _finalize_session.

End WithWorld.

End Runner.

(* ===================================================================== *)
(** ** Vocabulary of the properties, and concrete inputs *)
(* ===================================================================== *)

Module Examples.

Import Checkpoint.

(** Checkpoints whose sequence elements, marker and timestamp are text and
    numbers. *)
Abbreviation checkpoint := (TaskCheckpoint string string string string string Z).
Abbreviation delta := (CheckpointDelta string string string string string Z).

(** Version 3 of a task, with three messages and a version-control marker. *)
Definition cp3 : checkpoint :=
  mkTaskCheckpoint "task-1" 3 Running 2 1 ["m1"; "m2"; "m3"] ["e1"] [] []
    120 (Some "9f2c1ab") 1000%Z.

(** Version 4 of the same task: one more message, one more tool call, a
    step further. *)
Definition cp4 : checkpoint :=
  mkTaskCheckpoint "task-1" 4 Running 3 1 ["m1"; "m2"; "m3"; "m4"] ["e1"]
    ["t1"] [] 150 (Some "9f2c1ab") 1060%Z.

(** Version 4 of the same task with the marker no longer set. *)
Definition cp4_unmarked : checkpoint :=
  mkTaskCheckpoint "task-1" 4 Running 2 1 ["m1"; "m2"; "m3"] ["e1"] [] []
    120 None 1060%Z.

(** The delta of scenario C. *)
Definition delta_3_4 : delta :=
  mkCheckpointDelta "task-1" 3 4 1060%Z None None None ["m4"] [] [] [] None None.

(** A delta for another task. *)
Definition delta_other : delta :=
  mkCheckpointDelta "task-2" 3 4 1060%Z (Some Failed) (Some 9%N) None ["x"] [] []
    ["boom"] (Some 7%N) (Some "0000000").

End Examples.

Module RunnerSpec.

Import Runner.

(** No file of the executor's checkpoint directory matches ["*.json"], or
    the directory does not exist. *)
Definition no_checkpoint_file (d : option (gmap string File)) : Prop :=
  match d with
  | None => True
  | Some dir => ∀ p, is_json p = true → dir !! p = None
  end.

(** [f], stored under the name [p], is a most recently modified checkpoint
    file of [dir]. *)
Definition is_latest (dir : gmap string File) (p : string) (f : File) : Prop :=
  dir !! p = Some f ∧ is_json p = true
  ∧ ∀ p' f', dir !! p' = Some f' → is_json p' = true → (mtime f' <= mtime f)%Q.

(** The sort key of the name [p]: the modification time of the file it
    names. *)
Definition key (dir : gmap string File) (p : string) : Q :=
  default 0%Q (mtime <$> dir !! p).

(** The content of a checkpoint file parses under one of the two supported
    shapes: a flat object, or an object whose ["payload"] is an object. *)
Definition well_shaped (c : option pyval) : bool :=
  match c with
  | Some (PDict m) =>
      match m !! "payload" with
      | None | Some (PDict _) => true
      | Some _ => false
      end
  | _ => false
  end.

(** [v] is an int, a bool or a float. *)
Definition is_number (v : pyval) : bool :=
  match v with
  | PBool _ | PInt _ | PFloat _ => true
  | _ => false
  end.

Definition is_tick_event (e : Event) : bool :=
  match e with
  | EvHealthCheck _ | EvRecovery _ => true
  | _ => false
  end.

Definition is_unhealthy (e : Event) : bool :=
  match e with
  | EvHealthCheck false => true
  | _ => false
  end.

Definition is_recovery (e : Event) : bool :=
  match e with
  | EvRecovery _ => true
  | _ => false
  end.


(** A failure met by the session: a recovery attempt that failed, or an
    exception that ended [run]. *)
Definition is_failure (e : Event) : bool :=
  match e with
  | EvRecovery false | EvSessionFailed _ => true
  | _ => false
  end.

(** The health checks and recovery attempts among [evs], in order. *)
Definition tick_events (evs : list Event) : list Event :=
  List.filter is_tick_event evs.

(** How many events of [evs] satisfy [p]. *)
Definition count (p : Event → bool) (evs : list Event) : nat :=
  length (List.filter p evs).

(** The health checks and recovery attempts of a sequence of ticks: a
    healthy tick has no recovery attempt, an unhealthy tick has exactly
    one, right after its health check, and nothing follows a failed
    attempt. *)
Inductive tick_pattern : list Event → Prop :=
| tp_end : tick_pattern []
| tp_healthy l :
    tick_pattern l → tick_pattern (EvHealthCheck true :: l)
| tp_recovered l :
    tick_pattern l → tick_pattern (EvHealthCheck false :: EvRecovery true :: l)
| tp_failed : tick_pattern [EvHealthCheck false; EvRecovery false].

(** The events a call adds to the trace of [r], given the state [r'] it
    ends in. *)
Definition new_events (r r' : RunnerState) : list Event :=
  drop (length (trace r)) (trace r').

(** The health checks and recovery attempts, and the number of failures,
    in the trace of a state. *)
Definition ticks (r : RunnerState) : list Event := tick_events (trace r).
Definition failures (r : RunnerState) : nat := count is_failure (trace r).

(** [r'] differs from [r] in its metrics only. *)
Definition metrics_only (r r' : RunnerState) : Prop :=
  ∃ m, r' = set_metrics m r.

(** From [r] to [r'] the clock and [running] are unchanged and the trace
    has grown by invocations of [selfware resume] and written files
    only. *)
Definition quiet (r r' : RunnerState) : Prop :=
  clock r' = clock r ∧ running r' = running r
  ∧ trace r `prefix_of` trace r'
  ∧ ticks r' = ticks r ∧ failures r' = failures r.

(** The call [m] relates the state it starts in to the state it ends in
    by [R], and it has an outcome. *)
Definition keeps {A} (R : relation RunnerState) (m : M A) : Prop :=
  ∀ r, R r (m r).1 ∧ (m r).2 ≠ Diverge.

End RunnerSpec.

Module Worlds.

Import Runner.

Definition config0 : TestConfig := mkTestConfig "s1" "task_queue" 6 6 10.

(** The executor has not started: no checkpoint directory, no signal;
    [selfware resume] would succeed. *)
Definition w_absent : World :=
  mkWorld (λ _, None) (λ _ _, Some 0%Z) (λ _, None) (λ _, false).

(** One checkpoint file, last modified at time 0, whose text is not JSON. *)
Definition dir_malformed : gmap string File :=
  {[ "task-1.json" := mkFile 0 None ]}.

Definition w_malformed : World :=
  mkWorld (λ _, Some dir_malformed) (λ _ _, Some 0%Z) (λ _, None) (λ _, false).

(** One well-formed checkpoint file, last modified at time 0. *)
Definition dir_one : gmap string File :=
  {[ "task-1.json" :=
       mkFile 0 (Some (PDict {[ "estimated_tokens" := PInt 1200;
                                "current_step" := PInt 4;
                                "errors" := PList [PStr "e"] ]})) ]}.

Definition w_one : World :=
  mkWorld (λ _, Some dir_one) (λ _ _, Some 0%Z) (λ _, None) (λ _, false).

(** As [w_one], but [selfware resume] exits with code 1. *)
Definition w_one_failing : World :=
  mkWorld (λ _, Some dir_one) (λ _ _, Some 1%Z) (λ _, None) (λ _, false).

(** A configuration whose checkpoint interval is zero: the runner records
    a checkpoint of its own at every tick. *)
Definition config_every_tick : TestConfig :=
  mkTestConfig "s1" "task_queue" 6 6 0.

(** A runner inside its session, with the clock at [t]. *)
Definition runner_at (t : Q) : RunnerState :=
  set_running true (MegaTestRunner_init t).

End Worlds.

(* ===================================================================== *)
(** ** Vocabulary of the further properties *)
(* ===================================================================== *)

Module CheckpointSpec.

Import Checkpoint.

Section Replay.

Context {Message MemoryEntry ToolCallLog ErrorLog : Type}.
Context {GitCheckpointInfo DateTime : Type}.

(** The delta adds no element to any sequence. *)
Definition adds_nothing
    (d : CheckpointDelta Message MemoryEntry ToolCallLog ErrorLog
           GitCheckpointInfo DateTime) : Prop :=
  new_messages d = [] ∧ new_memory_entries d = []
  ∧ new_tool_calls d = [] ∧ new_errors d = [].

(** Every sequence of [c] is a prefix of the same sequence of [c'], and
    [c'] does not lack a marker that [c] has. *)
Definition extends
    (c c' : TaskCheckpoint Message MemoryEntry ToolCallLog ErrorLog
              GitCheckpointInfo DateTime) : Prop :=
  task_id c' = task_id c
  ∧ messages c `prefix_of` messages c'
  ∧ memory_entries c `prefix_of` memory_entries c'
  ∧ tool_calls c `prefix_of` tool_calls c'
  ∧ errors c `prefix_of` errors c'
  ∧ (git_checkpoint c' = None → git_checkpoint c = None).

End Replay.

End CheckpointSpec.

Module Examples2.

Import Checkpoint Examples.

(** Version 2 of the task of [cp3]: two messages, nothing else yet. *)
Definition cp2 : checkpoint :=
  mkTaskCheckpoint "task-1" 2 Pending 1 1 ["m1"; "m2"] [] [] [] 80 None 940%Z.

End Examples2.

Module SessionSpec.

Import Runner RunnerSpec.

Section WithWorld.

Variable w : World.
Variable config : TestConfig.

(** The phases of [run] with their budgets, in order. *)
Definition session_phases : list (string * Z) :=
  [ ("bootstrap", 60 * 60); ("development", 2 * 60 * 60);
    ("refinement", 2 * 60 * 60); ("finalization", 60 * 60) ]%Z.

(** The [try] block of [run] as a recursion over its phases: the phases run
    in order while they return [True]; after the last one the status
    becomes "completed". *)
Fixpoint run_phases (phases : list (string * Z)) : M bool :=
  match phases with
  | [] => modify_metrics (set_status "completed");; mret true
  | (phase, duration_seconds) :: phases =>
      ok ← _run_phase w config phase duration_seconds;
      if negb ok then mret false else run_phases phases
  end.

(** [phases_run phases r r' o]: running [phases] in order from [r] ends in
    [r'], either after all of them returned [True] ([o] is [Return true])
    or at the first one with another outcome [o]. *)
Inductive phases_run :
    list (string * Z) → RunnerState → RunnerState → outcome bool → Prop :=
| phases_done r : phases_run [] r r (Return true)
| phases_next phase d phases r r1 r' o :
    _run_phase w config phase d r = (r1, Return true) →
    phases_run phases r1 r' o →
    phases_run ((phase, d) :: phases) r r' o
| phases_stop phase d phases r r1 o :
    _run_phase w config phase d r = (r1, o) → o ≠ Return true →
    phases_run ((phase, d) :: phases) r r1 o.

(** The state [run] hands to [_finalize_session], given the state [r] and
    the outcome [o] the phases ended with. *)
Definition before_finalize (r : RunnerState) (o : outcome bool) : RunnerState :=
  match o with
  | Return true => set_metrics (set_status "completed" (metrics r)) r
  | Raise e =>
      set_metrics
        (set_status "failed"
           (metrics (set_trace (trace r ++ [EvSessionFailed e]) r)))
        (set_trace (trace r ++ [EvSessionFailed e]) r)
  | _ => r
  end.

(** The end of a pass of the loop that does not return: the snapshot and
    the sleep. *)
Definition end_of_pass (last_checkpoint : Q) : M (Q + bool) :=
  r ← get;
  record_snapshot config (metrics r);;
  time_sleep w 30;;
  mret (inl last_checkpoint).

(** A pass of the loop after its update of the metrics. *)
Definition after_update (last_checkpoint : Q) : M (Q + bool) :=
  let checkpoint_interval := (checkpoint_interval_min config * 60)%Z in
  t ← time_time;
  last_checkpoint ←
    (if Qle_bool (inject_Z checkpoint_interval) (t - last_checkpoint)
     then _create_checkpoint w config;; time_time
     else mret last_checkpoint);
  healthy ← _health_check w;
  emit (EvHealthCheck healthy);;
  if negb healthy then
    recovered ← _attempt_recovery w;
    emit (EvRecovery recovered);;
    if negb recovered then mret (inr false) else end_of_pass last_checkpoint
  else end_of_pass last_checkpoint.


End WithWorld.

(** The status of the metrics is unchanged. *)
Definition same_status (r r' : RunnerState) : Prop :=
  status (metrics r') = status (metrics r).

(** If the metrics and every recorded snapshot have the status [s] in [r],
    they have it in [r']. *)
Definition keeps_status_of_history (s : string) (r r' : RunnerState) : Prop :=
  status (metrics r) = s
  ∧ Forall (λ snap, status (s_metrics snap) = s) (metrics_history r) →
  status (metrics r') = s
  ∧ Forall (λ snap, status (s_metrics snap) = s) (metrics_history r').

(** The event is not the writing of a file outside the directory [dir]. *)
Definition written_under (dir : string) (e : Event) : Prop :=
  match e with
  | EvWrite path _ => ∃ rest, path = dir +:+ "/" +:+ rest
  | _ => True
  end.

(** The trace has grown by events that write under [dir] only. *)
Definition writes_under (dir : string) (r r' : RunnerState) : Prop :=
  ∃ evs, trace r' = trace r ++ evs ∧ Forall (written_under dir) evs.

(** The phase and its start are unchanged. *)
Definition same_phase_start (r r' : RunnerState) : Prop :=
  phase_start_time r' = phase_start_time r
  ∧ current_phase r' = current_phase r.

(** The object [_update_metrics] reads the fields from, for the content
    [c] of a checkpoint file: the ["payload"] of an envelope, the object
    itself when it has no such key ([None]: neither shape). *)
Definition payload_of (c : option pyval) : option (gmap string pyval) :=
  match c with
  | Some (PDict d) =>
      match d !! "payload" with
      | None => Some d
      | Some (PDict m) => Some m
      | Some _ => None
      end
  | _ => None
  end.

(** One snapshot is recorded for each sleep: the history has grown by as
    many snapshots as the clock has advanced by sleeps of 30 seconds. *)
Definition snapshot_per_sleep (r r' : RunnerState) : Prop :=
  ∃ n : nat,
    length (metrics_history r') = (length (metrics_history r) + n)%nat
    ∧ (clock r' == clock r + 30 * inject_Z (Z.of_nat n))%Q.


(** Only the metrics differ, and not in the elapsed time. *)
Definition same_elapsed (r r' : RunnerState) : Prop :=
  ∃ m, r' = set_metrics m r
    ∧ elapsed_seconds m = elapsed_seconds (metrics r).

(** The elapsed time of the metrics is unchanged, and the history has
    grown by snapshots that carry it. *)
Definition carries_elapsed (r r' : RunnerState) : Prop :=
  elapsed_seconds (metrics r') = elapsed_seconds (metrics r)
  ∧ ∃ snaps, metrics_history r' = metrics_history r ++ snaps
      ∧ Forall (λ snap, elapsed_seconds (s_metrics snap)
                        = elapsed_seconds (metrics r)) snaps.


(** A verdict that lets the pass go on to its snapshot: a healthy check
    or a recovery that succeeded. *)
Definition is_passed (e : Event) : bool :=
  match e with
  | EvHealthCheck true | EvRecovery true => true
  | _ => false
  end.

(** One snapshot is recorded for each pass that got past its health
    check: the history has grown by as many snapshots as the new events
    have passed verdicts. *)
Definition snapshot_per_tick (r r' : RunnerState) : Prop :=
  ∃ evs, trace r' = trace r ++ evs
    ∧ length (metrics_history r')
      = (length (metrics_history r) + count is_passed evs)%nat.

(** The times at which the checkpoints of the runner among [evs] were
    written, oldest first. *)
Definition checkpoint_times (evs : list Event) : list Q :=
  omap (λ e, match e with
             | EvWrite _ (CheckpointFile d) => Some (cp_timestamp d)
             | _ => None
             end) evs.


(** No checkpoint of the runner is written, and the clock does not go
    back. *)
Definition no_checkpoint (r r' : RunnerState) : Prop :=
  (clock r <= clock r')%Q
  ∧ ∃ evs, trace r' = trace r ++ evs ∧ checkpoint_times evs = [].


(** The character [c] occurs in [s]. *)
Fixpoint has_char (c : ascii) (s : string) : bool :=
  match s with
  | EmptyString => false
  | String a s' => Ascii.eqb a c || has_char c s'
  end.

(** [s] is a single path component: not empty, no separator, and neither
    the dot nor the double dot. *)
Definition plain_name (s : string) : Prop :=
  has_char "/" s = false ∧ s ≠ "" ∧ s ≠ "." ∧ s ≠ "..".

(** The budgets of [phases] together, in seconds. *)
Definition total_budget (phases : list (string * Z)) : Z :=
  foldr (λ p s, (p.2 + s)%Z) 0%Z phases.

(** The budget of each phase is a whole number of sleeps of the loop. *)
Definition whole_sleeps (phases : list (string * Z)) : Prop :=
  Forall (λ p, ∃ k : nat, p.2 = (30 * Z.of_nat k)%Z) phases.

End SessionSpec.

Module Worlds2.

Import Runner.


(** The checkpoint of [Worlds.dir_one] inside an envelope. *)
Definition dir_envelope : gmap string File :=
  {[ "task-1.json" :=
       mkFile 0 (Some (PDict {[ "payload" :=
                  PDict {[ "estimated_tokens" := PInt 1200;
                           "current_step" := PInt 4;
                           "errors" := PList [PStr "e"] ]} ]})) ]}.

Definition w_envelope : World :=
  mkWorld (λ _, Some dir_envelope) (λ _ _, Some 0%Z) (λ _, None) (λ _, false).

(** One checkpoint file, last modified at time 0, whose token estimate is
    a text. *)
Definition dir_bad_tokens : gmap string File :=
  {[ "task-1.json" :=
       mkFile 0 (Some (PDict {[ "estimated_tokens" := PStr "many" ]})) ]}.

Definition w_bad_tokens : World :=
  mkWorld (λ _, Some dir_bad_tokens) (λ _ _, Some 0%Z) (λ _, None) (λ _, false).

End Worlds2.

(* ===================================================================== *)
(** ** Properties of the checkpoint deltas *)
(* ===================================================================== *)

Module CheckpointFacts.

Import Checkpoint.

Section Facts.

Context {Message MemoryEntry ToolCallLog ErrorLog : Type}.
Context {GitCheckpointInfo DateTime : Type}.
Context `{!EqDecision GitCheckpointInfo}.

Local Abbreviation checkpoint :=
  (TaskCheckpoint Message MemoryEntry ToolCallLog ErrorLog
     GitCheckpointInfo DateTime).
Local Abbreviation delta :=
  (CheckpointDelta Message MemoryEntry ToolCallLog ErrorLog
     GitCheckpointInfo DateTime).

Lemma appended_drop {A} (cur base : list A) :
  appended cur base = drop (length base) cur.
Proof.
  unfold appended. destruct (Nat.ltb_spec (length base) (length cur)) as [H|H].
  - reflexivity.
  - symmetry. apply drop_ge. exact H.
Qed.

Lemma appended_prefix {A} (cur base : list A) :
  base `prefix_of` cur → base ++ appended cur base = cur.
Proof.
  intros [k ->]. rewrite appended_drop, drop_app_length. reflexivity.
Qed.

Lemma appended_length {A} (cur base : list A) :
  Z.of_nat (length (appended cur base))
  = Z.max 0 (Z.of_nat (length cur) - Z.of_nat (length base)).
Proof. rewrite appended_drop, length_drop. lia. Qed.

Lemma changed_apply {A} `{!EqDecision A} (a b : A) :
  default b (changed a b) = a.
Proof.
  unfold changed. destruct (decide (a ≠ b)) as [H|H]; simpl.
  - reflexivity.
  - destruct (decide (a = b)) as [->|Hne]; [reflexivity | contradiction].
Qed.

Lemma apply_delta_ok (target : checkpoint) (delta : delta) :
  task_id target = d_task_id delta →
  apply_delta target delta = (applied target delta, Ok ()).
Proof.
  intros Hid. unfold apply_delta.
  destruct (decide (task_id target ≠ d_task_id delta)) as [Hne|_];
    [contradiction|].
  f_equal. unfold applied.
  destruct (d_status delta), (d_current_step delta),
    (d_current_iteration delta), (updated_tokens delta),
    (d_git_checkpoint delta); reflexivity.
Qed.

Lemma apply_delta_err (target : checkpoint) (delta : delta) :
  task_id target ≠ d_task_id delta →
  apply_delta target delta = (target, Err TaskMismatch).
Proof.
  intros Hne. unfold apply_delta.
  destruct (decide (task_id target ≠ d_task_id delta)); [reflexivity|].
  contradiction.
Qed.

(** C1 (as amended): for checkpoints [c] and [c'] of one task such that
    every sequence of [c] is a prefix of the corresponding sequence of
    [c'], and such that [c'] does not lack a version-control marker that
    [c] has, the delta [compute_delta c' c] exists and applying it to [c]
    succeeds and turns [c] into exactly [c']. *)
Theorem C1_delta_round_trip (c c' : checkpoint) :
  task_id c' = task_id c →
  messages c `prefix_of` messages c' →
  memory_entries c `prefix_of` memory_entries c' →
  tool_calls c `prefix_of` tool_calls c' →
  errors c `prefix_of` errors c' →
  (git_checkpoint c' = None → git_checkpoint c = None) →
  ∃ d, compute_delta c' c = Some d ∧ apply_delta c d = (c', Ok ()).
Proof.
  intros Hid Hm He Ht Hr Hgit.
  unfold compute_delta.
  destruct (decide (task_id c' ≠ task_id c)) as [Hne|_]; [contradiction|].
  eexists. split; [reflexivity|].
  rewrite apply_delta_ok by (symmetry; exact Hid).
  f_equal. unfold applied.
  cbn [target_version d_updated_at d_status d_current_step
       d_current_iteration new_messages new_memory_entries new_tool_calls
       new_errors updated_tokens d_git_checkpoint].
  rewrite !changed_apply, !appended_prefix by assumption.
  assert (Hg : match (if decide (git_checkpoint c' ≠ git_checkpoint c)
                      then git_checkpoint c' else None) with
               | Some git => Some git
               | None => git_checkpoint c
               end = git_checkpoint c').
  { destruct (decide (git_checkpoint c' ≠ git_checkpoint c)) as [Hd|Hd].
    - destruct (git_checkpoint c') as [x|]; [reflexivity|].
      apply Hgit. reflexivity.
    - destruct (decide (git_checkpoint c' = git_checkpoint c)) as [->|];
        [|contradiction].
      destruct (git_checkpoint c); reflexivity. }
  rewrite Hg, <- Hid. destruct c'; reflexivity.
Qed.

(** C2: [apply_delta] returns the error [TaskMismatch] exactly when the
    task ids differ and succeeds exactly when they agree; on success the
    target has the delta's [target_version] and [updated_at], each
    sequence extended by the delta's new elements, and each scalar
    overwritten only where the delta's optional is present (the fields
    of [applied]).  In particular a version-3 checkpoint with messages
    [m1, m2, m3] and a delta to version 4 with new message [m4] give
    version 4 and messages [m1, m2, m3, m4]. *)
Theorem C2_apply_delta_spec (target : checkpoint) (delta : delta) :
  ((apply_delta target delta).2 = Err TaskMismatch
     ↔ task_id target ≠ d_task_id delta)
  ∧ ((apply_delta target delta).2 = Ok ()
     ↔ task_id target = d_task_id delta)
  ∧ (task_id target = d_task_id delta →
     (apply_delta target delta).1 = applied target delta
     ∧ version (apply_delta target delta).1 = target_version delta
     ∧ updated_at (apply_delta target delta).1 = d_updated_at delta
     ∧ messages (apply_delta target delta).1
       = messages target ++ new_messages delta
     ∧ memory_entries (apply_delta target delta).1
       = memory_entries target ++ new_memory_entries delta
     ∧ tool_calls (apply_delta target delta).1
       = tool_calls target ++ new_tool_calls delta
     ∧ errors (apply_delta target delta).1
       = errors target ++ new_errors delta
     ∧ status (apply_delta target delta).1
       = default (status target) (d_status delta)
     ∧ current_step (apply_delta target delta).1
       = default (current_step target) (d_current_step delta)
     ∧ current_iteration (apply_delta target delta).1
       = default (current_iteration target) (d_current_iteration delta)
     ∧ estimated_tokens (apply_delta target delta).1
       = default (estimated_tokens target) (updated_tokens delta)
     ∧ git_checkpoint (apply_delta target delta).1
       = match d_git_checkpoint delta with
         | Some git => Some git
         | None => git_checkpoint target
         end)
  ∧ (∀ m1 m2 m3 m4,
       task_id target = d_task_id delta →
       version target = 3%N → messages target = [m1; m2; m3] →
       target_version delta = 4%N → new_messages delta = [m4] →
       version (apply_delta target delta).1 = 4%N
       ∧ messages (apply_delta target delta).1 = [m1; m2; m3; m4]).
Proof.
  destruct (decide (task_id target = d_task_id delta)) as [Heq|Hne].
  - rewrite (apply_delta_ok _ _ Heq). cbn [fst snd].
    split; [split; [discriminate | intros H; contradiction]|].
    split; [split; intros _; [exact Heq | reflexivity]|].
    split; [intros _; repeat split|].
    intros m1 m2 m3 m4 _ _ Hm Ht Hn. cbn [applied version messages].
    rewrite Hm, Ht, Hn. split; reflexivity.
  - rewrite (apply_delta_err _ _ Hne). cbn [fst snd].
    split; [split; intros _; [exact Hne | reflexivity]|].
    split; [split; [discriminate | intros H; contradiction]|].
    split; [intros H; contradiction|].
    intros m1 m2 m3 m4 H. contradiction.
Qed.

(** C3: [compute_delta] returns [None] exactly when the task ids differ;
    when they agree it returns a delta each of whose [new_*] fields is
    the suffix of the current sequence beyond the length of the base
    sequence, so that the number of new messages is
    [max 0 (len current.messages - len base.messages)]. *)
Theorem C3_compute_delta_spec (current base : checkpoint) :
  (compute_delta current base = None ↔ task_id current ≠ task_id base)
  ∧ (task_id current = task_id base →
     ∃ d, compute_delta current base = Some d
       ∧ new_messages d = drop (length (messages base)) (messages current)
       ∧ new_memory_entries d
         = drop (length (memory_entries base)) (memory_entries current)
       ∧ new_tool_calls d
         = drop (length (tool_calls base)) (tool_calls current)
       ∧ new_errors d = drop (length (errors base)) (errors current)
       ∧ Z.of_nat (length (new_messages d))
         = Z.max 0 (Z.of_nat (length (messages current))
                    - Z.of_nat (length (messages base)))).
Proof.
  unfold compute_delta.
  destruct (decide (task_id current ≠ task_id base)) as [Hne|Heq].
  - split; [done|]. intros H. contradiction.
  - split; [split; [discriminate|]|].
    + intros H. contradiction.
    + intros _. eexists. split; [reflexivity|]. cbn.
      rewrite appended_length, !appended_drop. done.
Qed.

(** C9: when the task ids differ, [apply_delta] returns the error and the
    target after the call is the target before the call, field for
    field. *)
Theorem C9_apply_delta_atomic (target : checkpoint) (delta : delta) :
  task_id target ≠ d_task_id delta →
  apply_delta target delta = (target, Err TaskMismatch)
  ∧ (apply_delta target delta).1 = target.
Proof.
  intros Hne. rewrite (apply_delta_err _ _ Hne). split; reflexivity.
Qed.

End Facts.

Import Examples.

(** C1 at the checkpoints of scenario C: the delta from version 3 to
    version 4 rebuilds version 4. *)
Lemma C1_delta_round_trip_witness :
  ∃ d, compute_delta cp4 cp3 = Some d ∧ apply_delta cp3 d = (cp4, Ok ()).
Proof.
  apply (C1_delta_round_trip cp3 cp4).
  - reflexivity.
  - exists ["m4"]. reflexivity.
  - exists []. reflexivity.
  - exists ["t1"]. reflexivity.
  - exists []. reflexivity.
  - intros H. discriminate H.
Defined.

(** C1 as stated fails: [cp4_unmarked] is a later checkpoint of the task of
    [cp3] and every sequence of [cp3] is a prefix of its sequence, yet the
    delta applied to [cp3] leaves the marker of [cp3] in place and so does
    not give [cp4_unmarked]. *)
Lemma C1_counterexample :
  task_id cp4_unmarked = task_id cp3
  ∧ (version cp3 < version cp4_unmarked)%N
  ∧ messages cp3 `prefix_of` messages cp4_unmarked
  ∧ memory_entries cp3 `prefix_of` memory_entries cp4_unmarked
  ∧ tool_calls cp3 `prefix_of` tool_calls cp4_unmarked
  ∧ errors cp3 `prefix_of` errors cp4_unmarked
  ∧ ∃ d, compute_delta cp4_unmarked cp3 = Some d
      ∧ git_checkpoint (apply_delta cp3 d).1 = Some "9f2c1ab"
      ∧ (apply_delta cp3 d).1 ≠ cp4_unmarked.
Proof.
  split; [reflexivity|]. split; [reflexivity|].
  do 4 (split; [exists []; reflexivity|]).
  eexists. split; [vm_compute; reflexivity|].
  split; [vm_compute; reflexivity|].
  intros H. apply (f_equal git_checkpoint) in H. vm_compute in H. discriminate H.
Qed.

(** C2 at scenario C. *)
Lemma C2_apply_delta_spec_witness :
  (apply_delta cp3 delta_3_4).1 =
    mkTaskCheckpoint "task-1" 4 Running 2 1 ["m1"; "m2"; "m3"; "m4"] ["e1"]
      [] [] 120 (Some "9f2c1ab") 1060%Z
  ∧ (apply_delta cp3 delta_3_4).2 = Ok ()
  ∧ version (apply_delta cp3 delta_3_4).1 = 4%N
  ∧ messages (apply_delta cp3 delta_3_4).1 = ["m1"; "m2"; "m3"; "m4"].
Proof.
  destruct (C2_apply_delta_spec cp3 delta_3_4) as (_ & [_ Hok] & Hres & Hscen).
  split; [exact (proj1 (Hres eq_refl))|].
  split; [exact (Hok eq_refl)|].
  apply (Hscen "m1" "m2" "m3" "m4"); reflexivity.
Defined.

(** C3 at scenario C. *)
Lemma C3_compute_delta_spec_witness :
  ∃ d, compute_delta cp4 cp3 = Some d
    ∧ new_messages d = ["m4"]
    ∧ Z.of_nat (length (new_messages d)) = 1%Z.
Proof.
  destruct (C3_compute_delta_spec cp4 cp3) as [_ H].
  destruct (H eq_refl) as (d & Hd & Hm & _ & _ & _ & Hlen).
  exists d. split; [exact Hd|]. split; [exact Hm | exact Hlen].
Defined.

(** C9 at a delta of another task. *)
Lemma C9_apply_delta_atomic_witness :
  task_id cp3 ≠ d_task_id delta_other
  ∧ apply_delta cp3 delta_other = (cp3, Err TaskMismatch).
Proof.
  assert (H : task_id cp3 ≠ d_task_id delta_other) by (intros H; discriminate H).
  split; [exact H|]. exact (proj1 (C9_apply_delta_atomic cp3 delta_other H)).
Defined.

End CheckpointFacts.

(* ===================================================================== *)
(** ** Properties of the session runner *)
(* ===================================================================== *)

Module RunnerFacts.

Import Runner RunnerSpec.

(** *** Comparisons on the rationals *)

Lemma Qltb_true (a b : Q) : Qltb a b = true ↔ (a < b)%Q.
Proof.
  unfold Qltb. rewrite negb_true_iff, <- not_true_iff_false, Qle_bool_iff.
  split; [apply Qnot_le_lt | apply Qlt_not_le].
Qed.

Lemma Qltb_false (a b : Q) : Qltb a b = false ↔ (b <= a)%Q.
Proof.
  unfold Qltb. rewrite negb_false_iff, Qle_bool_iff. reflexivity.
Qed.

(** *** The most recent checkpoint file *)

Lemma mapM_getmtime (dir : gmap string File) (paths : list string) :
  Forall (λ p, is_Some (dir !! p)) paths →
  mapM (getmtime dir) paths = Return (map (key dir) paths).
Proof.
  induction 1 as [|p paths [f Hf] _ IH]; [reflexivity|].
  cbn [mapM map]. rewrite IH. unfold getmtime. rewrite Hf.
  unfold key at 2. rewrite Hf. reflexivity.
Qed.

Lemma zip_map_key {A B} (g : A → B) (l : list A) :
  zip (map g l) l = map (λ x, (g x, x)) l.
Proof. induction l as [|x l IH]; [reflexivity|]. cbn. rewrite IH. reflexivity. Qed.

Lemma sort_head (l : list (Q * string)) :
  match foldr insert_desc [] l with
  | [] => l = []
  | h :: _ => In h l ∧ ∀ y, In y l → (y.1 <= h.1)%Q
  end.
Proof.
  induction l as [|x l IH]; [reflexivity|].
  cbn [foldr]. destruct (foldr insert_desc [] l) as [|h t].
  - subst l. cbn. split; [left; reflexivity|].
    intros y [<-|[]]. apply Qle_refl.
  - destruct IH as [Hin Hmax]. cbn [insert_desc].
    destruct (Qltb x.1 h.1) eqn:Hlt.
    + apply Qltb_true in Hlt. split; [right; exact Hin|].
      intros y [<-|Hy]; [apply Qlt_le_weak; exact Hlt | apply Hmax; exact Hy].
    + apply Qltb_false in Hlt. split; [left; reflexivity|].
      intros y [<-|Hy]; [apply Qle_refl|].
      apply Qle_trans with (y := h.1); [apply Hmax; exact Hy | exact Hlt].
Qed.

Lemma insert_desc_length (x : Q * string) (l : list (Q * string)) :
  length (insert_desc x l) = S (length l).
Proof.
  induction l as [|y l IH]; [reflexivity|]. cbn [insert_desc].
  destruct (Qltb x.1 y.1); cbn [length]; [rewrite IH|]; reflexivity.
Qed.

Lemma sort_length (l : list (Q * string)) :
  length (foldr insert_desc [] l) = length l.
Proof.
  induction l as [|x l IH]; [reflexivity|].
  cbn [foldr length]. rewrite insert_desc_length, IH. reflexivity.
Qed.

Lemma glob_json_In (dir : gmap string File) (p : string) :
  In p (glob_json dir) ↔ is_json p = true ∧ is_Some (dir !! p).
Proof.
  unfold glob_json. rewrite filter_In, <- list_elem_of_In, list_elem_of_fmap.
  split.
  - intros [([p' f] & -> & Hin) Hj]. apply elem_of_map_to_list in Hin.
    split; [exact Hj | exists f; exact Hin].
  - intros [Hj [f Hf]]. split; [|exact Hj].
    exists (p, f). split; [reflexivity|]. apply elem_of_map_to_list. exact Hf.
Qed.

Lemma glob_json_nil (dir : gmap string File) :
  glob_json dir = [] ↔ no_checkpoint_file (Some dir).
Proof.
  split.
  - intros Hnil p Hj. destruct (dir !! p) as [f|] eqn:Hf; [|reflexivity].
    assert (Hin : In p (glob_json dir)) by (apply glob_json_In; eauto).
    rewrite Hnil in Hin. destruct Hin.
  - intros Hno. destruct (glob_json dir) as [|p l] eqn:Hg; [reflexivity|].
    assert (Hin : In p (glob_json dir)) by (rewrite Hg; left; reflexivity).
    apply glob_json_In in Hin as [Hj [f Hf]].
    rewrite (Hno p Hj) in Hf. discriminate Hf.
Qed.

(** The list [_update_metrics] and [_health_check] sort is never refused,
    it has the length of the listing, and its head is a most recently
    modified checkpoint file. *)
Lemma sorted_latest (dir : gmap string File) :
  ∃ l, sorted_by_mtime_desc dir (glob_json dir) = Return l
    ∧ length l = length (glob_json dir)
    ∧ match l with
      | [] => no_checkpoint_file (Some dir)
      | p :: _ => ∃ f, is_latest dir p f
      end.
Proof.
  unfold sorted_by_mtime_desc.
  rewrite mapM_getmtime
    by (apply Forall_forall; intros p Hp;
        apply list_elem_of_In, glob_json_In in Hp; tauto).
  cbn. rewrite zip_map_key. eexists. split; [reflexivity|].
  split.
  { rewrite length_map, sort_length, length_map. reflexivity. }
  pose proof (sort_head (map (λ x, (key dir x, x)) (glob_json dir))) as H.
  destruct (foldr insert_desc [] _) as [|[k p] t].
  - apply map_eq_nil in H. apply glob_json_nil. exact H.
  - cbn. destruct H as [Hin Hmax].
    apply in_map_iff in Hin as (p' & [= <- ->] & Hin).
    apply glob_json_In in Hin as [Hj [f Hf]].
    exists f. split; [exact Hf|]. split; [exact Hj|].
    intros p' f' Hf' Hj'.
    specialize (Hmax (key dir p', p')). cbn in Hmax. unfold key in Hmax.
    rewrite Hf, Hf' in Hmax. cbn in Hmax. apply Hmax.
    apply in_map_iff. exists p'. split; [rewrite Hf'; reflexivity|].
    apply glob_json_In. eauto.
Qed.

(** *** Running a call *)

Ltac run_M :=
  cbv [mbind M_bind mret M_ret time_time get modify lift emit
       modify_metrics try_except try_finally diverge].

(** [_health_check] leaves the state as it is, and its verdict is decided
    by the age of a most recently modified checkpoint file. *)
Lemma health_check_spec (w : World) (r : RunnerState) :
  ∃ b, _health_check w r = (r, Return b)
    ∧ match selfware_checkpoints w (clock r) with
      | None => b = true
      | Some dir =>
          (no_checkpoint_file (Some dir) → b = true)
          ∧ ∀ p f, is_latest dir p f → b = negb (Qltb 300 (clock r - mtime f))
      end.
Proof.
  unfold _health_check. run_M.
  destruct (selfware_checkpoints w (clock r)) as [dir|]; [|eauto].
  destruct (sorted_latest dir) as (l & -> & _ & Hl).
  destruct l as [|p l].
  - eexists. split; [reflexivity|]. split; [reflexivity|].
    intros p f (Hf & Hj & _). rewrite (Hl p Hj) in Hf. discriminate Hf.
  - destruct Hl as (f & Hf & Hj & Hmax).
    unfold getmtime. rewrite Hf.
    exists (negb (Qltb 300 (clock r - mtime f))). split.
    { destruct (Qltb 300 (clock r - mtime f)); reflexivity. }
    split.
    { intros Hno. rewrite (Hno p Hj) in Hf. discriminate Hf. }
    intros p' f' (Hf' & Hj' & Hmax').
    specialize (Hmax _ _ Hf' Hj'). specialize (Hmax' _ _ Hf Hj).
    f_equal. destruct (Qltb 300 (clock r - mtime f)) eqn:E; symmetry.
    + apply Qltb_true in E. apply Qltb_true. lra.
    + apply Qltb_false in E. apply Qltb_false. lra.
Qed.

(** C4: the health check returns, without raising, a verdict that is
    healthy when no checkpoint file exists (no directory, or no file
    matching the pattern); otherwise a most recently modified checkpoint
    file exists, and the verdict is healthy exactly when the time since its
    modification is at most 300 seconds: healthy at 299 seconds, unhealthy
    at 301. *)
Theorem C4_health_check (w : World) (r : RunnerState) :
  ∃ healthy, _health_check w r = (r, Return healthy)
    ∧ (no_checkpoint_file (selfware_checkpoints w (clock r)) → healthy = true)
    ∧ (¬ no_checkpoint_file (selfware_checkpoints w (clock r)) →
       ∃ dir p f, selfware_checkpoints w (clock r) = Some dir
                  ∧ is_latest dir p f)
    ∧ (∀ dir p f,
         selfware_checkpoints w (clock r) = Some dir → is_latest dir p f →
         (healthy = true ↔ (clock r - mtime f <= 300)%Q)
         ∧ ((clock r - mtime f == 299)%Q → healthy = true)
         ∧ ((clock r - mtime f == 301)%Q → healthy = false)).
Proof.
  destruct (health_check_spec w r) as (b & Hrun & Hb).
  exists b. split; [exact Hrun|].
  destruct (selfware_checkpoints w (clock r)) as [dir|].
  - destruct Hb as [Hnone Hlatest]. split; [exact Hnone|]. split.
    + intros Hsome. destruct (sorted_latest dir) as (l & _ & _ & Hl).
      destruct l as [|p l]; [contradiction|].
      destruct Hl as [f Hf]. exists dir, p, f. split; [reflexivity | exact Hf].
    + intros dir' p f [= <-] Hf. rewrite (Hlatest p f Hf).
      rewrite negb_true_iff, negb_false_iff, Qltb_false, Qltb_true.
      split; [reflexivity|]. split; intros H; rewrite H; [discriminate|reflexivity].
  - split; [intros _; exact Hb|]. split.
    + intros H. destruct H. exact I.
    + intros dir p f H. discriminate H.
Qed.

Lemma is_latest_singleton (p : string) (f : File) :
  is_json p = true → is_latest {[ p := f ]} p f.
Proof.
  intros Hj. split; [apply lookup_singleton_eq|]. split; [exact Hj|].
  intros p' f' Hf' _. apply lookup_singleton_Some in Hf' as [_ <-].
  apply Qle_refl.
Qed.

(** C4 at a single checkpoint file modified at time 0: healthy at time
    299, unhealthy at time 301; and healthy without any checkpoint. *)
Lemma C4_health_check_witness :
  (_health_check Worlds.w_one (Worlds.runner_at 299)).2 = Return true
  ∧ (_health_check Worlds.w_one (Worlds.runner_at 301)).2 = Return false
  ∧ (_health_check Worlds.w_absent (Worlds.runner_at 301)).2 = Return true.
Proof.
  split; [|split].
  - destruct (C4_health_check Worlds.w_one (Worlds.runner_at 299))
      as (b & -> & _ & _ & H).
    destruct (H _ _ _ eq_refl (is_latest_singleton "task-1.json" _ eq_refl))
      as (_ & H299 & _).
    cbn. f_equal. apply H299. reflexivity.
  - destruct (C4_health_check Worlds.w_one (Worlds.runner_at 301))
      as (b & -> & _ & _ & H).
    destruct (H _ _ _ eq_refl (is_latest_singleton "task-1.json" _ eq_refl))
      as (_ & _ & H301).
    cbn. f_equal. apply H301. reflexivity.
  - destruct (C4_health_check Worlds.w_absent (Worlds.runner_at 301))
      as (b & -> & H & _).
    cbn. f_equal. apply H. exact I.
Defined.

(** *** The report *)

Lemma List_last_last {A} (l : list A) (d x : A) :
  last l = Some x → List.last l d = x.
Proof.
  induction l as [|a l IH]; [discriminate|].
  destruct l as [|b l].
  - intros [= ->]. reflexivity.
  - intros H. change (List.last (a :: b :: l) d) with (List.last (b :: l) d).
    apply IH. exact H.
Qed.

(** C8: [generate_report] is a total function of the history (it has no
    way to raise); on the empty history the report is the empty dict; on a
    history whose last entry is [l], the report has [checkpoints] equal to
    the length of the history and takes [duration_seconds], [total_tokens],
    [final_coverage], [final_loc], [errors] and [status] from [l]; hence two
    histories of one length with the same first and last entries have the
    same report. *)
Theorem C8_generate_report :
  generate_report [] = []
  ∧ (∀ h l, last h = Some l →
       generate_report h =
       [ ("duration_seconds", PInt (elapsed_seconds (s_metrics l)));
         ("total_tokens", total_tokens (s_metrics l));
         ("final_coverage", PFloat (test_coverage (s_metrics l)));
         ("final_loc", lines_of_code (s_metrics l));
         ("checkpoints", PInt (Z.of_nat (length h)));
         ("errors", PInt (errors_encountered (s_metrics l)));
         ("status", PStr (status (s_metrics l))) ])
  ∧ (∀ h h', length h = length h' → head h = head h' → last h = last h' →
       generate_report h = generate_report h').
Proof.
  assert (Hlast : ∀ h l, last h = Some l →
            generate_report h =
            [ ("duration_seconds", PInt (elapsed_seconds (s_metrics l)));
              ("total_tokens", total_tokens (s_metrics l));
              ("final_coverage", PFloat (test_coverage (s_metrics l)));
              ("final_loc", lines_of_code (s_metrics l));
              ("checkpoints", PInt (Z.of_nat (length h)));
              ("errors", PInt (errors_encountered (s_metrics l)));
              ("status", PStr (status (s_metrics l))) ]).
  { intros h l Hl. destruct h as [|first h]; [discriminate|].
    unfold generate_report. rewrite (List_last_last _ first l Hl). reflexivity. }
  split; [reflexivity|]. split; [exact Hlast|].
  intros h h' Hlen _ Hl.
  destruct (last h) as [l|] eqn:E.
  - rewrite (Hlast h l E), (Hlast h' l (eq_sym Hl)), Hlen. reflexivity.
  - apply last_None in E. subst h. destruct h'; [reflexivity | discriminate].
Qed.

(** C8 on a history of two entries. *)
Lemma C8_generate_report_witness :
  generate_report
    [ mkSnapshot 0 SessionMetrics_default;
      mkSnapshot 30 (set_elapsed_seconds 30 SessionMetrics_default) ]
  = [ ("duration_seconds", PInt 30); ("total_tokens", PInt 0);
      ("final_coverage", PFloat 0); ("final_loc", PInt 0);
      ("checkpoints", PInt 2); ("errors", PInt 0);
      ("status", PStr "running") ].
Proof.
  exact (proj1 (proj2 C8_generate_report)
           [ mkSnapshot 0 SessionMetrics_default;
             mkSnapshot 30 (set_elapsed_seconds 30 SessionMetrics_default) ]
           (mkSnapshot 30 (set_elapsed_seconds 30 SessionMetrics_default))
           eq_refl).
Defined.

(** *** Frames: what a call leaves alone *)

Lemma run_bind {A B} (m : M A) (f : A → M B) (r : RunnerState) :
  (m ≫= f) r =
  match m r with
  | (r', Return a) => f a r'
  | (r', Raise e) => (r', Raise e)
  | (r', Diverge) => (r', Diverge)
  end.
Proof. reflexivity. Qed.

Section Frame.

Context (R : relation RunnerState) `{!PreOrder R}.

Lemma keeps_ret {A} (a : A) : keeps R (mret a : M A).
Proof. intros r. split; [reflexivity | discriminate]. Qed.

Lemma keeps_bind {A B} (m : M A) (f : A → M B) :
  keeps R m → (∀ a, keeps R (f a)) → keeps R (m ≫= f).
Proof.
  intros Hm Hf r. rewrite run_bind. specialize (Hm r).
  destruct (m r) as [r1 [a|e|]]; cbn [fst snd] in Hm; destruct Hm as [H1 H2].
  - destruct (Hf a r1) as [H3 H4]. split; [|exact H4].
    transitivity r1; assumption.
  - split; [exact H1 | discriminate].
  - contradiction.
Qed.

Lemma keeps_lift {A} (o : outcome A) : o ≠ Diverge → keeps R (lift o).
Proof. intros Ho r. split; [reflexivity | exact Ho]. Qed.

Lemma keeps_get : keeps R get.
Proof. intros r. split; [reflexivity | discriminate]. Qed.

Lemma keeps_time_time : keeps R time_time.
Proof. intros r. split; [reflexivity | discriminate]. Qed.

Lemma keeps_modify (f : RunnerState → RunnerState) :
  (∀ r, R r (f r)) → keeps R (modify f).
Proof. intros Hf r. split; [apply Hf | discriminate]. Qed.

Lemma keeps_try_except {A} (m : M A) (h : exn → M A) :
  keeps R m → (∀ e, keeps R (h e)) → keeps R (try_except m h).
Proof.
  intros Hm Hh r. unfold try_except. specialize (Hm r).
  destruct (m r) as [r1 [a|e|]]; cbn [fst snd] in Hm; destruct Hm as [H1 H2].
  - split; [exact H1 | discriminate].
  - destruct (Hh e r1) as [H3 H4]. split; [|exact H4].
    transitivity r1; assumption.
  - contradiction.
Qed.

End Frame.

Lemma keeps_weaken {A} (R R' : relation RunnerState) (m : M A) :
  (∀ r r', R r r' → R' r r') → keeps R m → keeps R' m.
Proof. intros HR Hm r. destruct (Hm r) as [H1 H2]. split; [apply HR, H1 | exact H2]. Qed.

Lemma metrics_only_preorder : PreOrder metrics_only.
Proof.
  split.
  - intros r. exists (metrics r). destruct r; reflexivity.
  - intros r1 r2 r3 [m1 ->] [m2 ->]. exists m2. reflexivity.
Qed.

#[local] Existing Instance metrics_only_preorder.

Lemma tick_events_app (l1 l2 : list Event) :
  tick_events (l1 ++ l2) = tick_events l1 ++ tick_events l2.
Proof. apply List.filter_app. Qed.

Lemma count_app (p : Event → bool) (l1 l2 : list Event) :
  count p (l1 ++ l2) = (count p l1 + count p l2)%nat.
Proof. unfold count. rewrite List.filter_app, length_app. reflexivity. Qed.

Lemma quiet_preorder : PreOrder quiet.
Proof.
  split.
  - intros r. repeat split; reflexivity.
  - intros r1 r2 r3 (Hc1 & Hr1 & Hp1 & Ht1 & Hf1) (Hc2 & Hr2 & Hp2 & Ht2 & Hf2).
    repeat split; try congruence. transitivity (trace r2); assumption.
Qed.

#[local] Existing Instance quiet_preorder.

Lemma metrics_only_quiet (r r' : RunnerState) : metrics_only r r' → quiet r r'.
Proof. intros [m ->]. repeat split; reflexivity. Qed.

(** Recording an invocation of [selfware resume] or a written file. *)
Lemma quiet_emit (e : Event) (r : RunnerState) :
  is_tick_event e = false → is_failure e = false →
  quiet r (set_trace (trace r ++ [e]) r).
Proof.
  intros Ht Hf. unfold quiet, ticks, failures. cbn [clock running trace set_trace].
  split; [reflexivity|]. split; [reflexivity|].
  split; [apply prefix_app_r; reflexivity|].
  rewrite tick_events_app, count_app. unfold tick_events, count.
  cbn [List.filter]. rewrite Ht, Hf. cbn [length].
  rewrite app_nil_r, Nat.add_0_r. split; reflexivity.
Qed.

(** *** The pure helpers have an outcome *)

Lemma json_load_outcome dir p : json_load dir p ≠ Diverge.
Proof. unfold json_load. destruct (dir !! p) as [[m [c|]]|]; discriminate. Qed.

Lemma py_get_outcome d k v : py_get d k v ≠ Diverge.
Proof. destruct d; discriminate. Qed.

Lemma py_len_outcome v : py_len v ≠ Diverge.
Proof. destruct v; discriminate. Qed.

Lemma py_mul_int_outcome v k : py_mul_int v k ≠ Diverge.
Proof. destruct v; discriminate. Qed.

Lemma py_int_add_outcome k v : py_int_add k v ≠ Diverge.
Proof. destruct v; discriminate. Qed.

Lemma py_truediv_outcome v x : py_truediv v x ≠ Diverge.
Proof. unfold py_truediv. destruct v, (Qeq_bool x 0); discriminate. Qed.

Lemma getmtime_outcome dir p : getmtime dir p ≠ Diverge.
Proof. unfold getmtime. destruct (dir !! p); discriminate. Qed.

Lemma sorted_outcome dir : sorted_by_mtime_desc dir (glob_json dir) ≠ Diverge.
Proof. destruct (sorted_latest dir) as (l & -> & _). discriminate. Qed.

Create HintDb outcome.

#[local] Hint Resolve json_load_outcome py_get_outcome py_len_outcome
  py_mul_int_outcome py_int_add_outcome py_truediv_outcome getmtime_outcome
  sorted_outcome : outcome.

(** Decompose a goal [keeps R m] along the structure of [m]. *)
Ltac keeps_step :=
  lazymatch goal with
  | |- keeps _ (mbind _ _) =>
      eapply keeps_bind; [typeclasses eauto | | intros ?]
  | |- keeps _ (mret _) => eapply keeps_ret; typeclasses eauto
  | |- keeps _ (lift _) =>
      eapply keeps_lift; [typeclasses eauto | auto with outcome]
  | |- keeps _ get => eapply keeps_get; typeclasses eauto
  | |- keeps _ time_time => eapply keeps_time_time; typeclasses eauto
  | |- keeps _ (try_except _ _) =>
      eapply keeps_try_except; [typeclasses eauto | | intros ?]
  | |- keeps _ (match ?x with _ => _ end) => destruct x
  end.

Section WithWorld.

Variable w : World.
Variable config : TestConfig.

Lemma keeps_modify_metrics (f : SessionMetrics → SessionMetrics) :
  keeps metrics_only (modify_metrics f).
Proof. apply keeps_modify. intros r. eexists. reflexivity. Qed.

(** [_update_metrics] assigns to fields of the metrics only. *)
Lemma update_metrics_keeps : keeps metrics_only (_update_metrics w).
Proof.
  unfold _update_metrics. cbv zeta.
  repeat first [ apply keeps_modify_metrics | keeps_step ].
Qed.

Lemma keeps_modify_metrics_quiet (f : SessionMetrics → SessionMetrics) :
  keeps quiet (modify_metrics f).
Proof.
  apply (keeps_weaken metrics_only); [apply metrics_only_quiet|].
  apply keeps_modify_metrics.
Qed.

Lemma keeps_emit (e : Event) :
  is_tick_event e = false → is_failure e = false → keeps quiet (emit e).
Proof. intros Ht Hf. apply keeps_modify. intros r. apply quiet_emit; assumption. Qed.

Lemma keeps_set_last_checkpoint (v : option string) :
  keeps quiet (modify (set_last_checkpoint v)).
Proof. apply keeps_modify. intros r. repeat split; reflexivity. Qed.

End WithWorld.

Ltac quiet_step :=
  first
    [ apply keeps_modify_metrics_quiet
    | apply keeps_emit; reflexivity
    | apply keeps_set_last_checkpoint
    | keeps_step ].

Section Operations.

Variable w : World.
Variable config : TestConfig.

Lemma create_checkpoint_keeps : keeps quiet (_create_checkpoint w config).
Proof.
  unfold _create_checkpoint, create_checkpoint, _get_git_commit. cbv zeta.
  repeat quiet_step.
Qed.

Lemma record_snapshot_keeps (m : SessionMetrics) :
  keeps quiet (record_snapshot config m).
Proof.
  unfold record_snapshot. cbv zeta. repeat quiet_step.
  apply keeps_modify. intros r. repeat split; reflexivity.
Qed.

Lemma attempt_recovery_keeps : keeps quiet (_attempt_recovery w).
Proof.
  unfold _attempt_recovery, restore_checkpoint. cbv zeta. repeat quiet_step.
Qed.

Lemma update_metrics_quiet : keeps quiet (_update_metrics w).
Proof.
  apply (keeps_weaken metrics_only); [apply metrics_only_quiet|].
  apply update_metrics_keeps.
Qed.

(** [_attempt_recovery] returns a verdict; it does not raise. *)
Lemma attempt_recovery_returns (r : RunnerState) :
  ∃ b, (_attempt_recovery w r).2 = Return b.
Proof.
  unfold _attempt_recovery, restore_checkpoint. run_M.
  destruct (last_checkpoint r) as [p|]; [|eauto].
  destruct (selfware_resume w (clock r) (path_stem p)); eauto.
Qed.

(** [record_snapshot] and [_create_checkpoint] return. *)
Lemma record_snapshot_returns (m : SessionMetrics) (r : RunnerState) :
  (record_snapshot config m r).2 = Return ().
Proof. reflexivity. Qed.

Lemma create_checkpoint_returns (r : RunnerState) :
  (_create_checkpoint w config r).2 = Return ()
  ∧ status (metrics (_create_checkpoint w config r).1) = status (metrics r).
Proof.
  unfold _create_checkpoint, create_checkpoint, _get_git_commit. run_M.
  destruct (git_rev_parse w (clock r)) as [[rc out]|]; split; reflexivity.
Qed.

Lemma time_sleep_run (seconds : Q) (r : RunnerState) :
  time_sleep w seconds r =
  (set_clock (clock r + seconds)
     (if signal_during_sleep w (clock r) then set_running false r else r),
   Return ()).
Proof.
  unfold time_sleep. run_M.
  destruct (signal_during_sleep w (clock r)); reflexivity.
Qed.

End Operations.

(** *** One pass of the phase loop *)

Section Iteration.

Variable w : World.
Variable config : TestConfig.

Lemma ticks_emit (e : Event) (r : RunnerState) :
  ticks (set_trace (trace r ++ [e]) r)
  = ticks r ++ (if is_tick_event e then [e] else []).
Proof. unfold ticks. cbn [trace set_trace]. apply tick_events_app. Qed.

Lemma failures_emit (e : Event) (r : RunnerState) :
  failures (set_trace (trace r ++ [e]) r)
  = (failures r + (if is_failure e then 1 else 0))%nat.
Proof.
  unfold failures. cbn [trace set_trace]. rewrite count_app. f_equal.
  unfold count. cbn [List.filter]. destruct (is_failure e); reflexivity.
Qed.

(** The end of a pass that does not return: the snapshot is recorded and
    the runner sleeps 30 seconds. *)
Lemma rest_spec (last_checkpoint : Q) (r : RunnerState) :
  ∃ r', (get ≫= λ r0, record_snapshot config (metrics r0);;
         time_sleep w 30;; mret (inl last_checkpoint : Q + bool)) r
        = (r', Return (inl last_checkpoint))
    ∧ clock r' = (clock r + 30)%Q
    ∧ running r' = (if signal_during_sleep w (clock r) then false else running r)
    ∧ trace r `prefix_of` trace r'
    ∧ ticks r' = ticks r ∧ failures r' = failures r.
Proof.
  rewrite run_bind. cbn [get]. rewrite run_bind.
  destruct (record_snapshot_keeps config (metrics r) r) as [Hq _].
  pose proof (record_snapshot_returns config (metrics r) r) as Hret.
  destruct (record_snapshot config (metrics r) r) as [r1 o1].
  cbn [fst snd] in Hq, Hret. subst o1.
  rewrite run_bind, time_sleep_run.
  destruct Hq as (Hc & Hr & Hp & Ht & Hf).
  eexists. split; [reflexivity|].
  rewrite <- Hc, <- Hr, <- Ht, <- Hf.
  destruct (signal_during_sleep w (clock r1)); repeat split; assumption.
Qed.

Lemma time_time_run (r : RunnerState) : time_time r = (r, Return (clock r)).
Proof. reflexivity. Qed.

Lemma emit_run (e : Event) (r : RunnerState) :
  emit e r = (set_trace (trace r ++ [e]) r, Return ()).
Proof. reflexivity. Qed.

Lemma checkpoint_step_keeps (due : bool) (last_checkpoint : Q) :
  keeps quiet
    (if due then _create_checkpoint w config;; time_time
     else mret last_checkpoint).
Proof.
  destruct due; [|quiet_step].
  quiet_step; [apply create_checkpoint_keeps | quiet_step].
Qed.

(** What one pass does to the clock, to [running] and to the trace,
    according to its outcome. *)
Lemma iteration_spec (last_checkpoint : Q) (r : RunnerState) :
  ∃ r' o, phase_iteration w config last_checkpoint r = (r', o)
    ∧ trace r `prefix_of` trace r'
    ∧ match o with
      | Raise e => quiet r r'
      | Return (inl _) =>
          clock r' = (clock r + 30)%Q
          ∧ running r'
            = (if signal_during_sleep w (clock r) then false else running r)
          ∧ failures r' = failures r
          ∧ (ticks r' = ticks r ++ [EvHealthCheck true]
             ∨ ticks r' = ticks r ++ [EvHealthCheck false; EvRecovery true])
      | Return (inr b) =>
          b = false ∧ clock r' = clock r ∧ running r' = running r
          ∧ failures r' = S (failures r)
          ∧ ticks r' = ticks r ++ [EvHealthCheck false; EvRecovery false]
      | Diverge => False
      end.
Proof.
  unfold phase_iteration. cbv zeta. rewrite run_bind.
  destruct (update_metrics_quiet w r) as [Hq1 Hd1].
  destruct (_update_metrics w r) as [r1 [[]|e|]]; cbn [fst snd] in Hq1, Hd1;
    [| exists r1, (Raise e); split; [reflexivity|]; split; [apply Hq1 | exact Hq1]
     | contradiction ].
  rewrite run_bind, time_time_run. cbv beta iota. rewrite run_bind.
  destruct (checkpoint_step_keeps
              (Qle_bool
                 (inject_Z (checkpoint_interval_min config * 60))
                 (clock r1 - last_checkpoint)) last_checkpoint r1)
    as [Hq2 Hd2].
  match type of Hq2 with
  | quiet _ (fst ?x) => destruct x as [r2 [last'|e|]]
  end;
    cbn [fst snd] in Hq2, Hd2;
    [| exists r2, (Raise e); split; [reflexivity|];
       assert (Hq : quiet r r2) by (transitivity r1; assumption);
       split; [apply Hq | exact Hq]
     | contradiction ].
  assert (Hq : quiet r r2) by (transitivity r1; assumption).
  clear Hq1 Hd1 Hq2 Hd2 r1.
  destruct Hq as (Hc & Hr & Hp & Ht & Hf).
  rewrite run_bind.
  destruct (health_check_spec w r2) as (healthy & -> & _).
  cbv beta iota. rewrite run_bind, emit_run. cbv beta iota.
  set (r3 := set_trace (trace r2 ++ [EvHealthCheck healthy]) r2).
  assert (Hp3 : trace r `prefix_of` trace r3).
  { transitivity (trace r2); [exact Hp|]. apply prefix_app_r. reflexivity. }
  assert (Ht3 : ticks r3 = ticks r ++ [EvHealthCheck healthy]).
  { unfold r3. rewrite ticks_emit, Ht. reflexivity. }
  assert (Hf3 : failures r3 = failures r).
  { unfold r3. rewrite failures_emit, Hf. cbn. lia. }
  assert (Hc3 : clock r3 = clock r) by exact Hc.
  assert (Hr3 : running r3 = running r) by exact Hr.
  clearbody r3. clear Hc Hr Hp Ht Hf r2.
  destruct healthy; cbn [negb].
  - destruct (rest_spec last' r3)
      as (r' & -> & Hc' & Hr' & Hp' & Ht' & Hf').
    exists r', (Return (inl last')). split; [reflexivity|].
    split; [transitivity (trace r3); assumption|].
    rewrite Hc', Hr', Ht', Hf', Hc3, Hr3, Ht3, Hf3.
    repeat split. left. reflexivity.
  - rewrite run_bind.
    destruct (attempt_recovery_keeps w r3) as [Hq4 _].
    destruct (attempt_recovery_returns w r3) as [recovered Hret].
    destruct (_attempt_recovery w r3) as [r4 o4]. cbn [fst snd] in Hq4, Hret.
    subst o4. rewrite run_bind, emit_run. cbv beta iota.
    destruct Hq4 as (Hc4 & Hr4 & Hp4 & Ht4 & Hf4).
    set (r5 := set_trace (trace r4 ++ [EvRecovery recovered]) r4).
    assert (Hp5 : trace r `prefix_of` trace r5).
    { transitivity (trace r3); [exact Hp3|].
      transitivity (trace r4); [exact Hp4|]. apply prefix_app_r. reflexivity. }
    assert (Ht5 : ticks r5
                  = ticks r ++ [EvHealthCheck false; EvRecovery recovered]).
    { unfold r5. rewrite ticks_emit, Ht4, Ht3, <- app_assoc. reflexivity. }
    assert (Hf5 : failures r5
                  = (failures r + (if recovered then 0 else 1))%nat).
    { unfold r5. rewrite failures_emit, Hf4, Hf3. destruct recovered; reflexivity. }
    assert (Hc5 : clock r5 = clock r) by (cbn; congruence).
    assert (Hr5 : running r5 = running r) by (cbn; congruence).
    clearbody r5.
    destruct recovered; cbn [negb].
    + destruct (rest_spec last' r5)
        as (r' & -> & Hc' & Hr' & Hp' & Ht' & Hf').
      exists r', (Return (inl last')). split; [reflexivity|].
      split; [transitivity (trace r5); assumption|].
      rewrite Hc', Hr', Ht', Hf', Hc5, Hr5, Ht5, Hf5.
      repeat split; [lia|]. right. reflexivity.
    + exists r5, (Return (inr false)). split; [reflexivity|].
      split; [exact Hp5|]. rewrite Hf5. repeat split; try assumption. lia.
Qed.

End Iteration.
(** *** The phase loop *)

Section Loop.

Variable w : World.
Variable config : TestConfig.

Lemma phase_loop_S (fuel : nat) (phase_end last_checkpoint : Q) (r : RunnerState) :
  phase_loop w config (S fuel) phase_end last_checkpoint r =
  if running r && Qltb (clock r) phase_end then
    match phase_iteration w config last_checkpoint r with
    | (r', Return (inl last_checkpoint)) =>
        phase_loop w config fuel phase_end last_checkpoint r'
    | (r', Return (inr b)) => (r', Return b)
    | (r', Raise e) => (r', Raise e)
    | (r', Diverge) => (r', Diverge)
    end
  else (r, Return true).
Proof.
  cbn [phase_loop]. rewrite run_bind. cbn [get].
  destruct (running r && Qltb (clock r) phase_end); [|reflexivity].
  rewrite run_bind.
  destruct (phase_iteration w config last_checkpoint r) as [r' [[l|b]|e|]];
    reflexivity.
Qed.

(** The ticks of a run of the loop follow [tick_pattern], and the loop
    returns [False] exactly after a failed recovery. *)
Lemma loop_ticks (fuel : nat) :
  ∀ phase_end last_checkpoint r,
  ∃ r' o t,
    phase_loop w config fuel phase_end last_checkpoint r = (r', o)
    ∧ trace r `prefix_of` trace r'
    ∧ ticks r' = ticks r ++ t ∧ tick_pattern t
    ∧ match o with
      | Return false =>
          last t = Some (EvRecovery false) ∧ failures r' = S (failures r)
      | _ =>
          Forall (λ e, is_failure e = false) t ∧ failures r' = failures r
      end.
Proof.
  induction fuel as [|fuel IH]; intros phase_end last_checkpoint r.
  { exists r, Diverge, []. rewrite app_nil_r.
    repeat split; [reflexivity | constructor | constructor]. }
  rewrite phase_loop_S.
  destruct (running r && Qltb (clock r) phase_end).
  2:{ exists r, (Return true), []. rewrite app_nil_r.
      repeat split; [reflexivity | constructor | constructor]. }
  destruct (iteration_spec w config last_checkpoint r) as (r1 & o1 & -> & Hp & H).
  destruct o1 as [[last'|b]|e|]; [| | |contradiction].
  - destruct H as (_ & _ & Hf & Ht).
    destruct (IH phase_end last' r1) as (r' & o & t & -> & Hp' & Ht' & Hpat & Ho).
    rewrite Hf in Ho.
    assert (Hlast : ∀ pre, last t = Some (EvRecovery false) →
                           last (pre ++ t) = Some (EvRecovery false)).
    { intros pre Hl. destruct t as [|x t _] using rev_ind; [discriminate|].
      rewrite last_snoc in Hl. rewrite app_assoc, last_snoc. exact Hl. }
    assert (Hgoal : ∀ pre,
              ticks r1 = ticks r ++ pre →
              Forall (λ e, is_failure e = false) pre →
              tick_pattern (pre ++ t) →
              ∃ r'0 o0 t0,
                (r', o) = (r'0, o0) ∧ trace r `prefix_of` trace r'0
                ∧ ticks r'0 = ticks r ++ t0 ∧ tick_pattern t0
                ∧ match o0 with
                  | Return false =>
                      last t0 = Some (EvRecovery false)
                      ∧ failures r'0 = S (failures r)
                  | _ =>
                      Forall (λ e, is_failure e = false) t0
                      ∧ failures r'0 = failures r
                  end).
    { intros pre Hpre Hok Hpat'. exists r', o, (pre ++ t).
      split; [reflexivity|].
      split; [transitivity (trace r1); assumption|].
      split; [rewrite Ht', Hpre, <- app_assoc; reflexivity|].
      split; [exact Hpat'|].
      destruct o as [[|]| |];
        try (destruct Ho as [Hall Hfo]; split;
             [apply Forall_app; split; assumption | exact Hfo]).
      destruct Ho as [Hl Hfo]. split; [apply Hlast, Hl | exact Hfo]. }
    destruct Ht as [Ht|Ht].
    + apply (Hgoal [EvHealthCheck true] Ht).
      * repeat constructor.
      * constructor. exact Hpat.
    + apply (Hgoal [EvHealthCheck false; EvRecovery true] Ht).
      * repeat constructor.
      * constructor. exact Hpat.
  - destruct H as (-> & _ & _ & Hf & Ht).
    exists r1, (Return false), [EvHealthCheck false; EvRecovery false].
    repeat split; try assumption. constructor.
  - destruct H as (_ & _ & _ & Ht & Hf).
    exists r1, (Raise e), []. rewrite app_nil_r.
    repeat split; try assumption; constructor.
Qed.

(** With [fuel] passes for a deadline at most [30 * fuel] seconds away,
    the loop has an outcome. *)
Lemma loop_outcome (fuel : nat) :
  ∀ phase_end last_checkpoint r,
  (phase_end - clock r <= 30 * inject_Z (Z.of_nat fuel))%Q →
  (phase_loop w config (S fuel) phase_end last_checkpoint r).2 ≠ Diverge.
Proof.
  induction fuel as [|fuel IH]; intros phase_end last_checkpoint r Hle;
    rewrite phase_loop_S.
  - destruct (Qltb (clock r) phase_end) eqn:E.
    + apply Qltb_true in E. change (inject_Z (Z.of_nat 0)) with 0%Q in Hle. lra.
    + rewrite andb_false_r. discriminate.
  - destruct (running r && Qltb (clock r) phase_end); [|discriminate].
    destruct (iteration_spec w config last_checkpoint r) as (r1 & o1 & -> & _ & H).
    destruct o1 as [[last'|b]|e|]; [|discriminate|discriminate|contradiction].
    destruct H as (Hc & _). apply IH. rewrite Hc.
    rewrite Nat2Z.inj_succ in Hle. unfold Z.succ in Hle.
    rewrite inject_Z_plus in Hle. change (inject_Z 1) with 1%Q in Hle. lra.
Qed.

(** Without signals, a running loop whose deadline is a whole number of
    sleeps away returns [True] only at the deadline, still running. *)
Lemma loop_clock (n : nat) :
  (∀ t, signal_during_sleep w t = false) →
  ∀ fuel phase_end last_checkpoint r,
  (n ≤ fuel)%nat →
  running r = true →
  (phase_end - clock r == 30 * inject_Z (Z.of_nat n))%Q →
  ∀ r', phase_loop w config (S fuel) phase_end last_checkpoint r
        = (r', Return true) →
  (clock r' == phase_end)%Q ∧ running r' = true.
Proof.
  intros Hsig.
  induction n as [|n IH]; intros fuel phase_end last_checkpoint r Hn Hrun Heq r';
    rewrite phase_loop_S, Hrun; cbn [andb].
  - change (inject_Z (Z.of_nat 0)) with 0%Q in Heq.
    destruct (Qltb (clock r) phase_end) eqn:E.
    + apply Qltb_true in E. lra.
    + intros [= <-]. split; [lra | exact Hrun].
  - rewrite Nat2Z.inj_succ in Heq. unfold Z.succ in Heq.
    rewrite inject_Z_plus in Heq. change (inject_Z 1) with 1%Q in Heq.
    destruct (Qltb (clock r) phase_end) eqn:E.
    2:{ apply Qltb_false in E.
        assert (0 <= inject_Z (Z.of_nat n))%Q
          by (change 0%Q with (inject_Z 0); rewrite <- Zle_Qle; lia).
        lra. }
    destruct fuel as [|fuel]; [lia|].
    destruct (iteration_spec w config last_checkpoint r) as (r1 & o1 & -> & _ & H).
    destruct o1 as [[last'|b]|e|]; [| |discriminate|contradiction].
    + destruct H as (Hc & Hr & _). rewrite Hsig in Hr. apply IH.
      * lia.
      * congruence.
      * rewrite Hc. lra.
    + destruct H as (-> & _). discriminate.
Qed.

(** *** A phase *)

Lemma run_phase_unfold (phase : string) (duration_seconds : Z) (r : RunnerState) :
  _run_phase w config phase duration_seconds r =
  phase_loop w config (phase_fuel duration_seconds)
    (clock r + inject_Z duration_seconds) (clock r)
    (set_phase_start_time (clock r) (set_current_phase phase r)).
Proof. reflexivity. Qed.

Lemma phase_fuel_enough (d : Z) :
  (inject_Z d <= 30 * inject_Z (Z.of_nat (S (Z.to_nat (d / 30)))))%Q.
Proof.
  change 30%Q with (inject_Z 30). rewrite <- inject_Z_mult, <- Zle_Qle.
  pose proof (Z.mul_succ_div_gt d 30 eq_refl) as H.
  revert H. generalize (d / 30)%Z. intros q H. lia.
Qed.

(** [_run_phase] has an outcome: the fuel of its loop is never used up. *)
Lemma run_phase_outcome (phase : string) (d : Z) (r : RunnerState) :
  (_run_phase w config phase d r).2 ≠ Diverge.
Proof.
  rewrite run_phase_unfold. unfold phase_fuel. apply loop_outcome.
  cbn [clock set_phase_start_time set_current_phase].
  pose proof (phase_fuel_enough d). lra.
Qed.

Lemma tick_pattern_count (t : list Event) :
  tick_pattern t → count is_recovery t = count is_unhealthy t.
Proof.
  unfold count. induction 1 as [|l _ IH|l _ IH|]; cbn; congruence.
Qed.

Lemma run_phase_ticks (phase : string) (d : Z) (r : RunnerState) :
  ∃ r' o t,
    _run_phase w config phase d r = (r', o)
    ∧ o ≠ Diverge
    ∧ trace r `prefix_of` trace r'
    ∧ ticks r' = ticks r ++ t ∧ tick_pattern t
    ∧ match o with
      | Return false =>
          last t = Some (EvRecovery false) ∧ failures r' = S (failures r)
      | _ =>
          Forall (λ e, is_failure e = false) t ∧ failures r' = failures r
      end.
Proof.
  pose proof (run_phase_outcome phase d r) as Hout.
  rewrite run_phase_unfold in Hout |- *.
  destruct (loop_ticks (phase_fuel d) (clock r + inject_Z d) (clock r)
              (set_phase_start_time (clock r) (set_current_phase phase r)))
    as (r' & o & t & Hrun & H).
  rewrite Hrun in Hout |- *. exists r', o, t. split; [reflexivity|].
  split; [exact Hout | exact H].
Qed.

(** A phase whose budget is a whole number of sleeps, run without
    signals: it returns [True] exactly one budget later, or it counts one
    more failure, or it raises. *)
Lemma run_phase_budget (phase : string) (d : Z) (k : nat) (r : RunnerState) :
  (∀ t, signal_during_sleep w t = false) →
  d = (30 * Z.of_nat k)%Z →
  running r = true →
  ∃ r' o,
    _run_phase w config phase d r = (r', o)
    ∧ trace r `prefix_of` trace r'
    ∧ match o with
      | Return true =>
          (clock r' == clock r + inject_Z d)%Q ∧ running r' = true
          ∧ failures r' = failures r
      | Return false => failures r' = S (failures r)
      | Raise _ => failures r' = failures r
      | Diverge => False
      end.
Proof.
  intros Hsig Hd Hrun.
  destruct (run_phase_ticks phase d r)
    as (r' & o & t & Heq & Hout & Hp & _ & _ & Ho).
  exists r', o. split; [exact Heq|]. split; [exact Hp|].
  destruct o as [[|]|e|]; [|apply Ho|apply Ho|contradiction].
  destruct Ho as [_ Hf]. rewrite run_phase_unfold in Heq. unfold phase_fuel in Heq.
  set (r0 := set_phase_start_time (clock r) (set_current_phase phase r)) in *.
  assert (Hk : (k ≤ S (Z.to_nat (d / 30)))%nat).
  { subst d. rewrite Z.mul_comm, Z.div_mul by discriminate.
    rewrite Nat2Z.id. lia. }
  assert (Hend : (clock r + inject_Z d - clock r0
                  == 30 * inject_Z (Z.of_nat k))%Q).
  { cbn [clock r0 set_phase_start_time set_current_phase]. subst d.
    rewrite inject_Z_mult. change (inject_Z 30) with 30%Q. lra. }
  destruct (loop_clock k Hsig (S (Z.to_nat (d / 30)))
              (clock r + inject_Z d)%Q (clock r) r0 Hk Hrun Hend r' Heq)
    as [Hc Hr].
  split; [exact Hc|]. split; [exact Hr | exact Hf].
Qed.

End Loop.
(** *** Recovery, tick by tick *)

(** C5: in every pass of the phase loop the health check runs at most
    once, a recovery attempt follows it exactly when its verdict is
    unhealthy, and the pass executes [return False] exactly when that
    attempt fails; over a whole phase, which always has an outcome, the
    health checks and recovery attempts follow [tick_pattern], so there
    are as many attempts as unhealthy verdicts (two unhealthy ticks in a
    row: two attempts), and the phase returns [False] exactly when its last
    tick ended in a failed attempt. *)
Theorem C5_recovery_per_tick (w : World) (config : TestConfig) :
  (∀ last_checkpoint r,
     ∃ t, ticks (phase_iteration w config last_checkpoint r).1 = ticks r ++ t
       ∧ (t = [] ∨ t = [EvHealthCheck true]
          ∨ t = [EvHealthCheck false; EvRecovery true]
          ∨ t = [EvHealthCheck false; EvRecovery false])
       ∧ count is_recovery t = count is_unhealthy t
       ∧ (t = [EvHealthCheck false; EvRecovery false]
          ↔ (phase_iteration w config last_checkpoint r).2
            = Return (inr false)))
  ∧ (∀ phase duration_seconds r,
       ∃ t, ticks (_run_phase w config phase duration_seconds r).1
            = ticks r ++ t
         ∧ tick_pattern t
         ∧ count is_recovery t = count is_unhealthy t
         ∧ (_run_phase w config phase duration_seconds r).2 ≠ Diverge
         ∧ ((_run_phase w config phase duration_seconds r).2 = Return false
            ↔ last t = Some (EvRecovery false))).
Proof.
  split.
  - intros last_checkpoint r.
    destruct (iteration_spec w config last_checkpoint r) as (r' & o & -> & _ & H).
    cbn [fst snd]. destruct o as [[last'|b]|e|]; [| | |contradiction].
    + destruct H as (_ & _ & _ & [Ht|Ht]); eexists; (split; [exact Ht|]).
      * split; [auto|]. split; [reflexivity|]. split; discriminate.
      * split; [auto|]. split; [reflexivity|]. split; discriminate.
    + destruct H as (-> & _ & _ & _ & Ht). eexists. split; [exact Ht|].
      split; [auto|]. split; [reflexivity|]. split; reflexivity.
    + destruct H as (_ & _ & _ & Ht & _). exists []. rewrite app_nil_r.
      split; [exact Ht|]. split; [auto|]. split; [reflexivity|].
      split; discriminate.
  - intros phase d r.
    destruct (run_phase_ticks w config phase d r)
      as (r' & o & t & -> & Hout & _ & Ht & Hpat & Ho).
    cbn [fst snd]. exists t. split; [exact Ht|]. split; [exact Hpat|].
    split; [apply tick_pattern_count, Hpat|]. split; [exact Hout|].
    assert (Hno : Forall (λ e, is_failure e = false) t →
                  last t ≠ Some (EvRecovery false)).
    { intros Hall Hl. apply last_Some_elem_of in Hl.
      rewrite Forall_forall in Hall. specialize (Hall _ Hl). discriminate Hall. }
    destruct o as [[|]|e|]; try (destruct Ho as [Ho _]).
    + split; [discriminate | intros Hl; destruct (Hno Ho Hl)].
    + split; [intros _; exact Ho | reflexivity].
    + split; [discriminate | intros Hl; destruct (Hno Ho Hl)].
    + contradiction.
Qed.

(** C5 on a phase of two ticks with a stale checkpoint file: when the
    resume command succeeds, each tick is unhealthy and each has its
    recovery attempt; when it fails, the first attempt ends the phase with
    [False]. *)
Lemma C5_recovery_per_tick_witness :
  ticks (_run_phase Worlds.w_one Worlds.config_every_tick "bootstrap" 60
           (Worlds.runner_at 400)).1
  = [EvHealthCheck false; EvRecovery true; EvHealthCheck false; EvRecovery true]
  ∧ count is_recovery
      (ticks (_run_phase Worlds.w_one Worlds.config_every_tick "bootstrap" 60
                (Worlds.runner_at 400)).1) = 2%nat
  ∧ count is_unhealthy
      (ticks (_run_phase Worlds.w_one Worlds.config_every_tick "bootstrap" 60
                (Worlds.runner_at 400)).1) = 2%nat
  ∧ ticks (_run_phase Worlds.w_one_failing Worlds.config_every_tick
             "bootstrap" 60 (Worlds.runner_at 400)).1
    = [EvHealthCheck false; EvRecovery false]
  ∧ (_run_phase Worlds.w_one_failing Worlds.config_every_tick
       "bootstrap" 60 (Worlds.runner_at 400)).2 = Return false.
Proof.
  destruct (proj2 (C5_recovery_per_tick Worlds.w_one Worlds.config_every_tick)
              "bootstrap" 60%Z (Worlds.runner_at 400))
    as (t & Ht & _ & Hcount & _).
  assert (Hticks :
    ticks (_run_phase Worlds.w_one Worlds.config_every_tick "bootstrap" 60
             (Worlds.runner_at 400)).1
    = [EvHealthCheck false; EvRecovery true;
       EvHealthCheck false; EvRecovery true]) by (vm_compute; reflexivity).
  rewrite Hticks in Ht |- *. cbn in Ht. subst t.
  split; [reflexivity|]. split; [reflexivity|].
  split; [symmetry; exact Hcount|].
  destruct (proj2 (C5_recovery_per_tick Worlds.w_one_failing
                     Worlds.config_every_tick)
              "bootstrap" 60%Z (Worlds.runner_at 400))
    as (t & Ht & _ & _ & _ & Hfail).
  assert (Hticks' :
    ticks (_run_phase Worlds.w_one_failing Worlds.config_every_tick
             "bootstrap" 60 (Worlds.runner_at 400)).1
    = [EvHealthCheck false; EvRecovery false]) by (vm_compute; reflexivity).
  rewrite Hticks' in Ht |- *. cbn in Ht. subst t.
  split; [reflexivity|]. apply Hfail. reflexivity.
Defined.

(** *** A stall before the first checkpoint of the runner *)

Section Stall.

Variable w : World.
Variable config : TestConfig.

(** The verdict of the health check depends on the state through the
    clock only. *)
Lemma health_check_clock (r1 r2 : RunnerState) :
  clock r1 = clock r2 → (_health_check w r1).2 = (_health_check w r2).2.
Proof.
  intros Hc.
  destruct (health_check_spec w r1) as (b1 & -> & H1).
  destruct (health_check_spec w r2) as (b2 & -> & H2).
  cbn [snd]. f_equal. revert H1 H2. generalize (clock r2) (clock r1) Hc.
  clear Hc. intros c ? ->. intros H1 H2.
  destruct (selfware_checkpoints w c) as [dir|]; [|congruence].
  destruct H1 as [Hn1 Hl1], H2 as [Hn2 Hl2].
  destruct (sorted_latest dir) as ([|p l] & _ & _ & Hl).
  - rewrite (Hn1 Hl), (Hn2 Hl). reflexivity.
  - destruct Hl as [f Hf]. rewrite (Hl1 p f Hf), (Hl2 p f Hf). reflexivity.
Qed.




(** Modify-then-read steps of [_update_metrics]. *)
Lemma modify_metrics_run (f : SessionMetrics → SessionMetrics) (r : RunnerState) :
  modify_metrics f r = (set_metrics (f (metrics r)) r, Return ()).
Proof. reflexivity. Qed.



End Stall.



(** *** A checkpoint file that does not parse *)

Section Malformed.

Variable w : World.

Lemma py_truediv_number (v : pyval) (x : Q) :
  is_number v = true → (0 < x)%Q → ∃ q, py_truediv v (x / 60) = Return q.
Proof.
  intros Hv Hx. unfold py_truediv.
  assert (Hz : Qeq_bool (x / 60) 0 = false).
  { apply not_true_iff_false. rewrite Qeq_bool_iff. intros H.
    assert (E : (x == x / 60 * 60)%Q) by field.
    rewrite H in E. lra. }
  rewrite Hz. destruct v; try discriminate Hv; eauto.
Qed.

(** A content of neither shape stops the parse before any assignment. *)
Lemma malformed_parse (v : pyval) :
  well_shaped (Some v) = false →
  match py_get v "payload" v with
  | Return payload => ∀ k d, ∃ e, py_get payload k d = Raise e
  | Raise _ => True
  | Diverge => False
  end.
Proof.
  destruct v as [| | | | | |m]; cbn; try (intros _; exact I).
  destruct (m !! "payload") as [[| | | | | |m']|]; cbn;
    try discriminate; intros _ k d; eexists; reflexivity.
Qed.

(** The end of [_update_metrics] when its [try] block has assigned
    nothing. *)
Ltac malformed_tail :=
  lazymatch goal with
  | |- context [Qltb 0 ?x] =>
      let E := fresh "E" in
      destruct (Qltb 0 x) eqn:E;
      cbv beta iota;
      cbn [metrics set_metrics total_tokens set_phase set_elapsed_seconds];
      [ apply Qltb_true in E;
        let Ediv := fresh "Ediv" in
        lazymatch goal with
        | |- context [py_truediv ?v ?y] =>
            destruct (py_truediv v y) eqn:Ediv
        end;
        (eexists; split; [reflexivity|]; repeat split);
        let Hnum := fresh "Hnum" in
        intros Hnum; cbn [snd];
        first [ reflexivity
              | destruct (py_truediv_number _ _ Hnum E) as [? ?]; congruence ]
      | eexists; split; [reflexivity|]; repeat split ]
  end.

(** What [_update_metrics] does when every most recently modified
    checkpoint file is malformed: it refreshes the elapsed time, the phase
    and, when time has elapsed in the phase, the token rate; nothing
    else. *)
Lemma update_metrics_malformed (r : RunnerState) (dir : gmap string File) :
  selfware_checkpoints w (clock r) = Some dir →
  (∀ p f, is_latest dir p f → well_shaped (content f) = false) →
  ∃ m, (_update_metrics w r).1 = set_metrics m r
    ∧ errors_encountered m = errors_encountered (metrics r)
    ∧ total_tokens m = total_tokens (metrics r)
    ∧ tasks_completed m = tasks_completed (metrics r)
    ∧ checkpoint_count m = checkpoint_count (metrics r)
    ∧ lines_of_code m = lines_of_code (metrics r)
    ∧ (is_number (total_tokens (metrics r)) = true →
       (_update_metrics w r).2 = Return ()).
Proof.
  intros Hdir Hbad. unfold _update_metrics. run_M. rewrite Hdir.
  destruct (sorted_latest dir) as (l & -> & _ & Hl).
  destruct l as [|p l].
  { eexists. split; [reflexivity|]. repeat split. }
  destruct Hl as [f Hf]. pose proof (Hbad p f Hf) as Hshape.
  destruct Hf as (Hf & _). unfold json_load. rewrite Hf.
  set (elapsed := (clock r - phase_start_time r)%Q).
  destruct (content f) as [v|]; [|malformed_tail].
  pose proof (malformed_parse v Hshape) as Hparse.
  destruct (py_get v "payload" v) as [payload|e|];
    [|malformed_tail|contradiction].
  destruct (Hparse "estimated_tokens" (PInt 0)) as [e ->].
  malformed_tail.
Qed.

End Malformed.

(** C7 (as amended): when every most recently modified checkpoint file
    fails to parse under both shapes, [_update_metrics] absorbs the failure
    of the parse: it returns whenever the token total it already holds is a
    number, writes nothing to the trace, and leaves the error count, the
    token total, the step count, the checkpoint count and the line count as
    they were, so nothing is counted as an error; and the health check,
    which does not read the file, reports healthy exactly when the file was
    modified at most 300 seconds ago. *)
Theorem C7_malformed_snapshot (w : World) (r : RunnerState)
    (dir : gmap string File) :
  selfware_checkpoints w (clock r) = Some dir →
  (∀ p f, is_latest dir p f → well_shaped (content f) = false) →
  errors_encountered (metrics (_update_metrics w r).1)
  = errors_encountered (metrics r)
  ∧ total_tokens (metrics (_update_metrics w r).1) = total_tokens (metrics r)
  ∧ tasks_completed (metrics (_update_metrics w r).1)
    = tasks_completed (metrics r)
  ∧ checkpoint_count (metrics (_update_metrics w r).1)
    = checkpoint_count (metrics r)
  ∧ lines_of_code (metrics (_update_metrics w r).1) = lines_of_code (metrics r)
  ∧ trace (_update_metrics w r).1 = trace r
  ∧ (is_number (total_tokens (metrics r)) = true →
     (_update_metrics w r).2 = Return ())
  ∧ (∀ p f, is_latest dir p f →
       ((_health_check w r).2 = Return true ↔ (clock r - mtime f <= 300)%Q)).
Proof.
  intros Hdir Hbad.
  destruct (update_metrics_malformed w r dir Hdir Hbad)
    as (m & -> & He & Ht & Hs & Hc & Hl & Hret).
  cbn [metrics trace set_metrics].
  do 7 (split; [assumption || reflexivity|]).
  intros p f Hf.
  destruct (health_check_spec w r) as (b & -> & H).
  rewrite Hdir in H. destruct H as [_ H]. rewrite (H p f Hf). cbn [snd].
  rewrite <- Qltb_false.
  destruct (Qltb 300 (clock r - mtime f)); cbn [negb];
    split; try reflexivity; discriminate.
Qed.

(** C7 at a checkpoint file that is not JSON and was modified 301 seconds
    ago: the update of the metrics returns and counts no error, and the
    health check reports unhealthy. *)
Lemma C7_malformed_snapshot_witness :
  errors_encountered
    (metrics (_update_metrics Worlds.w_malformed (Worlds.runner_at 301)).1) = 0%Z
  ∧ (_update_metrics Worlds.w_malformed (Worlds.runner_at 301)).2 = Return ()
  ∧ (_health_check Worlds.w_malformed (Worlds.runner_at 301)).2 ≠ Return true.
Proof.
  assert (Hbad : ∀ p f, is_latest Worlds.dir_malformed p f →
                        well_shaped (content f) = false).
  { intros p f (Hf & _). unfold Worlds.dir_malformed in Hf.
    apply lookup_singleton_Some in Hf as [_ <-]. reflexivity. }
  destruct (C7_malformed_snapshot Worlds.w_malformed (Worlds.runner_at 301)
              Worlds.dir_malformed eq_refl Hbad)
    as (He & _ & _ & _ & _ & _ & Hret & Hh).
  split; [exact He|]. split; [exact (Hret eq_refl)|].
  intros Htrue.
  apply (Hh "task-1.json" (mkFile 0 None)
           (is_latest_singleton "task-1.json" _ eq_refl)) in Htrue.
  revert Htrue. vm_compute. intros H. apply H. reflexivity.
Defined.

(** C7 as stated fails: the only checkpoint file is not JSON, and it was
    modified 301 seconds ago.  A missing checkpoint is healthy, this file
    is unhealthy; and after the update of the metrics the error count is
    what it was, zero. *)
Lemma C7_counterexample :
  well_shaped (content (mkFile 0 None)) = false
  ∧ Worlds.dir_malformed !! "task-1.json" = Some (mkFile 0 None)
  ∧ (_health_check Worlds.w_absent (Worlds.runner_at 301)).2 = Return true
  ∧ (_health_check Worlds.w_malformed (Worlds.runner_at 301)).2 = Return false
  ∧ errors_encountered (metrics (Worlds.runner_at 301)) = 0%Z
  ∧ errors_encountered
      (metrics (_update_metrics Worlds.w_malformed (Worlds.runner_at 301)).1)
    = 0%Z
  ∧ trace (_update_metrics Worlds.w_malformed (Worlds.runner_at 301)).1 = [].
Proof.
  repeat split; vm_compute; reflexivity.
Qed.

(** *** The whole session *)

Section Session.

Variable w : World.
Variable config : TestConfig.

Lemma modify_run (f : RunnerState → RunnerState) (r : RunnerState) :
  modify f r = (f r, Return ()).
Proof. reflexivity. Qed.

(** [_finalize_session] returns; it leaves the clock, the status and the
    failures as they are. *)
Lemma finalize_spec (r : RunnerState) :
  ∃ r', _finalize_session w config r = (r', Return ())
    ∧ quiet r r' ∧ status (metrics r') = status (metrics r).
Proof.
  unfold _finalize_session. cbv zeta. rewrite run_bind.
  destruct (create_checkpoint_keeps w config r) as [Hq _].
  destruct (create_checkpoint_returns w config r) as [Hret Hst].
  destruct (_create_checkpoint w config r) as [r1 o1].
  cbn [fst snd] in Hq, Hret, Hst. subst o1.
  rewrite run_bind. cbn [get]. rewrite emit_run.
  eexists. split; [reflexivity|]. split; [|exact Hst].
  transitivity r1; [exact Hq|]. apply quiet_emit; reflexivity.
Qed.

(** The end of [run] after a phase returned [False]. *)
Lemma run_end_false (r0 r1 : RunnerState) :
  trace r0 `prefix_of` trace r1 → failures r1 = S (failures r0) →
  ∃ r' o,
    match _finalize_session w config r1 with
    | (r'', Return _) => (r'', Return false)
    | (r'', Raise e) => (r'', Raise e)
    | (r'', Diverge) => (r'', Diverge)
    end = (r', o)
    ∧ trace r0 `prefix_of` trace r'
    ∧ (o = Return true
         ∧ (clock r' == clock r0 + 3600 + 7200 + 7200 + 3600)%Q
         ∧ failures r' = failures r0
         ∧ status (metrics r') = "completed"
       ∨ o = Return false ∧ failures r' = S (failures r0)).
Proof.
  intros Hp Hf. destruct (finalize_spec r1) as (r' & -> & Hq & _).
  destruct Hq as (_ & _ & Hp' & _ & Hf').
  exists r', (Return false). split; [reflexivity|].
  split; [transitivity (trace r1); assumption|].
  right. split; [reflexivity | congruence].
Qed.

(** The end of [run] after a phase raised. *)
Lemma run_end_raise (e : exn) (r0 r1 : RunnerState) :
  trace r0 `prefix_of` trace r1 → failures r1 = failures r0 →
  ∃ r' o,
    match
      _finalize_session w config
        (set_metrics
           (set_status "failed"
              (metrics (set_trace (trace r1 ++ [EvSessionFailed e]) r1)))
           (set_trace (trace r1 ++ [EvSessionFailed e]) r1))
    with
    | (r'', Return _) => (r'', Return false)
    | (r'', Raise e) => (r'', Raise e)
    | (r'', Diverge) => (r'', Diverge)
    end = (r', o)
    ∧ trace r0 `prefix_of` trace r'
    ∧ (o = Return true
         ∧ (clock r' == clock r0 + 3600 + 7200 + 7200 + 3600)%Q
         ∧ failures r' = failures r0
         ∧ status (metrics r') = "completed"
       ∨ o = Return false ∧ failures r' = S (failures r0)).
Proof.
  intros Hp Hf.
  apply run_end_false.
  - cbn [trace set_metrics set_trace]. transitivity (trace r1); [exact Hp|].
    apply prefix_app_r. reflexivity.
  - unfold failures in *. cbn [trace set_metrics set_trace].
    rewrite count_app, Hf. cbn. lia.
Qed.

(** [run] without signals: it returns [True] after the four budgets, with
    status "completed" and no failure on the way, or it returns [False]
    having met a failure. *)
Lemma run_spec (r : RunnerState) :
  (∀ t, signal_during_sleep w t = false) →
  ∃ r' o,
    run w config r = (r', o)
    ∧ trace r `prefix_of` trace r'
    ∧ (o = Return true
         ∧ (clock r' == clock r + 3600 + 7200 + 7200 + 3600)%Q
         ∧ failures r' = failures r
         ∧ status (metrics r') = "completed"
       ∨ o = Return false ∧ failures r' = S (failures r)).
Proof.
  intros Hsig. unfold run.
  rewrite run_bind, modify_run. cbv beta iota.
  rewrite run_bind, time_time_run. cbv beta iota.
  set (r0 := set_running true r).
  change (trace r) with (trace r0). change (failures r) with (failures r0).
  change (clock r) with (clock r0).
  assert (Hrun0 : running r0 = true) by reflexivity.
  clearbody r0. clear r.
  unfold try_finally, try_except.
  rewrite run_bind.
  destruct (run_phase_budget w config "bootstrap" (60 * 60) 120 r0
              Hsig eq_refl Hrun0) as (r1 & o1 & -> & Hp1 & H1).
  destruct o1 as [[|]|e|];
    [| cbn [negb]; cbv beta iota; apply run_end_false; assumption
     | rewrite run_bind, emit_run; cbv beta iota;
       rewrite run_bind, modify_metrics_run; cbv beta iota;
       apply run_end_raise; assumption
     | contradiction ].
  destruct H1 as (Hc1 & Hr1 & Hf1). cbn [negb]. rewrite run_bind.
  destruct (run_phase_budget w config "development" (2 * 60 * 60) 240 r1
              Hsig eq_refl Hr1) as (r2 & o2 & -> & Hp2 & H2).
  assert (Hp02 : trace r0 `prefix_of` trace r2)
    by (transitivity (trace r1); assumption).
  destruct o2 as [[|]|e|];
    [| cbn [negb]; cbv beta iota; apply run_end_false; [assumption|congruence]
     | rewrite run_bind, emit_run; cbv beta iota;
       rewrite run_bind, modify_metrics_run; cbv beta iota;
       apply run_end_raise; [assumption|congruence]
     | contradiction ].
  destruct H2 as (Hc2 & Hr2 & Hf2). cbn [negb]. rewrite run_bind.
  destruct (run_phase_budget w config "refinement" (2 * 60 * 60) 240 r2
              Hsig eq_refl Hr2) as (r3 & o3 & -> & Hp3 & H3).
  assert (Hp03 : trace r0 `prefix_of` trace r3)
    by (transitivity (trace r2); assumption).
  destruct o3 as [[|]|e|];
    [| cbn [negb]; cbv beta iota; apply run_end_false; [assumption|congruence]
     | rewrite run_bind, emit_run; cbv beta iota;
       rewrite run_bind, modify_metrics_run; cbv beta iota;
       apply run_end_raise; [assumption|congruence]
     | contradiction ].
  destruct H3 as (Hc3 & Hr3 & Hf3). cbn [negb]. rewrite run_bind.
  destruct (run_phase_budget w config "finalization" (60 * 60) 120 r3
              Hsig eq_refl Hr3) as (r4 & o4 & -> & Hp4 & H4).
  assert (Hp04 : trace r0 `prefix_of` trace r4)
    by (transitivity (trace r3); assumption).
  destruct o4 as [[|]|e|];
    [| cbn [negb]; cbv beta iota; apply run_end_false; [assumption|congruence]
     | rewrite run_bind, emit_run; cbv beta iota;
       rewrite run_bind, modify_metrics_run; cbv beta iota;
       apply run_end_raise; [assumption|congruence]
     | contradiction ].
  destruct H4 as (Hc4 & Hr4 & Hf4). cbn [negb].
  rewrite run_bind, modify_metrics_run. cbv beta iota.
  cbn [mret M_ret].
  destruct (finalize_spec (set_metrics (set_status "completed" (metrics r4)) r4))
    as (r' & -> & Hq & Hst).
  destruct Hq as (Hc & _ & Hp & _ & Hf).
  cbn [clock trace set_metrics metrics status set_status] in Hc, Hp, Hst.
  unfold failures in Hf. cbn [trace set_metrics] in Hf. fold (failures r4) in Hf.
  fold (failures r') in Hf.
  exists r', (Return true). split; [reflexivity|].
  split; [transitivity (trace r4); assumption|].
  left. split; [reflexivity|]. split; [|split; [congruence | exact Hst]].
  rewrite Hc, Hc4, Hc3, Hc2, Hc1.
  change (inject_Z (60 * 60)) with 3600%Q.
  change (inject_Z (2 * 60 * 60)) with 7200%Q. lra.
Qed.

End Session.

Lemma new_events_app (r r' : RunnerState) (evs : list Event) :
  trace r' = trace r ++ evs → new_events r r' = evs.
Proof. intros H. unfold new_events. rewrite H. apply drop_app_length. Qed.

(** C6 (as amended): a session run without a shutdown signal, whose four
    phases have the budgets 3600, 7200, 7200 and 3600 seconds of [run],
    and which meets no failure (no failed recovery, no exception ending
    the session), returns [True] with status "completed", and it has then
    lasted at least the sum of the budgets: 21600 seconds, which is 6
    hours' worth of seconds.  (A phase ends at the first test of its guard
    at or after its deadline, so whatever takes time besides the sleeps
    only adds to the duration.) *)
Theorem C6_session_duration (w : World) (config : TestConfig) (r : RunnerState) :
  (∀ t, signal_during_sleep w t = false) →
  count is_failure (new_events r (run w config r).1) = 0%nat →
  (run w config r).2 = Return true
  ∧ status (metrics (run w config r).1) = "completed"
  ∧ (clock r + (3600 + 7200 + 7200 + 3600) <= clock (run w config r).1)%Q
  ∧ (6 * 3600 <= clock (run w config r).1 - clock r)%Q.
Proof.
  intros Hsig Hnone.
  destruct (run_spec w config r Hsig) as (r' & o & Heq & [evs Hp] & H).
  rewrite Heq in Hnone |- *. cbn [fst snd] in Hnone |- *.
  rewrite (new_events_app r r' evs Hp) in Hnone.
  destruct H as [(-> & Hc & _ & Hst) | (_ & Hf)].
  - split; [reflexivity|]. split; [exact Hst|]. rewrite Hc. split; lra.
  - unfold failures in Hf. rewrite Hp, count_app, Hnone in Hf. lia.
Qed.

(** C6 with the executor absent: no checkpoint to go stale, no failure. *)
Lemma C6_session_duration_witness :
  (run Worlds.w_absent Worlds.config0 (MegaTestRunner_init 0)).2 = Return true
  ∧ status (metrics (run Worlds.w_absent Worlds.config0
                       (MegaTestRunner_init 0)).1) = "completed"
  ∧ (6 * 3600
     <= clock (run Worlds.w_absent Worlds.config0 (MegaTestRunner_init 0)).1
        - 0)%Q.
Proof.
  destruct (C6_session_duration Worlds.w_absent Worlds.config0
              (MegaTestRunner_init 0))
    as (Hret & Hst & _ & Hc).
  - intros t. reflexivity.
  - vm_compute. reflexivity.
  - split; [exact Hret|]. split; [exact Hst | exact Hc].
Defined.

(** C6 as stated fails: with the executor absent the session of [run]
    meets no failure and ends "completed", and on a clock that only the
    sleeps advance its duration is 21600 seconds, the sum of the budgets,
    not the 54000 seconds of 15 hours. *)
Lemma C6_counterexample :
  (run Worlds.w_absent Worlds.config0 (MegaTestRunner_init 0)).2 = Return true
  ∧ status (metrics (run Worlds.w_absent Worlds.config0
                       (MegaTestRunner_init 0)).1) = "completed"
  ∧ count is_failure
      (trace (run Worlds.w_absent Worlds.config0 (MegaTestRunner_init 0)).1)
    = 0%nat
  ∧ (clock (run Worlds.w_absent Worlds.config0 (MegaTestRunner_init 0)).1
     - clock (MegaTestRunner_init 0) == 21600)%Q
  ∧ ¬ (clock (run Worlds.w_absent Worlds.config0 (MegaTestRunner_init 0)).1
       - clock (MegaTestRunner_init 0) == 15 * 3600)%Q.
Proof.
  split; [vm_compute; reflexivity|]. split; [vm_compute; reflexivity|].
  split; [vm_compute; reflexivity|]. split; [vm_compute; reflexivity|].
  vm_compute. intros H. discriminate H.
Qed.


End RunnerFacts.

(* ===================================================================== *)
(** ** Further properties of the checkpoint deltas *)
(* ===================================================================== *)

Module CheckpointMore.

Import Checkpoint CheckpointSpec CheckpointFacts.

Section More.

Context {Message MemoryEntry ToolCallLog ErrorLog : Type}.
Context {GitCheckpointInfo DateTime : Type}.
Context `{!EqDecision GitCheckpointInfo}.

Local Abbreviation checkpoint :=
  (TaskCheckpoint Message MemoryEntry ToolCallLog ErrorLog
     GitCheckpointInfo DateTime).
Local Abbreviation delta :=
  (CheckpointDelta Message MemoryEntry ToolCallLog ErrorLog
     GitCheckpointInfo DateTime).

Lemma compute_delta_same_task (current base : checkpoint) :
  task_id current = task_id base →
  compute_delta current base = Some {|
    d_task_id := task_id current;
    base_version := version base;
    target_version := version current;
    d_updated_at := updated_at current;
    d_status := changed (status current) (status base);
    d_current_step := changed (current_step current) (current_step base);
    d_current_iteration :=
      changed (current_iteration current) (current_iteration base);
    new_messages := appended (messages current) (messages base);
    new_memory_entries :=
      appended (memory_entries current) (memory_entries base);
    new_tool_calls := appended (tool_calls current) (tool_calls base);
    new_errors := appended (errors current) (errors base);
    updated_tokens :=
      changed (estimated_tokens current) (estimated_tokens base);
    d_git_checkpoint :=
      if decide (git_checkpoint current ≠ git_checkpoint base)
      then git_checkpoint current else None;
  |}.
Proof.
  intros Hid. unfold compute_delta.
  destruct (decide (task_id current ≠ task_id base)); [contradiction|].
  reflexivity.
Qed.

Lemma changed_None {A} `{!EqDecision A} (a b : A) :
  changed a b = None ↔ a = b.
Proof.
  unfold changed. destruct (decide (a ≠ b)) as [H|H].
  - split; [discriminate | intros ->; contradiction].
  - split; [intros _|reflexivity].
    destruct (decide (a = b)); [assumption | contradiction].
Qed.

Lemma changed_Some {A} `{!EqDecision A} (a b x : A) :
  changed a b = Some x ↔ a ≠ b ∧ x = a.
Proof.
  unfold changed. destruct (decide (a ≠ b)) as [H|H].
  - split; [intros [= <-]; auto | intros [_ ->]; reflexivity].
  - split; [discriminate | intros [H' _]; contradiction].
Qed.

Lemma appended_nil {A} (cur base : list A) :
  appended cur base = [] ↔ (length cur ≤ length base)%nat.
Proof.
  rewrite appended_drop. split.
  - intros H. apply (f_equal length) in H. rewrite length_drop in H.
    cbn in H. lia.
  - apply drop_ge.
Qed.

(** The round trip, for use below. *)
Lemma round_trip (c c' : checkpoint) :
  extends c c' →
  ∃ d, compute_delta c' c = Some d ∧ apply_delta c d = (c', Ok ()).
Proof.
  intros (Hid & Hm & He & Ht & Hr & Hgit).
  rewrite (compute_delta_same_task c' c Hid).
  eexists. split; [reflexivity|].
  rewrite apply_delta_ok by (symmetry; exact Hid).
  f_equal. unfold applied.
  cbn [target_version d_updated_at d_status d_current_step
       d_current_iteration new_messages new_memory_entries new_tool_calls
       new_errors updated_tokens d_git_checkpoint].
  rewrite !changed_apply, !appended_prefix by assumption.
  assert (Hg : match (if decide (git_checkpoint c' ≠ git_checkpoint c)
                      then git_checkpoint c' else None) with
               | Some git => Some git
               | None => git_checkpoint c
               end = git_checkpoint c').
  { destruct (decide (git_checkpoint c' ≠ git_checkpoint c)) as [Hd|Hd].
    - destruct (git_checkpoint c') as [x|]; [reflexivity|].
      apply Hgit. reflexivity.
    - destruct (decide (git_checkpoint c' = git_checkpoint c)) as [->|];
        [|contradiction].
      destruct (git_checkpoint c); reflexivity. }
  rewrite Hg, <- Hid. destruct c'; reflexivity.
Qed.

(** X1: the delta of a checkpoint against itself carries no change (every
    optional is absent, every list of new elements is empty), and applying
    it leaves the checkpoint exactly as it is. *)
Theorem X1_identity_delta (c : checkpoint) :
  ∃ d, compute_delta c c = Some d
    ∧ d_status d = None ∧ d_current_step d = None
    ∧ d_current_iteration d = None ∧ updated_tokens d = None
    ∧ d_git_checkpoint d = None ∧ adds_nothing d
    ∧ apply_delta c d = (c, Ok ()).
Proof.
  destruct (round_trip c c) as (d & Hd & Happ).
  { repeat split; try reflexivity. intros H; exact H. }
  exists d. split; [exact Hd|].
  rewrite (compute_delta_same_task c c eq_refl) in Hd. injection Hd as <-.
  cbn [d_status d_current_step d_current_iteration updated_tokens
       d_git_checkpoint].
  split; [apply changed_None; reflexivity|].
  split; [apply changed_None; reflexivity|].
  split; [apply changed_None; reflexivity|].
  split; [apply changed_None; reflexivity|].
  split.
  { destruct (decide (git_checkpoint c ≠ git_checkpoint c)) as [H|H];
      [contradiction H|]; reflexivity. }
  split; [|exact Happ].
  unfold adds_nothing.
  cbn [new_messages new_memory_entries new_tool_calls new_errors].
  repeat split; apply appended_nil; reflexivity.
Qed.

(** X2: the delta is minimal.  For checkpoints of one task, each optional
    scalar of [compute_delta current base] is absent exactly when the
    field is the same in both checkpoints and otherwise holds the value of
    [current]; the list of new messages is empty exactly when [current]
    has no more messages than [base]; and the version fields are the two
    versions. *)
Theorem X2_delta_minimal (current base : checkpoint) :
  task_id current = task_id base →
  ∃ d, compute_delta current base = Some d
    ∧ base_version d = version base ∧ target_version d = version current
    ∧ (d_status d = None ↔ status current = status base)
    ∧ (∀ s, d_status d = Some s → s = status current)
    ∧ (d_current_step d = None ↔ current_step current = current_step base)
    ∧ (∀ n, d_current_step d = Some n → n = current_step current)
    ∧ (d_current_iteration d = None
       ↔ current_iteration current = current_iteration base)
    ∧ (∀ n, d_current_iteration d = Some n → n = current_iteration current)
    ∧ (updated_tokens d = None
       ↔ estimated_tokens current = estimated_tokens base)
    ∧ (∀ n, updated_tokens d = Some n → n = estimated_tokens current)
    ∧ (d_git_checkpoint d = None
       ↔ git_checkpoint current = git_checkpoint base
         ∨ git_checkpoint current = None)
    ∧ (new_messages d = []
       ↔ (length (messages current) ≤ length (messages base))%nat).
Proof.
  intros Hid. rewrite (compute_delta_same_task current base Hid).
  eexists. split; [reflexivity|].
  cbn [base_version target_version d_status d_current_step
       d_current_iteration updated_tokens d_git_checkpoint new_messages].
  split; [reflexivity|]. split; [reflexivity|].
  split; [apply changed_None|].
  split; [intros s Hs; apply changed_Some in Hs; tauto|].
  split; [apply changed_None|].
  split; [intros s Hs; apply changed_Some in Hs; tauto|].
  split; [apply changed_None|].
  split; [intros s Hs; apply changed_Some in Hs; tauto|].
  split; [apply changed_None|].
  split; [intros s Hs; apply changed_Some in Hs; tauto|].
  split; [|apply appended_nil].
  destruct (decide (git_checkpoint current ≠ git_checkpoint base)) as [H|H].
  - split; [intros ->; right; reflexivity|].
    intros [Heq| ->]; [contradiction | reflexivity].
  - split; [intros _; left|reflexivity].
    destruct (decide (git_checkpoint current = git_checkpoint base));
      [assumption | contradiction].
Qed.

Lemma applied_task_id (target : checkpoint) (d : delta) :
  task_id (applied target d) = task_id target.
Proof. reflexivity. Qed.

Lemma app_twice_nil {A} (l n : list A) : (l ++ n) ++ n = l ++ n ↔ n = [].
Proof.
  split.
  - intros H. rewrite <- (app_nil_r (l ++ n)) in H at 2.
    apply app_inv_head in H. exact H.
  - intros ->. rewrite !app_nil_r. reflexivity.
Qed.

(** X3: a delta can be replayed.  [apply_delta] looks at no version, and it
    leaves the task id as it is, so a delta that applied once applies
    again to its own result; the second application appends the new
    elements once more and leaves the scalars as the first left them.  The
    replay is harmless exactly when the delta adds no element. *)
Theorem X3_replay (target : checkpoint) (d : delta) :
  task_id target = d_task_id d →
  (apply_delta (apply_delta target d).1 d).2 = Ok ()
  ∧ messages (apply_delta (apply_delta target d).1 d).1
    = messages target ++ new_messages d ++ new_messages d
  ∧ memory_entries (apply_delta (apply_delta target d).1 d).1
    = memory_entries target ++ new_memory_entries d ++ new_memory_entries d
  ∧ tool_calls (apply_delta (apply_delta target d).1 d).1
    = tool_calls target ++ new_tool_calls d ++ new_tool_calls d
  ∧ errors (apply_delta (apply_delta target d).1 d).1
    = errors target ++ new_errors d ++ new_errors d
  ∧ version (apply_delta (apply_delta target d).1 d).1 = target_version d
  ∧ ((apply_delta (apply_delta target d).1 d).1 = (apply_delta target d).1
     ↔ adds_nothing d).
Proof.
  intros Hid. rewrite (apply_delta_ok target d Hid). cbn [fst].
  rewrite (apply_delta_ok (applied target d) d) by exact Hid. cbn [fst snd].
  split; [reflexivity|].
  cbn [applied messages memory_entries tool_calls errors version].
  rewrite <- !app_assoc. do 5 (split; [reflexivity|]).
  unfold adds_nothing. split.
  - intros H.
    pose proof (f_equal messages H) as Hm.
    pose proof (f_equal memory_entries H) as He.
    pose proof (f_equal tool_calls H) as Ht.
    pose proof (f_equal errors H) as Hr.
    cbn [applied messages memory_entries tool_calls errors] in Hm, He, Ht, Hr.
    apply app_twice_nil in Hm, He, Ht, Hr. auto.
  - intros (Hm & He & Ht & Hr). unfold applied.
    cbn [task_id version status current_step current_iteration messages
         memory_entries tool_calls errors estimated_tokens git_checkpoint
         updated_at].
    rewrite Hm, He, Ht, Hr, !app_nil_r.
    destruct (d_status d), (d_current_step d), (d_current_iteration d),
      (updated_tokens d), (d_git_checkpoint d); reflexivity.
Qed.

(** X4: [apply_delta] only adds.  Whether it succeeds or fails, the task id
    of the target is unchanged, each sequence of the target is a prefix of
    the sequence it has afterwards, and a version-control marker that was
    set is still set. *)
Theorem X4_apply_only_adds (target : checkpoint) (d : delta) :
  task_id (apply_delta target d).1 = task_id target
  ∧ messages target `prefix_of` messages (apply_delta target d).1
  ∧ memory_entries target `prefix_of` memory_entries (apply_delta target d).1
  ∧ tool_calls target `prefix_of` tool_calls (apply_delta target d).1
  ∧ errors target `prefix_of` errors (apply_delta target d).1
  ∧ (is_Some (git_checkpoint target) →
     is_Some (git_checkpoint (apply_delta target d).1)).
Proof.
  destruct (decide (task_id target = d_task_id d)) as [Hid|Hne].
  - rewrite (apply_delta_ok target d Hid). cbn [fst applied task_id messages
      memory_entries tool_calls errors git_checkpoint].
    split; [reflexivity|].
    do 4 (split; [apply prefix_app_r; reflexivity|]).
    intros Hg. destruct (d_git_checkpoint d); [eexists; reflexivity | exact Hg].
  - rewrite (apply_delta_err target d Hne). cbn [fst].
    split; [reflexivity|]. do 4 (split; [reflexivity|]). intros Hg; exact Hg.
Qed.

Lemma extends_trans (c c' c'' : checkpoint) :
  extends c c' → extends c' c'' → extends c c''.
Proof.
  intros (Hid & Hm & He & Ht & Hr & Hg) (Hid' & Hm' & He' & Ht' & Hr' & Hg').
  split; [congruence|].
  split; [transitivity (messages c'); assumption|].
  split; [transitivity (memory_entries c'); assumption|].
  split; [transitivity (tool_calls c'); assumption|].
  split; [transitivity (errors c'); assumption|].
  intros H. apply Hg, Hg', H.
Qed.

(** X5: deltas compose.  For three successive states [c], [c'], [c''] of a
    task, each extending the one before, applying the delta from [c] to
    [c'] and then the delta from [c'] to [c''] gives [c''], which is what
    the single delta from [c] to [c''] gives. *)
Theorem X5_deltas_compose (c c' c'' : checkpoint) :
  extends c c' → extends c' c'' →
  ∃ d1 d2 d,
    compute_delta c' c = Some d1 ∧ compute_delta c'' c' = Some d2
    ∧ compute_delta c'' c = Some d
    ∧ apply_delta (apply_delta c d1).1 d2 = (c'', Ok ())
    ∧ apply_delta c d = (c'', Ok ()).
Proof.
  intros H1 H2.
  destruct (round_trip c c' H1) as (d1 & Hd1 & Ha1).
  destruct (round_trip c' c'' H2) as (d2 & Hd2 & Ha2).
  destruct (round_trip c c'' (extends_trans _ _ _ H1 H2)) as (d & Hd & Ha).
  exists d1, d2, d. rewrite Ha1. cbn [fst]. auto.
Qed.

(** X6: the prefix condition is needed, sequence by sequence.  For
    checkpoints of one task, applying [compute_delta current base] to
    [base] reproduces the messages of [current] exactly when the messages
    of [base] are a prefix of them; when [current] has no more messages
    than [base] (a truncation, say) the delta carries none and the messages
    of [base] stay as they are. *)
Theorem X6_sequence_round_trip (current base : checkpoint) :
  task_id current = task_id base →
  ∃ d, compute_delta current base = Some d
    ∧ (messages (apply_delta base d).1 = messages current
       ↔ messages base `prefix_of` messages current)
    ∧ ((length (messages current) ≤ length (messages base))%nat →
       messages (apply_delta base d).1 = messages base).
Proof.
  intros Hid. rewrite (compute_delta_same_task current base Hid).
  eexists. split; [reflexivity|].
  rewrite apply_delta_ok by (symmetry; exact Hid).
  cbn [fst applied messages new_messages]. split; [split|].
  - intros H. exists (appended (messages current) (messages base)).
    symmetry. exact H.
  - apply appended_prefix.
  - intros Hle. apply appended_nil in Hle. rewrite Hle. apply app_nil_r.
Qed.

End More.

Import Examples Examples2.

(** X2 at scenario C: only the step and the token estimate changed. *)
Lemma X2_delta_minimal_witness :
  ∃ d, compute_delta cp4 cp3 = Some d
    ∧ d_status d = None ∧ d_current_step d = Some 3%N
    ∧ d_git_checkpoint d = None ∧ new_messages d ≠ [].
Proof.
  destruct (X2_delta_minimal cp4 cp3 eq_refl)
    as (d & Hd & _ & _ & Hst & _ & _ & _ & _ & _ & _ & _ & Hgit & Hm).
  exists d. split; [exact Hd|].
  split; [apply Hst; reflexivity|].
  split; [injection Hd as <-; reflexivity|].
  split; [apply Hgit; left; reflexivity|].
  intros Hnil. apply Hm in Hnil. cbn in Hnil. lia.
Defined.

(** X3 at scenario C: the replayed delta appends [m4] a second time. *)
Lemma X3_replay_witness :
  messages (apply_delta (apply_delta cp3 delta_3_4).1 delta_3_4).1
  = ["m1"; "m2"; "m3"; "m4"; "m4"]
  ∧ (apply_delta (apply_delta cp3 delta_3_4).1 delta_3_4).1
    ≠ (apply_delta cp3 delta_3_4).1.
Proof.
  destruct (X3_replay cp3 delta_3_4 eq_refl) as (_ & Hm & _ & _ & _ & _ & Hiff).
  split; [exact Hm|].
  intros H. apply Hiff in H. destruct H as [H _]. discriminate H.
Defined.

(** X5 at three successive states of a task. *)
Lemma X5_deltas_compose_witness :
  ∃ d1 d2,
    compute_delta cp3 cp2 = Some d1 ∧ compute_delta cp4 cp3 = Some d2
    ∧ apply_delta (apply_delta cp2 d1).1 d2 = (cp4, Ok ()).
Proof.
  destruct (X5_deltas_compose cp2 cp3 cp4) as (d1 & d2 & d & H1 & H2 & _ & H & _).
  - split; [reflexivity|]. split; [exists ["m3"]; reflexivity|].
    split; [exists ["e1"]; reflexivity|]. split; [exists []; reflexivity|].
    split; [exists []; reflexivity|]. intros H; discriminate H.
  - split; [reflexivity|]. split; [exists ["m4"]; reflexivity|].
    split; [exists []; reflexivity|]. split; [exists ["t1"]; reflexivity|].
    split; [exists []; reflexivity|]. intros H; discriminate H.
  - exists d1, d2. auto.
Defined.

(** X6 at a truncation: version 3 seen from version 4 adds no message,
    and the four messages stay. *)
Lemma X6_sequence_round_trip_witness :
  ∃ d, compute_delta cp3 cp4 = Some d
    ∧ messages (apply_delta cp4 d).1 = ["m1"; "m2"; "m3"; "m4"]
    ∧ messages (apply_delta cp4 d).1 ≠ messages cp3.
Proof.
  destruct (X6_sequence_round_trip cp3 cp4 eq_refl) as (d & Hd & Hiff & Hle).
  exists d. split; [exact Hd|].
  split; [apply Hle; cbn; lia|].
  intros H. apply Hiff in H. destruct H as [k Hk]. discriminate Hk.
Defined.

End CheckpointMore.

(* ===================================================================== *)
(** ** Further properties of the session runner *)
(* ===================================================================== *)

Module RunnerMore.

Import Runner RunnerSpec RunnerFacts SessionSpec.

#[local] Existing Instance metrics_only_preorder.
#[local] Existing Instance quiet_preorder.

#[local] Hint Resolve json_load_outcome py_get_outcome py_len_outcome
  py_mul_int_outcome py_int_add_outcome py_truediv_outcome getmtime_outcome
  sorted_outcome : outcome.

(** *** Relations kept by every step of a session *)

(** Decompose [keeps R m] for a call [m] of the runner down to its
    assignments, and leave each assignment to [base]. *)
Ltac frame_with base :=
  unfold phase_iteration, _update_metrics, _create_checkpoint,
    create_checkpoint, _get_git_commit, _health_check, _attempt_recovery,
    restore_checkpoint, record_snapshot, _finalize_session, time_sleep,
    emit, modify_metrics;
  cbv zeta;
  repeat first
    [ keeps_step
    | eapply keeps_modify; intros ?; base ].

Section Generic.

Variable w : World.
Variable config : TestConfig.
Context (R : relation RunnerState) `{!PreOrder R}.

Hypothesis R_iteration : ∀ last_checkpoint,
  keeps R (phase_iteration w config last_checkpoint).
Hypothesis R_current_phase : ∀ p r, R r (set_current_phase p r).
Hypothesis R_phase_start_time : ∀ t r, R r (set_phase_start_time t r).

Lemma loop_rel (fuel : nat) :
  ∀ phase_end last_checkpoint r,
  R r (phase_loop w config fuel phase_end last_checkpoint r).1.
Proof.
  induction fuel as [|fuel IH]; intros phase_end last_checkpoint r;
    [reflexivity|].
  rewrite phase_loop_S.
  destruct (running r && Qltb (clock r) phase_end); [|reflexivity].
  destruct (R_iteration last_checkpoint r) as [HR _].
  destruct (phase_iteration w config last_checkpoint r) as [r1 [[l|b]|e|]];
    cbn [fst] in HR |- *; try exact HR.
  transitivity r1; [exact HR | apply IH].
Qed.

Lemma run_phase_rel (phase : string) (d : Z) (r : RunnerState) :
  R r (_run_phase w config phase d r).1.
Proof.
  rewrite run_phase_unfold.
  transitivity (set_phase_start_time (clock r) (set_current_phase phase r)).
  - transitivity (set_current_phase phase r);
      [apply R_current_phase | apply R_phase_start_time].
  - apply loop_rel.
Qed.

Lemma phases_run_rel (phases : list (string * Z)) (r r' : RunnerState)
    (o : outcome bool) :
  phases_run w config phases r r' o → R r r'.
Proof.
  induction 1 as [r|phase d phases r r1 r' o Hrun _ IH|phase d phases r r1 o Hrun _].
  - reflexivity.
  - transitivity r1; [|exact IH].
    pose proof (run_phase_rel phase d r) as H. rewrite Hrun in H. exact H.
  - pose proof (run_phase_rel phase d r) as H. rewrite Hrun in H. exact H.
Qed.

End Generic.

Section Session.

Variable w : World.
Variable config : TestConfig.

Lemma run_phases_run (phases : list (string * Z)) :
  ∀ r, ∃ r' o,
    phases_run w config phases r r' o
    ∧ o ≠ Diverge
    ∧ run_phases w config phases r
      = match o with
        | Return true =>
            (set_metrics (set_status "completed" (metrics r')) r', Return true)
        | _ => (r', o)
        end.
Proof.
  induction phases as [|[phase d] phases IH]; intros r.
  - exists r, (Return true). split; [constructor|]. split; [discriminate|].
    reflexivity.
  - cbn [run_phases]. rewrite run_bind.
    pose proof (run_phase_outcome w config phase d r) as Hout.
    destruct (_run_phase w config phase d r) as [r1 [[|]|e|]] eqn:Hrun;
      cbn [snd] in Hout; [| | |contradiction].
    + destruct (IH r1) as (r' & o & Hp & Ho & Heq).
      exists r', o. split; [econstructor; eassumption|]. split; [exact Ho|].
      cbn [negb]. exact Heq.
    + exists r1, (Return false).
      split; [eapply phases_stop; [exact Hrun | discriminate]|].
      split; [discriminate | reflexivity].
    + exists r1, (Raise e).
      split; [eapply phases_stop; [exact Hrun | discriminate]|].
      split; [discriminate | reflexivity].
Qed.

Lemma run_eq (r : RunnerState) :
  run w config r =
  try_finally
    (try_except (run_phases w config session_phases)
       (λ e,
          emit (EvSessionFailed e);;
          modify_metrics (set_status "failed");;
          mret false))
    (_finalize_session w config) (set_running true r).
Proof. reflexivity. Qed.

(** [run], taken apart: the phases end in some state with some outcome;
    [run] finalizes the state [before_finalize] makes of them, and returns
    [True] exactly when every phase did. *)
Lemma run_cases (r : RunnerState) :
  ∃ r4 o r',
    phases_run w config session_phases (set_running true r) r4 o
    ∧ o ≠ Diverge
    ∧ _finalize_session w config (before_finalize r4 o) = (r', Return ())
    ∧ run w config r
      = (r', Return (match o with Return true => true | _ => false end)).
Proof.
  rewrite run_eq.
  destruct (run_phases_run session_phases (set_running true r))
    as (r4 & o & Hp & Ho & Heq).
  exists r4, o.
  destruct (finalize_spec w config (before_finalize r4 o)) as (r' & Hfin & _).
  exists r'. split; [exact Hp|]. split; [exact Ho|]. split; [exact Hfin|].
  unfold try_finally, try_except. rewrite Heq.
  destruct o as [[|]|e|]; [| | |contradiction].
  - cbn [before_finalize] in Hfin. rewrite Hfin. reflexivity.
  - cbn [before_finalize] in Hfin. rewrite Hfin. reflexivity.
  - rewrite run_bind, emit_run. cbv beta iota.
    rewrite run_bind, modify_metrics_run. cbv beta iota.
    cbn [mret M_ret]. cbn [before_finalize] in Hfin. rewrite Hfin. reflexivity.
Qed.

End Session.


(** *** What [run] always does *)

Lemma prefix_sep_absent (s : string) :
  has_char "/" s = false → String.prefix "/" s = false.
Proof.
  destruct s as [|x s]; [reflexivity|]. cbn [has_char String.prefix].
  intros H. apply orb_false_iff in H as [H _]. apply Ascii.eqb_neq in H.
  destruct (ascii_dec "/" x) as [E|_]; [|reflexivity].
  contradiction H. symmetry. exact E.
Qed.

(** Joining with a relative path. *)
Lemma path_join_relative (a b : string) :
  String.prefix "/" b = false → path_join a b = a +:+ "/" +:+ b.
Proof. intros H. unfold path_join. rewrite H. reflexivity. Qed.

Section Always.

Variable w : World.
Variable config : TestConfig.

(** [_finalize_session] to the letter: one checkpoint of the runner, named
    after the second on the clock, then the report on the history. *)
Lemma finalize_exact (r : RunnerState) :
  ∃ r' data,
    _finalize_session w config r = (r', Return ())
    ∧ trace r'
      = trace r
        ++ [ EvWrite
               (path_join (checkpoint_dir config)
                  ("checkpoint_" +:+ pretty (py_int (clock r)) +:+ ".json"))
               (CheckpointFile data);
             EvWrite (path_join (session_dir config) "final_report.json")
               (ReportFile (generate_report (metrics_history r))) ]
    ∧ metrics_history r' = metrics_history r
    ∧ clock r' = clock r ∧ running r' = running r
    ∧ status (metrics r') = status (metrics r)
    ∧ last_checkpoint r'
      = Some (path_join (checkpoint_dir config)
                ("checkpoint_" +:+ pretty (py_int (clock r)) +:+ ".json")).
Proof.
  unfold _finalize_session, _create_checkpoint, create_checkpoint,
    _get_git_commit. run_M.
  destruct (git_rev_parse w (clock r)) as [[rc out]|];
    (eexists _, _; split; [reflexivity|];
     cbn [trace metrics_history clock running metrics status last_checkpoint
          set_trace set_metrics set_last_checkpoint set_checkpoint_count];
     rewrite <- app_assoc; repeat split).
Qed.

Lemma before_finalize_history (r : RunnerState) (o : outcome bool) :
  metrics_history (before_finalize r o) = metrics_history r.
Proof. destruct o as [[|]|e|]; reflexivity. Qed.




End Always.

(** *** The status at the end of [run] *)

Lemma same_status_preorder : PreOrder same_status.
Proof.
  split.
  - intros r. reflexivity.
  - intros r1 r2 r3 H1 H2. unfold same_status in *. congruence.
Qed.

#[local] Existing Instance same_status_preorder.

Section Status.

Variable w : World.
Variable config : TestConfig.

Lemma iteration_same_status (last_checkpoint : Q) :
  keeps same_status (phase_iteration w config last_checkpoint).
Proof. frame_with ltac:(unfold same_status; reflexivity). Qed.

Lemma phases_same_status (phases : list (string * Z)) (r r' : RunnerState)
    (o : outcome bool) :
  phases_run w config phases r r' o → same_status r r'.
Proof.
  apply (phases_run_rel w config same_status).
  - apply iteration_same_status.
  - intros p r0. reflexivity.
  - intros t r0. reflexivity.
Qed.

Lemma In_ticks (e : Event) (r : RunnerState) : In e (ticks r) → In e (trace r).
Proof. unfold ticks, tick_events. rewrite filter_In. tauto. Qed.

(** A phase list that stops with [False] stops after a failed recovery. *)
Lemma phases_run_false (phases : list (string * Z)) (r r' : RunnerState)
    (o : outcome bool) :
  phases_run w config phases r r' o → o = Return false →
  In (EvRecovery false) (trace r').
Proof.
  induction 1 as [r|phase d phases r r1 r' o Hrun _ IH|phase d phases r r1 o Hrun _];
    intros Ho.
  - discriminate Ho.
  - apply IH, Ho.
  - subst o.
    destruct (run_phase_ticks w config phase d r)
      as (r2 & o2 & t & Heq & _ & _ & Ht & _ & H).
    rewrite Hrun in Heq. injection Heq as <- <-.
    destruct H as [Hlast _]. apply In_ticks. rewrite Ht.
    apply in_or_app. right. apply list_elem_of_In.
    apply last_Some_elem_of. exact Hlast.
Qed.

(** X8: what the status says when [run] is over.  [run] returns [True]
    only with the status "completed".  When it returns [False] because an
    exception ended the session, the status is "failed"; when it returns
    [False] because a recovery attempt failed, the status is left as it
    was before [run] (for a new runner: "running"). *)
Theorem X8_status_after_run (r : RunnerState) :
  ∃ b, (run w config r).2 = Return b
    ∧ (b = true → status (metrics (run w config r).1) = "completed")
    ∧ (b = false →
       (status (metrics (run w config r).1) = "failed"
        ∧ ∃ e, In (EvSessionFailed e) (trace (run w config r).1))
       ∨ (status (metrics (run w config r).1) = status (metrics r)
          ∧ In (EvRecovery false) (trace (run w config r).1))).
Proof.
  destruct (run_cases w config r) as (r4 & o & r' & Hp & Ho & Hfin & ->).
  destruct (finalize_exact w config (before_finalize r4 o))
    as (r'' & data & Hfin' & Ht & _ & _ & _ & Hst & _).
  rewrite Hfin in Hfin'. injection Hfin' as <-.
  cbn [fst snd]. eexists. split; [reflexivity|].
  pose proof (phases_same_status _ _ _ _ Hp) as Hsame.
  unfold same_status in Hsame. cbn [metrics set_running] in Hsame.
  destruct o as [[|]|e|]; [| | |contradiction].
  - split; [intros _; rewrite Hst; reflexivity | discriminate].
  - split; [discriminate|]. intros _. right.
    cbn [before_finalize] in Hst, Ht. split; [congruence|].
    rewrite Ht. apply in_or_app. left.
    apply (phases_run_false _ _ _ _ Hp eq_refl).
  - split; [discriminate|]. intros _. left.
    split; [rewrite Hst; reflexivity|].
    exists e. rewrite Ht. cbn [before_finalize trace set_metrics set_trace].
    apply in_or_app. left. apply in_or_app. right. left. reflexivity.
Qed.

End Status.

(** X8 with a stale checkpoint file and no checkpoint of the runner: [run]
    returns [False] after a failed recovery, and the status still says
    "running". *)
Lemma X8_status_after_run_witness :
  (run Worlds.w_one Worlds.config0 (MegaTestRunner_init 400)).2 = Return false
  ∧ status (metrics (run Worlds.w_one Worlds.config0
                       (MegaTestRunner_init 400)).1) = "running"
  ∧ In (EvRecovery false)
      (trace (run Worlds.w_one Worlds.config0 (MegaTestRunner_init 400)).1).
Proof.
  assert (Hret : (run Worlds.w_one Worlds.config0
                    (MegaTestRunner_init 400)).2 = Return false)
    by (vm_compute; reflexivity).
  assert (Hst : status (metrics (run Worlds.w_one Worlds.config0
                                   (MegaTestRunner_init 400)).1) = "running")
    by (vm_compute; reflexivity).
  pose proof (X8_status_after_run Worlds.w_one Worlds.config0
                (MegaTestRunner_init 400)) as H.
  remember (run Worlds.w_one Worlds.config0 (MegaTestRunner_init 400)) as x
    eqn:Hx.
  destruct H as (b & Hb & _ & Hfalse).
  rewrite Hret in Hb. injection Hb as <-.
  split; [exact Hret|]. split; [exact Hst|].
  destruct (Hfalse eq_refl) as [[Hf _] | [_ Hin]]; [|exact Hin].
  rewrite Hst in Hf. discriminate Hf.
Defined.
(** *** The status in the report *)

Lemma keeps_status_of_history_preorder (s : string) :
  PreOrder (keeps_status_of_history s).
Proof.
  split.
  - intros r H. exact H.
  - intros r1 r2 r3 H1 H2 H. apply H2, H1, H.
Qed.

#[local] Existing Instance keeps_status_of_history_preorder.

(** An assignment that touches neither the status nor the history. *)
Ltac status_history_base :=
  let H := fresh "H" in
  unfold keeps_status_of_history;
  cbn [metrics metrics_history status set_metrics set_trace set_clock
       set_running set_last_checkpoint set_current_phase
       set_phase_start_time set_elapsed_seconds set_total_tokens
       set_tokens_per_minute set_tasks_completed set_lines_of_code
       set_checkpoint_count set_errors_encountered set_phase];
  intros H; exact H.

Section ReportStatus.

Variable w : World.
Variable config : TestConfig.
Variable s : string.

Lemma update_metrics_status_history :
  keeps (keeps_status_of_history s) (_update_metrics w).
Proof. frame_with status_history_base. Qed.

Lemma create_checkpoint_status_history :
  keeps (keeps_status_of_history s) (_create_checkpoint w config).
Proof. frame_with status_history_base. Qed.

Lemma health_check_status_history :
  keeps (keeps_status_of_history s) (_health_check w).
Proof. frame_with status_history_base. Qed.

Lemma attempt_recovery_status_history :
  keeps (keeps_status_of_history s) (_attempt_recovery w).
Proof. frame_with status_history_base. Qed.

Lemma emit_status_history (e : Event) :
  keeps (keeps_status_of_history s) (emit e).
Proof. frame_with status_history_base. Qed.

Lemma record_snapshot_run (m : SessionMetrics) (r : RunnerState) :
  record_snapshot config m r =
  (set_trace
     (trace r
      ++ [EvWrite
            (path_join (metrics_dir config)
               ("metrics_" +:+ pretty (py_int (clock r)) +:+ ".json"))
            (MetricsFile (mkSnapshot (clock r) m))])
     (set_metrics_history (metrics_history r ++ [mkSnapshot (clock r) m]) r),
   Return ()).
Proof. reflexivity. Qed.

(** The end of a pass, to the letter. *)
Lemma rest_run (last_checkpoint : Q) (r : RunnerState) :
  (get ≫= λ r0, record_snapshot config (metrics r0);;
     time_sleep w 30;; mret (inl last_checkpoint : Q + bool)) r
  = (set_clock (clock r + 30)
       ((if signal_during_sleep w (clock r)
         then set_running false else λ x, x)
          (set_trace
             (trace r
              ++ [EvWrite
                    (path_join (metrics_dir config)
                       ("metrics_" +:+ pretty (py_int (clock r)) +:+ ".json"))
                    (MetricsFile (mkSnapshot (clock r) (metrics r)))])
             (set_metrics_history
                (metrics_history r ++ [mkSnapshot (clock r) (metrics r)]) r))),
     Return (inl last_checkpoint)).
Proof.
  rewrite run_bind. cbn [get]. rewrite run_bind, record_snapshot_run.
  cbv beta iota. rewrite run_bind, time_sleep_run.
  cbn [clock set_trace set_metrics_history].
  destruct (signal_during_sleep w (clock r)); reflexivity.
Qed.

(** The end of a pass records the metrics of the moment: a snapshot with
    the status of the moment. *)
Lemma rest_status_history (last_checkpoint : Q) :
  keeps (keeps_status_of_history s)
    (get ≫= λ r0, record_snapshot config (metrics r0);;
       time_sleep w 30;; mret (inl last_checkpoint : Q + bool)).
Proof.
  intros r. rewrite rest_run. cbn [fst snd]. split; [|discriminate].
  unfold keeps_status_of_history.
  destruct (signal_during_sleep w (clock r));
    cbn [metrics metrics_history status set_metrics set_trace set_clock
         set_running set_metrics_history];
    intros [Hs Hh]; (split; [exact Hs|]);
    apply Forall_app; (split; [exact Hh|]); repeat constructor; exact Hs.
Qed.

Lemma iteration_status_history (last_checkpoint : Q) :
  keeps (keeps_status_of_history s) (phase_iteration w config last_checkpoint).
Proof.
  unfold phase_iteration. cbv zeta.
  repeat first
    [ apply rest_status_history
    | apply update_metrics_status_history
    | apply create_checkpoint_status_history
    | apply health_check_status_history
    | apply attempt_recovery_status_history
    | apply emit_status_history
    | keeps_step ].
Qed.

Lemma phases_status_history (phases : list (string * Z))
    (r r' : RunnerState) (o : outcome bool) :
  phases_run w config phases r r' o → keeps_status_of_history s r r'.
Proof.
  apply (phases_run_rel w config (keeps_status_of_history s)).
  - apply iteration_status_history.
  - intros p r0 H. exact H.
  - intros t r0 H. exact H.
Qed.

Lemma generate_report_status (h : list Snapshot) :
  Forall (λ snap, status (s_metrics snap) = s) h →
  generate_report h = [] ∨ In ("status", PStr s) (generate_report h).
Proof.
  intros Hall. destruct (last h) as [l|] eqn:Hl.
  - right. destruct h as [|first h]; [discriminate|].
    unfold generate_report. rewrite (List_last_last _ first l Hl).
    rewrite Forall_forall in Hall.
    rewrite (Hall l (last_Some_elem_of _ _ Hl)).
    do 6 right. left. reflexivity.
  - left. apply last_None in Hl. subst h. reflexivity.
Qed.

(** X9: the report does not tell how the session ended.  Every snapshot
    [run] records carries the status the metrics had when [run] began,
    because [run] sets "completed" or "failed" only after the last
    snapshot; so the status of the final report is that initial status
    ("running" for a new runner), whether [run] returns [True] or
    [False], unless the history and hence the report is empty. *)
Theorem X9_report_status (r : RunnerState) :
  status (metrics r) = s →
  Forall (λ snap, status (s_metrics snap) = s) (metrics_history r) →
  Forall (λ snap, status (s_metrics snap) = s)
    (metrics_history (run w config r).1)
  ∧ (generate_report (metrics_history (run w config r).1) = []
     ∨ In ("status", PStr s)
         (generate_report (metrics_history (run w config r).1))).
Proof.
  intros Hs Hh.
  destruct (run_cases w config r) as (r4 & o & r' & Hp & _ & Hfin & ->).
  destruct (finalize_exact w config (before_finalize r4 o))
    as (r'' & data & Hfin' & _ & Hhist & _).
  rewrite Hfin in Hfin'. injection Hfin' as <-. cbn [fst].
  rewrite Hhist, before_finalize_history.
  pose proof (phases_status_history _ _ _ _ Hp) as Hinv.
  destruct (Hinv (conj Hs Hh)) as [_ Hall].
  split; [exact Hall | apply generate_report_status, Hall].
Qed.

End ReportStatus.

(** X9 for a new runner and an absent executor: [run] returns [True] with
    the status "completed", and the report it writes says "running". *)
Lemma X9_report_status_witness :
  (run Worlds.w_absent Worlds.config0 (MegaTestRunner_init 0)).2 = Return true
  ∧ status (metrics (run Worlds.w_absent Worlds.config0
                       (MegaTestRunner_init 0)).1) = "completed"
  ∧ In ("status", PStr "running")
      (generate_report
         (metrics_history (run Worlds.w_absent Worlds.config0
                             (MegaTestRunner_init 0)).1)).
Proof.
  assert (Hret : (run Worlds.w_absent Worlds.config0
                    (MegaTestRunner_init 0)).2 = Return true)
    by (vm_compute; reflexivity).
  assert (Hst : status (metrics (run Worlds.w_absent Worlds.config0
                                   (MegaTestRunner_init 0)).1) = "completed")
    by (vm_compute; reflexivity).
  assert (Hne : generate_report
                  (metrics_history (run Worlds.w_absent Worlds.config0
                                      (MegaTestRunner_init 0)).1) ≠ []).
  { assert (Hlen : length
                     (generate_report
                        (metrics_history (run Worlds.w_absent Worlds.config0
                                            (MegaTestRunner_init 0)).1))
                   = 7%nat) by (vm_compute; reflexivity).
    intros Hnil. rewrite Hnil in Hlen. discriminate Hlen. }
  pose proof (X9_report_status Worlds.w_absent Worlds.config0 "running"
                (MegaTestRunner_init 0) eq_refl (List.Forall_nil _)) as [_ H].
  split; [exact Hret|]. split; [exact Hst|].
  destruct H as [H|H]; [contradiction | exact H].
Defined.
(** *** Shutdown *)

Section Shutdown.

Variable w : World.
Variable config : TestConfig.


Lemma update_metrics_same_status : keeps same_status (_update_metrics w).
Proof. frame_with ltac:(unfold same_status; reflexivity). Qed.

Lemma checkpoint_step_returns (due : bool) (last_checkpoint : Q)
    (r : RunnerState) :
  ∃ last',
    ((if due then _create_checkpoint w config;; time_time
      else mret last_checkpoint) r).2 = Return last'
    ∧ same_status r
        ((if due then _create_checkpoint w config;; time_time
          else mret last_checkpoint) r).1.
Proof.
  destruct due; [|exists last_checkpoint; split; reflexivity].
  rewrite run_bind.
  destruct (create_checkpoint_returns w config r) as [Hret Hst].
  destruct (_create_checkpoint w config r) as [r1 o1].
  cbn [fst snd] in Hret, Hst. subst o1. rewrite time_time_run.
  eexists. split; [reflexivity | exact Hst].
Qed.

(** A pass in which the metrics update returns and the health check
    reports healthy runs to its end. *)
Lemma healthy_iteration (last_checkpoint : Q) (r : RunnerState) :
  (_update_metrics w r).2 = Return () →
  (_health_check w r).2 = Return true →
  ∃ r' last',
    phase_iteration w config last_checkpoint r = (r', Return (inl last'))
    ∧ clock r' = (clock r + 30)%Q
    ∧ running r'
      = (if signal_during_sleep w (clock r) then false else running r)
    ∧ ticks r' = ticks r ++ [EvHealthCheck true]
    ∧ failures r' = failures r
    ∧ status (metrics r') = status (metrics r).
Proof.
  intros Hupd Hhealthy.
  unfold phase_iteration. cbv zeta. rewrite run_bind.
  destruct (update_metrics_quiet w r) as [Hq1 _].
  destruct (update_metrics_same_status r) as [Hs1 _].
  destruct (_update_metrics w r) as [r1 o1]. cbn [fst snd] in Hq1, Hs1, Hupd.
  subst o1. rewrite run_bind, time_time_run. cbv beta iota. rewrite run_bind.
  destruct (checkpoint_step_keeps w config
              (Qle_bool (inject_Z (checkpoint_interval_min config * 60))
                 (clock r1 - last_checkpoint)) last_checkpoint r1)
    as [Hq2 _].
  destruct (checkpoint_step_returns
              (Qle_bool (inject_Z (checkpoint_interval_min config * 60))
                 (clock r1 - last_checkpoint)) last_checkpoint r1)
    as (last' & Hret2 & Hs2).
  match type of Hq2 with
  | quiet _ (fst ?x) => destruct x as [r2 o2]
  end.
  cbn [fst snd] in Hq2, Hret2, Hs2. subst o2.
  assert (Hq : quiet r r2) by (transitivity r1; assumption).
  assert (Hs : status (metrics r2) = status (metrics r))
    by (unfold same_status in *; congruence).
  clear Hq1 Hq2 Hs1 Hs2.
  destruct Hq as (Hc & Hr & _ & Ht & Hf).
  rewrite run_bind.
  pose proof (health_check_clock w r2 r Hc) as Hh. rewrite Hhealthy in Hh.
  destruct (health_check_spec w r2) as (b & Hb & _).
  rewrite Hb in Hh |- *. cbn [snd] in Hh. injection Hh as ->.
  cbv beta iota. rewrite run_bind, emit_run. cbv beta iota. cbn [negb].
  rewrite rest_run. eexists _, last'. split; [reflexivity|].
  cbn [clock running set_clock set_trace set_metrics_history].
  rewrite Hc, <- Hr.
  split; [reflexivity|].
  split; [destruct (signal_during_sleep w (clock r)); reflexivity|].
  unfold ticks, failures in *.
  split; [|split].
  - destruct (signal_during_sleep w (clock r));
      cbn [trace set_clock set_running set_trace set_metrics_history];
      rewrite !tick_events_app, Ht; unfold tick_events;
      cbn [List.filter is_tick_event]; rewrite app_nil_r; reflexivity.
  - destruct (signal_during_sleep w (clock r));
      cbn [trace set_clock set_running set_trace set_metrics_history];
      rewrite !count_app, Hf; unfold count at 2 3;
      cbn [List.filter is_failure length]; lia.
  - destruct (signal_during_sleep w (clock r));
      cbn [metrics set_clock set_running set_trace set_metrics_history];
      exact Hs.
Qed.




End Shutdown.


(** *** Where the session writes *)

Lemma string_append_assoc (a b c : string) :
  (a +:+ b) +:+ c = a +:+ (b +:+ c).
Proof.
  induction a as [|x a IH]; [reflexivity|].
  change (String x ((a +:+ b) +:+ c) = String x (a +:+ (b +:+ c))).
  rewrite IH. reflexivity.
Qed.

Lemma writes_under_preorder (dir : string) : PreOrder (writes_under dir).
Proof.
  split.
  - intros r. exists []. split; [rewrite app_nil_r; reflexivity | constructor].
  - intros r1 r2 r3 (evs1 & H1 & F1) (evs2 & H2 & F2).
    exists (evs1 ++ evs2). split.
    + rewrite H2, H1, app_assoc. reflexivity.
    + apply Forall_app. split; assumption.
Qed.

#[local] Existing Instance writes_under_preorder.

(** An assignment that leaves the trace alone, or adds one event to it
    that is no write outside the session directory. *)
Ltac writes_base :=
  first
    [ exists []; split; [cbn; rewrite app_nil_r; reflexivity | constructor]
    | eexists [_]; split; [reflexivity|];
      constructor; [|constructor]; cbn [written_under];
      first
        [ exact I
        | unfold checkpoint_dir, metrics_dir;
          rewrite !path_join_relative by reflexivity;
          rewrite string_append_assoc; eexists; reflexivity
        | rewrite path_join_relative by reflexivity;
          eexists; reflexivity ] ].

Section Containment.

Variable w : World.
Variable config : TestConfig.

Lemma iteration_writes_under (last_checkpoint : Q) :
  keeps (writes_under (session_dir config))
    (phase_iteration w config last_checkpoint).
Proof. frame_with writes_base. Qed.

Lemma finalize_writes_under :
  keeps (writes_under (session_dir config)) (_finalize_session w config).
Proof. unfold _finalize_session. frame_with writes_base. Qed.

Lemma phases_write_under (phases : list (string * Z)) (r r' : RunnerState)
    (o : outcome bool) :
  phases_run w config phases r r' o → writes_under (session_dir config) r r'.
Proof.
  apply (phases_run_rel w config (writes_under (session_dir config))).
  - apply iteration_writes_under.
  - intros p r0. writes_base.
  - intros t r0. writes_base.
Qed.

Lemma run_writes_under (r : RunnerState) :
  writes_under (session_dir config) r (run w config r).1.
Proof.
  destruct (run_cases w config r) as (r4 & o & r' & Hp & Ho & Hfin & ->).
  cbn [fst].
  transitivity (set_running true r); [writes_base|].
  transitivity r4; [exact (phases_write_under _ _ _ _ Hp)|].
  transitivity (before_finalize r4 o).
  - destruct o as [[|]|e|]; cbn [before_finalize]; writes_base.
  - destruct (finalize_writes_under (before_finalize r4 o)) as [H _].
    rewrite Hfin in H. exact H.
Qed.

(** X11: the session writes below its own directory.  When the session
    id is a single path component, every checkpoint, snapshot and report
    file that [run] opens and writes, in any world and from any state, has
    a path of the form [test_runs/<session_id>/...].  (The log file of the
    logging handler is not among these files; and an absolute session id
    would replace [test_runs].) *)
Theorem X11_writes_in_session_dir (r : RunnerState) (path : string)
    (data : FileData) :
  plain_name (session_id config) →
  In (EvWrite path data) (new_events r (run w config r).1) →
  ∃ rest, path = "test_runs" +:+ "/" +:+ session_id config +:+ "/" +:+ rest.
Proof.
  intros (Hplain & _).
  destruct (run_writes_under r) as (evs & Ht & Hall).
  unfold new_events. rewrite Ht, drop_app_length. intros Hin.
  rewrite Forall_forall in Hall.
  apply list_elem_of_In in Hin. apply Hall in Hin.
  destruct Hin as [rest ->]. exists rest. unfold session_dir.
  rewrite (path_join_relative _ _ (prefix_sep_absent _ Hplain)).
  reflexivity.
Qed.

End Containment.

(** X11 on the report of a session without an executor. *)
Lemma X11_writes_in_session_dir_witness :
  ∃ rest, "test_runs/s1/final_report.json"
          = "test_runs" +:+ "/" +:+ "s1" +:+ "/" +:+ rest.
Proof.
  destruct (run_cases Worlds.w_absent Worlds.config0 (MegaTestRunner_init 0))
    as (r4 & o & r' & _ & _ & Hfin & Hrun).
  destruct (finalize_exact Worlds.w_absent Worlds.config0 (before_finalize r4 o))
    as (r'' & d & Hfin' & Ht & _).
  rewrite Hfin in Hfin'. injection Hfin' as <-.
  apply (X11_writes_in_session_dir Worlds.w_absent Worlds.config0
           (MegaTestRunner_init 0) "test_runs/s1/final_report.json"
           (ReportFile
              (generate_report (metrics_history (before_finalize r4 o))))).
  { repeat split; discriminate. }
  unfold new_events. rewrite Hrun. cbn [fst]. rewrite Ht.
  cbn [MegaTestRunner_init trace length drop].
  apply in_or_app. right. right. left. reflexivity.
Defined.

(** *** How long a session lasts *)

Section Duration.

Variable w : World.
Variable config : TestConfig.

Lemma inject_nat_nonneg (n : nat) : (0 <= inject_Z (Z.of_nat n))%Q.
Proof. change 0%Q with (inject_Z 0). rewrite <- Zle_Qle. lia. Qed.

(** Whatever happens in the loop, it ends between its start and its
    deadline, when the deadline is a whole number of sleeps away. *)
Lemma loop_clock_bound (fuel : nat) :
  ∀ phase_end last_checkpoint r (n : nat),
  (phase_end - clock r == 30 * inject_Z (Z.of_nat n))%Q →
  (clock r <= clock (phase_loop w config fuel phase_end last_checkpoint r).1
   <= phase_end)%Q.
Proof.
  induction fuel as [|fuel IH]; intros phase_end last_checkpoint r n Hn;
    pose proof (inject_nat_nonneg n) as Hpos.
  - cbn. lra.
  - rewrite phase_loop_S.
    destruct (running r && Qltb (clock r) phase_end) eqn:E;
      [|cbn [fst]; lra].
    apply andb_true_iff in E as [_ E]. apply Qltb_true in E.
    destruct n as [|n].
    { change (inject_Z (Z.of_nat 0)) with 0%Q in Hn. lra. }
    rewrite Nat2Z.inj_succ in Hn. unfold Z.succ in Hn.
    rewrite inject_Z_plus in Hn. change (inject_Z 1) with 1%Q in Hn.
    destruct (iteration_spec w config last_checkpoint r)
      as (r1 & o & -> & _ & H).
    destruct o as [[l|b]|e|]; [| | |contradiction].
    + destruct H as (Hc & _).
      assert (Hn' : (phase_end - clock r1 == 30 * inject_Z (Z.of_nat n))%Q)
        by (rewrite Hc; lra).
      specialize (IH phase_end l r1 n Hn'). rewrite Hc in IH. lra.
    + destruct H as (_ & Hc & _). cbn [fst]. rewrite Hc.
      pose proof (inject_nat_nonneg n). lra.
    + destruct H as (Hc & _). cbn [fst]. rewrite Hc.
      pose proof (inject_nat_nonneg n). lra.
Qed.

Lemma run_phase_clock_bound (phase : string) (d : Z) (k : nat) (r : RunnerState) :
  d = (30 * Z.of_nat k)%Z →
  (clock r <= clock (_run_phase w config phase d r).1 <= clock r + inject_Z d)%Q.
Proof.
  intros ->. rewrite run_phase_unfold.
  apply (loop_clock_bound _ _ _
           (set_phase_start_time (clock r) (set_current_phase phase r)) k).
  cbn [clock set_phase_start_time set_current_phase].
  rewrite inject_Z_mult. change (inject_Z 30) with 30%Q. ring.
Qed.

Lemma total_budget_nonneg (phases : list (string * Z)) :
  whole_sleeps phases → (0 <= total_budget phases)%Z.
Proof.
  induction 1 as [|[p d] phases [k Hk] _ IH]; [cbn; lia|].
  cbn [total_budget foldr snd] in *. fold (total_budget phases). lia.
Qed.

Lemma phases_clock_bound (phases : list (string * Z)) (r r' : RunnerState)
    (o : outcome bool) :
  phases_run w config phases r r' o → whole_sleeps phases →
  (clock r <= clock r' <= clock r + inject_Z (total_budget phases))%Q.
Proof.
  induction 1 as [r|phase d phases r r1 r' o Hrun _ IH|phase d phases r r1 o Hrun _];
    intros Hall.
  - cbn [total_budget foldr]. change (inject_Z 0) with 0%Q. lra.
  - apply Forall_cons in Hall as [[k Hk] Hall]. cbn [snd] in Hk.
    pose proof (run_phase_clock_bound phase d k r Hk) as H1.
    rewrite Hrun in H1. cbn [fst] in H1. specialize (IH Hall).
    cbn [total_budget foldr snd]. fold (total_budget phases).
    rewrite inject_Z_plus. lra.
  - apply Forall_cons in Hall as [[k Hk] Hall]. cbn [snd] in Hk.
    pose proof (run_phase_clock_bound phase d k r Hk) as H1.
    rewrite Hrun in H1. cbn [fst] in H1.
    pose proof (total_budget_nonneg phases Hall) as Hpos.
    rewrite Zle_Qle in Hpos. change (inject_Z 0) with 0%Q in Hpos.
    cbn [total_budget foldr snd]. fold (total_budget phases).
    rewrite inject_Z_plus. lra.
Qed.

Lemma session_whole_sleeps : whole_sleeps session_phases.
Proof.
  unfold whole_sleeps, session_phases.
  repeat constructor; cbn [snd];
    [exists 120%nat | exists 240%nat | exists 240%nat | exists 120%nat];
    reflexivity.
Qed.

End Duration.

(** *** What a recovery resumes *)

Lemma has_char_app (c : ascii) (a b : string) :
  has_char c (a +:+ b) = has_char c a || has_char c b.
Proof.
  induction a as [|x a IH]; [reflexivity|].
  change (has_char c (String x (a +:+ b))
          = has_char c (String x a) || has_char c b).
  cbn [has_char]. rewrite IH, orb_assoc. reflexivity.
Qed.

Lemma string_length_app (a b : string) :
  String.length (a +:+ b) = (String.length a + String.length b)%nat.
Proof.
  induction a as [|x a IH]; [reflexivity|].
  change (S (String.length (a +:+ b))
          = S (String.length a + String.length b)).
  rewrite IH. reflexivity.
Qed.

Lemma rfind_go_absent (c : ascii) (s : string) :
  has_char c s = false → ∀ i acc, rfind_go c s i acc = acc.
Proof.
  induction s as [|x s IH]; intros H i acc; [reflexivity|].
  cbn [has_char] in H. apply orb_false_iff in H as [Hx Hs].
  cbn [rfind_go]. rewrite Hx. apply IH, Hs.
Qed.

(** The last occurrence of [c] in [a c b], when [b] has none. *)
Lemma rfind_last (c : ascii) (a b : string) :
  has_char c b = false →
  rfind c (a +:+ String c b) = Some (String.length a).
Proof.
  intros Hb. unfold rfind.
  enough (H : ∀ i acc, rfind_go c (a +:+ String c b) i acc
                       = Some (i + String.length a)%nat) by apply (H 0%nat).
  induction a as [|x a IH]; intros i acc.
  - change (rfind_go c (String c b) i acc = Some (i + 0)%nat).
    cbn [rfind_go]. rewrite Ascii.eqb_refl, Nat.add_0_r.
    apply rfind_go_absent, Hb.
  - change (rfind_go c (String x (a +:+ String c b)) i acc
            = Some (i + S (String.length a))%nat).
    cbn [rfind_go]. rewrite IH. f_equal. lia.
Qed.

Lemma substring_all (s : string) : String.substring 0 (String.length s) s = s.
Proof. induction s as [|x s IH]; [reflexivity|]. cbn. rewrite IH. reflexivity. Qed.

Lemma substring_prefix (a b : string) :
  String.substring 0 (String.length a) (a +:+ b) = a.
Proof.
  induction a as [|x a IH]; [destruct b; reflexivity|].
  change (String.substring 0 (S (String.length a)) (String x (a +:+ b))
          = String x a).
  cbn [String.substring]. rewrite IH. reflexivity.
Qed.

Lemma substring_suffix (a b : string) (n m : nat) :
  String.substring (String.length a + n) m (a +:+ b) = String.substring n m b.
Proof.
  induction a as [|x a IH]; [reflexivity|].
  change (String.substring (S (String.length a + n)) m (String x (a +:+ b))
          = String.substring n m b).
  cbn [String.substring]. exact IH.
Qed.

(** [Path.name] of a joined path whose last component has no separator. *)
Lemma path_name_join (dir name : string) :
  has_char "/" name = false → path_name (path_join dir name) = name.
Proof.
  intros H. rewrite (path_join_relative _ _ (prefix_sep_absent _ H)).
  unfold path_name.
  change ("/" +:+ name) with (String "/" name).
  rewrite (rfind_last "/" dir name H), string_length_app.
  cbn [String.length].
  replace (String.length dir + S (String.length name) - S (String.length dir))%nat
    with (String.length name) by lia.
  replace (S (String.length dir)) with (String.length dir + 1)%nat by lia.
  rewrite substring_suffix. cbn [String.substring]. apply substring_all.
Qed.

(** [Path.stem] of a name with one more suffix. *)
Lemma path_stem_join (dir stem suffix : string) :
  has_char "/" (stem +:+ String "." suffix) = false →
  has_char "." suffix = false →
  (0 < String.length stem)%nat → (0 < String.length suffix)%nat →
  path_stem (path_join dir (stem +:+ String "." suffix)) = stem.
Proof.
  intros Hsep Hdot Hstem Hsuffix. unfold path_stem. cbv zeta.
  rewrite (path_name_join _ _ Hsep), (rfind_last "." stem suffix Hdot).
  rewrite string_length_app. cbn [String.length].
  assert (H1 : (0 <? String.length stem)%nat = true)
    by (apply Nat.ltb_lt; exact Hstem).
  assert (H2 : (String.length stem
                <? String.length stem + S (String.length suffix) - 1)%nat = true)
    by (apply Nat.ltb_lt; lia).
  rewrite H1, H2. cbn [andb]. apply substring_prefix.
Qed.

(** The decimal digits of a number hold no separator and no dot. *)
Lemma pretty_N_go_chars (c : ascii) (x : N) :
  (∀ d, pretty_N_char d ≠ c) →
  ∀ s, has_char c s = false → has_char c (pretty_N_go x s) = false.
Proof.
  intros Hc. induction (N.lt_wf_0 x) as [x _ IH]. intros s Hs.
  assert (x = 0 ∨ 0 < x)%N as [->|Hpos] by lia.
  - rewrite pretty_N_go_0. exact Hs.
  - rewrite pretty_N_go_step by exact Hpos. apply IH.
    + apply N.div_lt; [exact Hpos | reflexivity].
    + cbn [has_char]. rewrite Hs, orb_false_r.
      apply Ascii.eqb_neq, Hc.
Qed.

Lemma pretty_Z_chars (c : ascii) (z : Z) :
  (∀ d, pretty_N_char d ≠ c) → c ≠ "-"%char →
  has_char c (pretty z) = false.
Proof.
  intros Hc Hdash.
  assert (HN : ∀ x : N, has_char c (pretty x) = false).
  { intros x. unfold pretty, pretty_N.
    destruct (decide (x = 0%N)).
    - cbn [has_char]. rewrite orb_false_r. apply Ascii.eqb_neq.
      exact (Hc 0%N).
    - apply pretty_N_go_chars; [exact Hc | reflexivity]. }
  destruct z as [|p|p].
  - exact (HN 0%N).
  - exact (HN (Npos p)).
  - change (pretty (Zneg p)) with (String "-" (pretty (Npos p))).
    cbn [has_char]. rewrite HN, orb_false_r.
    apply Ascii.eqb_neq. congruence.
Qed.

Lemma digit_not_sep (d : N) : pretty_N_char d ≠ "/"%char.
Proof. unfold pretty_N_char. repeat case_match; discriminate. Qed.

Lemma digit_not_dot (d : N) : pretty_N_char d ≠ "."%char.
Proof. unfold pretty_N_char. repeat case_match; discriminate. Qed.

(** The stem of the path of a checkpoint of the runner is its id. *)
Lemma checkpoint_path_stem (dir : string) (z : Z) :
  path_stem (path_join dir ("checkpoint_" +:+ pretty z +:+ ".json"))
  = "checkpoint_" +:+ pretty z.
Proof.
  rewrite <- string_append_assoc.
  change ".json" with (String "." "json").
  apply path_stem_join.
  - rewrite !has_char_app, pretty_Z_chars;
      [reflexivity | exact digit_not_sep | discriminate].
  - reflexivity.
  - rewrite string_length_app. cbn [String.length]. lia.
  - cbn. lia.
Qed.

Section Recovery.

Variable w : World.
Variable config : TestConfig.

Lemma create_checkpoint_last (r : RunnerState) :
  last_checkpoint (_create_checkpoint w config r).1
  = Some (path_join (checkpoint_dir config)
            ("checkpoint_" +:+ pretty (py_int (clock r)) +:+ ".json")).
Proof.
  unfold _create_checkpoint, create_checkpoint, _get_git_commit. run_M.
  destruct (git_rev_parse w (clock r)) as [[rc out]|]; reflexivity.
Qed.

(** X13: a recovery resumes the runner's own checkpoint, by name.  Once
    [_create_checkpoint] has run at time [t], a recovery attempt, as long
    as no later checkpoint replaces that one, invokes [selfware resume]
    exactly once, with the task id [checkpoint_<int(t)>] (the stem of the
    file the runner wrote under its session directory), and it succeeds
    exactly when that invocation exits with code 0; it writes no file and
    leaves the clock and the metrics alone. *)
Theorem X13_recovery_resumes_own_checkpoint (r r2 : RunnerState) :
  last_checkpoint r2 = last_checkpoint (_create_checkpoint w config r).1 →
  ∃ r', _attempt_recovery w r2
        = (r', Return (bool_decide
                         (selfware_resume w (clock r2)
                            ("checkpoint_" +:+ pretty (py_int (clock r)))
                          = Some 0%Z)))
    ∧ r' = set_trace
             (trace r2
              ++ [EvResume ("checkpoint_" +:+ pretty (py_int (clock r)))
                    (selfware_resume w (clock r2)
                       ("checkpoint_" +:+ pretty (py_int (clock r))))]) r2.
Proof.
  rewrite create_checkpoint_last. intros Hlast.
  unfold _attempt_recovery, restore_checkpoint. run_M.
  rewrite Hlast, checkpoint_path_stem.
  destruct (selfware_resume w (clock r2)
              ("checkpoint_" +:+ pretty (py_int (clock r)))) as [rc|].
  - eexists. split; [|reflexivity]. f_equal. f_equal.
    destruct (Z.eqb_spec rc 0) as [->|Hne].
    + rewrite bool_decide_eq_true_2; reflexivity.
    + rewrite bool_decide_eq_false_2; [reflexivity|]. congruence.
  - eexists. split; reflexivity.
Qed.

End Recovery.

(** X13 right after a checkpoint at time 90, where [selfware resume]
    exits with code 1. *)
Lemma X13_recovery_resumes_own_checkpoint_witness :
  (_attempt_recovery Worlds.w_one_failing
     (_create_checkpoint Worlds.w_one_failing Worlds.config0
        (Worlds.runner_at 90)).1).2
  = Return false.
Proof.
  destruct (X13_recovery_resumes_own_checkpoint Worlds.w_one_failing
              Worlds.config0 (Worlds.runner_at 90)
              (_create_checkpoint Worlds.w_one_failing Worlds.config0
                 (Worlds.runner_at 90)).1 eq_refl)
    as (r' & -> & _).
  reflexivity.
Defined.

(** *** What the update of the metrics reads *)

Lemma same_phase_start_preorder : PreOrder same_phase_start.
Proof.
  split.
  - intros r. split; reflexivity.
  - intros r1 r2 r3 [H1 H1'] [H2 H2']. split; congruence.
Qed.

#[local] Existing Instance same_phase_start_preorder.

Section Update.

Variable w : World.
Variable config : TestConfig.

Lemma payload_get (v : pyval) (m : gmap string pyval) :
  payload_of (Some v) = Some m → py_get v "payload" v = Return (PDict m).
Proof.
  destruct v as [| | | | | |d]; try discriminate. cbn.
  destruct (d !! "payload") as [[| | | | | |m']|]; try discriminate;
    intros [= <-]; reflexivity.
Qed.

Lemma py_truediv_outcome_spec (v : pyval) (x : Q) :
  (0 < x)%Q →
  if is_number v then ∃ q, py_truediv v (x / 60) = Return q
  else py_truediv v (x / 60) = Raise TypeError.
Proof.
  intros Hx. destruct (is_number v) eqn:Hv.
  - apply py_truediv_number; assumption.
  - destruct v; try discriminate Hv; reflexivity.
Qed.

(** The [try] block of [_update_metrics] on the payload [m], case by
    case. *)
Ltac payload_cases m :=
  let O1 := fresh "O" in
  let O2 := fresh "O" in
  let O3 := fresh "O" in
  let x := fresh "x" in
  pose proof (py_len_outcome (default (PList []) (m !! "errors"))) as O1;
  pose proof
    (py_mul_int_outcome (default (PInt 0) (m !! "current_step")) 50) as O2;
  destruct (py_len (default (PList []) (m !! "errors"))) as [?|?|];
  [ destruct (py_truthy (default PNone (m !! "git_checkpoint")));
    [ cbn [metrics set_metrics tasks_completed set_errors_encountered
           set_checkpoint_count set_tasks_completed];
      destruct (py_mul_int (default (PInt 0) (m !! "current_step")) 50)
        as [x|?|];
      [ pose proof (py_int_add_outcome 1000 x) as O3;
        destruct (py_int_add 1000 x) as [?|?|]
      | | ]
    | ]
  | | ];
  try contradiction;
  cbv beta iota.

(** [_update_metrics] on a checkpoint file of either shape: what it
    assigns, and its outcome. *)
Lemma update_metrics_payload (r : RunnerState) (dir : gmap string File)
    (m : gmap string pyval) :
  selfware_checkpoints w (clock r) = Some dir →
  glob_json dir ≠ [] →
  (∀ p f, is_latest dir p f → payload_of (content f) = Some m) →
  ∃ mm, (_update_metrics w r).1 = set_metrics mm r
    ∧ total_tokens mm = default (PInt 0) (m !! "estimated_tokens")
    ∧ tasks_completed mm = default (PInt 0) (m !! "current_step")
    ∧ checkpoint_count mm = Z.of_nat (length (glob_json dir))
    ∧ match py_len (default (PList []) (m !! "errors")) with
      | Return n => errors_encountered mm = n
      | _ => errors_encountered mm = errors_encountered (metrics r)
             ∧ lines_of_code mm = lines_of_code (metrics r)
      end
    ∧ status mm = status (metrics r)
    ∧ (_update_metrics w r).2
      = if Qltb 0 (clock r - phase_start_time r)
           && negb (is_number (default (PInt 0) (m !! "estimated_tokens")))
        then Raise TypeError else Return ().
Proof.
  intros Hdir Hne Hall. unfold _update_metrics. run_M. rewrite Hdir.
  destruct (sorted_latest dir) as (l & -> & Hlen & Hl).
  destruct l as [|p l].
  { apply glob_json_nil in Hl. contradiction. }
  destruct Hl as [f Hf]. pose proof (Hall p f Hf) as Hpay.
  destruct Hf as (Hf & _). unfold json_load. rewrite Hf.
  destruct (content f) as [v|]; [|discriminate Hpay].
  rewrite (payload_get v m Hpay). cbn [py_get]. rewrite Hlen.
  cbn [metrics set_metrics].
  set (tok := default (PInt 0) (m !! "estimated_tokens")).
  set (elapsed := (clock r - phase_start_time r)%Q).
  destruct (Qltb 0 elapsed) eqn:E.
  - apply Qltb_true in E.
    pose proof (py_truediv_outcome_spec tok elapsed E) as Hdiv.
    payload_cases m;
      cbn [metrics set_metrics total_tokens set_lines_of_code
           set_errors_encountered set_checkpoint_count set_tasks_completed
           set_total_tokens];
      fold tok;
      (destruct (is_number tok); [destruct Hdiv as [q ->] | rewrite Hdiv]);
      cbn [andb negb]; (eexists; split; [reflexivity|]; repeat split).
  - payload_cases m; cbn [andb];
      (eexists; split; [reflexivity|]; repeat split).
Qed.

(** X14: what the update reads from a checkpoint file of either shape.
    When every most recently modified checkpoint file holds the payload
    [m], flat or inside an envelope, [_update_metrics] sets the token
    total and the step count to the payload's ["estimated_tokens"] and
    ["current_step"] (0 where the key is missing), and the checkpoint
    count to the number of checkpoint files of the executor, whatever the
    runner had counted before.  It sets the error count to the length of
    ["errors"] (0 where the key is missing); when that value has no
    length, the update stops there: the error count and the line count
    stay, the fields before are already set.  The status is not
    touched. *)
Theorem X14_update_reads_both_shapes (r : RunnerState)
    (dir : gmap string File) (m : gmap string pyval) :
  selfware_checkpoints w (clock r) = Some dir →
  glob_json dir ≠ [] →
  (∀ p f, is_latest dir p f → payload_of (content f) = Some m) →
  total_tokens (metrics (_update_metrics w r).1)
  = default (PInt 0) (m !! "estimated_tokens")
  ∧ tasks_completed (metrics (_update_metrics w r).1)
    = default (PInt 0) (m !! "current_step")
  ∧ checkpoint_count (metrics (_update_metrics w r).1)
    = Z.of_nat (length (glob_json dir))
  ∧ match py_len (default (PList []) (m !! "errors")) with
    | Return n => errors_encountered (metrics (_update_metrics w r).1) = n
    | _ =>
        errors_encountered (metrics (_update_metrics w r).1)
        = errors_encountered (metrics r)
        ∧ lines_of_code (metrics (_update_metrics w r).1)
          = lines_of_code (metrics r)
    end
  ∧ status (metrics (_update_metrics w r).1) = status (metrics r).
Proof.
  intros Hdir Hne Hall.
  destruct (update_metrics_payload r dir m Hdir Hne Hall)
    as (mm & -> & Ht & Hs & Hc & He & Hst & _).
  cbn [metrics set_metrics]. auto.
Qed.

Lemma iteration_same_phase_start (last_checkpoint : Q) :
  keeps same_phase_start (phase_iteration w config last_checkpoint).
Proof. frame_with ltac:(split; reflexivity). Qed.

(** X15: a token estimate that is no number ends the session.  The rate
    of tokens per minute is computed outside the [try] block of
    [_update_metrics], so with a most recent checkpoint file whose
    ["estimated_tokens"] is, say, a text, the update raises [TypeError] as
    soon as it finds that time has elapsed in the phase: in the second
    pass at the latest, and in the first already when the clock has moved
    since the phase began.  The exception leaves [_update_metrics] and
    [_run_phase]; [run] logs it, sets the status "failed" and returns
    [False], after at most one tick, a healthy one, and without any
    recovery attempt. *)
Theorem X15_bad_token_total_fails_session (r : RunnerState)
    (dir : gmap string File) (m : gmap string pyval) :
  (∀ t, selfware_checkpoints w t = Some dir) →
  glob_json dir ≠ [] →
  (∀ p f, is_latest dir p f →
     payload_of (content f) = Some m ∧ (clock r - mtime f <= 300)%Q) →
  is_number (default (PInt 0) (m !! "estimated_tokens")) = false →
  signal_during_sleep w (clock r) = false →
  ∃ r', run w config r = (r', Return false)
    ∧ status (metrics r') = "failed"
    ∧ In (EvSessionFailed TypeError) (trace r')
    ∧ (ticks r' = ticks r ∨ ticks r' = ticks r ++ [EvHealthCheck true]).
Proof.
  intros Hdir Hne Hall Hbad Hsig. rewrite run_eq.
  unfold try_finally, try_except, session_phases.
  cbn [run_phases]. rewrite run_bind, run_phase_unfold. unfold phase_fuel.
  set (r0 := set_phase_start_time (clock (set_running true r))
               (set_current_phase "bootstrap" (set_running true r))).
  assert (Hc0 : clock r0 = clock r) by reflexivity.
  assert (Hpay : ∀ p f, is_latest dir p f → payload_of (content f) = Some m)
    by (intros p f Hf; apply (Hall p f Hf)).
  rewrite phase_loop_S.
  assert (Hlt : Qltb (clock r0) (clock (set_running true r) + inject_Z (60 * 60))
                = true).
  { apply Qltb_true. cbn [clock r0 set_phase_start_time set_current_phase
                          set_running].
    change (inject_Z (60 * 60)) with 3600%Q. lra. }
  rewrite Hlt. cbn [running r0 set_phase_start_time set_current_phase
                    set_running andb].
  fold r0.
  destruct (healthy_iteration w config (clock (set_running true r)) r0)
    as (r1 & last' & Hit & Hc1 & Hr1 & Ht1 & _ & _).
  { destruct (update_metrics_payload r0 dir m (Hdir _) Hne Hpay)
      as (mm & _ & _ & _ & _ & _ & _ & ->).
    assert (E : Qltb 0 (clock r0 - phase_start_time r0) = false).
    { apply Qltb_false. cbn [clock phase_start_time r0 set_phase_start_time
                             set_current_phase set_running]. lra. }
    rewrite E. reflexivity. }
  { destruct (health_check_spec w r0) as (b & -> & Hb).
    rewrite Hdir in Hb. destruct Hb as [_ Hb]. cbn [snd]. f_equal.
    destruct (sorted_latest dir) as (l & _ & _ & Hl).
    destruct l as [|p l]; [apply glob_json_nil in Hl; contradiction|].
    destruct Hl as [f Hf]. rewrite (Hb p f Hf).
    destruct (Hall p f Hf) as [_ Hage]. rewrite Hc0.
    apply negb_true_iff, Qltb_false. exact Hage. }
  destruct (iteration_same_phase_start (clock (set_running true r)) r0)
    as [[Hps _] _].
  rewrite Hit in Hps |- *. cbn [fst] in Hps.
  rewrite Hc0, Hsig in Hr1. rewrite Hc0 in Hc1.
  cbn [running r0 set_phase_start_time set_current_phase set_running] in Hr1.
  cbn [phase_start_time r0 set_phase_start_time set_current_phase
       set_running clock] in Hps.
  rewrite phase_loop_S, Hr1.
  assert (Hlt1 : Qltb (clock r1) (clock (set_running true r) + inject_Z (60 * 60))
                 = true).
  { apply Qltb_true. rewrite Hc1. cbn [clock set_running].
    change (inject_Z (60 * 60)) with 3600%Q. lra. }
  rewrite Hlt1. cbn [andb].
  assert (Hit2 : ∃ mm, phase_iteration w config last' r1
                       = (set_metrics mm r1, Raise TypeError)).
  { unfold phase_iteration. cbv zeta. rewrite run_bind.
    destruct (update_metrics_payload r1 dir m (Hdir _) Hne Hpay)
      as (mm & Hst & _ & _ & _ & _ & _ & Hout).
    assert (E : Qltb 0 (clock r1 - phase_start_time r1) = true).
    { apply Qltb_true. rewrite Hc1, Hps. lra. }
    rewrite E, Hbad in Hout. cbn [andb negb] in Hout.
    destruct (_update_metrics w r1) as [ru o]. cbn [fst snd] in Hst, Hout.
    subst ru o. exists mm. reflexivity. }
  destruct Hit2 as [mm ->].
  rewrite run_bind, emit_run. cbv beta iota.
  rewrite run_bind, modify_metrics_run. cbv beta iota. cbn [mret M_ret].
  match goal with
  | |- context [_finalize_session w config ?s] =>
      destruct (finalize_exact w config s)
        as (r' & data & -> & Ht' & _ & Hc' & _ & Hs' & _)
  end.
  exists r'. split; [reflexivity|].
  split; [rewrite Hs'; reflexivity|].
  split.
  { rewrite Ht'. cbn [trace set_metrics set_trace].
    apply in_or_app. left. apply in_or_app. right. left. reflexivity. }
  right.
  unfold ticks in *. rewrite Ht'. cbn [trace set_metrics set_trace].
  rewrite !tick_events_app, Ht1. cbn. rewrite !app_nil_r. reflexivity.
Qed.

End Update.

Lemma is_latest_singleton_inv (p p' : string) (f f' : File) :
  is_latest {[ p := f ]} p' f' → f' = f.
Proof.
  intros (Hf & _). apply lookup_singleton_Some in Hf as [_ <-]. reflexivity.
Qed.

(** X14 on a checkpoint inside an envelope. *)
Lemma X14_update_reads_both_shapes_witness :
  total_tokens
    (metrics (_update_metrics Worlds2.w_envelope (Worlds.runner_at 30)).1)
  = PInt 1200
  ∧ errors_encountered
      (metrics (_update_metrics Worlds2.w_envelope (Worlds.runner_at 30)).1)
    = 1%Z.
Proof.
  destruct (X14_update_reads_both_shapes Worlds2.w_envelope
              (Worlds.runner_at 30) Worlds2.dir_envelope
              {[ "estimated_tokens" := PInt 1200; "current_step" := PInt 4;
                 "errors" := PList [PStr "e"] ]}
              eq_refl)
    as (Ht & _ & _ & He & _).
  - vm_compute. discriminate.
  - intros p f Hf. apply is_latest_singleton_inv in Hf. subst f. reflexivity.
  - split; [exact Ht | exact He].
Defined.

(** X15 on a token estimate that is a text. *)
Lemma X15_bad_token_total_fails_session_witness :
  ∃ r', run Worlds2.w_bad_tokens Worlds.config0 (MegaTestRunner_init 0)
        = (r', Return false)
    ∧ status (metrics r') = "failed".
Proof.
  destruct (X15_bad_token_total_fails_session Worlds2.w_bad_tokens
              Worlds.config0 (MegaTestRunner_init 0) Worlds2.dir_bad_tokens
              {[ "estimated_tokens" := PStr "many" ]})
    as (r' & Hrun & Hs & _).
  - intros t. reflexivity.
  - vm_compute. discriminate.
  - intros p f Hf. apply is_latest_singleton_inv in Hf. subst f.
    split; [reflexivity|]. cbn. lra.
  - reflexivity.
  - reflexivity.
  - exists r'. split; [exact Hrun | exact Hs].
Defined.

(** *** A pass of the loop, in two parts *)

Section IterationRel.

Variable w : World.
Variable config : TestConfig.
Context (R : relation RunnerState) `{!PreOrder R}.

Hypothesis R_checkpoint : keeps R (_create_checkpoint w config).
Hypothesis R_health : keeps R (_health_check w).
Hypothesis R_recovery : keeps R (_attempt_recovery w).
Hypothesis R_emit : ∀ e, keeps R (emit e).
Hypothesis R_end : ∀ last_checkpoint,
  keeps R (end_of_pass w config last_checkpoint).

Lemma iteration_unfold (last_checkpoint : Q) :
  phase_iteration w config last_checkpoint
  = (_update_metrics w;; after_update w config last_checkpoint).
Proof. reflexivity. Qed.

Lemma after_update_rel (last_checkpoint : Q) :
  keeps R (after_update w config last_checkpoint).
Proof.
  unfold after_update. cbv zeta.
  repeat first
    [ apply R_end
    | apply R_checkpoint
    | apply R_health
    | apply R_recovery
    | apply R_emit
    | keeps_step ].
Qed.

Hypothesis R_update : keeps R (_update_metrics w).

Lemma iteration_rel (last_checkpoint : Q) :
  keeps R (phase_iteration w config last_checkpoint).
Proof.
  rewrite iteration_unfold.
  eapply keeps_bind; [typeclasses eauto | apply R_update | intros ?].
  apply after_update_rel.
Qed.

End IterationRel.

Lemma end_of_pass_run (w : World) (config : TestConfig) (last_checkpoint : Q)
    (r : RunnerState) :
  end_of_pass w config last_checkpoint r
  = (set_clock (clock r + 30)
       ((if signal_during_sleep w (clock r)
         then set_running false else λ x, x)
          (set_trace
             (trace r
              ++ [EvWrite
                    (path_join (metrics_dir config)
                       ("metrics_" +:+ pretty (py_int (clock r)) +:+ ".json"))
                    (MetricsFile (mkSnapshot (clock r) (metrics r)))])
             (set_metrics_history
                (metrics_history r ++ [mkSnapshot (clock r) (metrics r)]) r))),
     Return (inl last_checkpoint)).
Proof. apply rest_run. Qed.

Lemma snapshot_per_sleep_preorder : PreOrder snapshot_per_sleep.
Proof.
  split.
  - intros r. exists 0%nat. split; [lia|].
    change (inject_Z (Z.of_nat 0)) with 0%Q. lra.
  - intros r1 r2 r3 (n1 & H1 & C1) (n2 & H2 & C2). exists (n1 + n2)%nat.
    split; [lia|]. rewrite Nat2Z.inj_add, inject_Z_plus, C2, C1. lra.
Qed.

#[local] Existing Instance snapshot_per_sleep_preorder.

Ltac snapshot_base :=
  exists 0%nat; split; [cbn; lia|];
  change (inject_Z (Z.of_nat 0)) with 0%Q; cbn; lra.

Section Snapshots.
Variable w : World.
Variable config : TestConfig.

Lemma iteration_snapshot_per_sleep (last_checkpoint : Q) :
  keeps snapshot_per_sleep (phase_iteration w config last_checkpoint).
Proof.
  apply iteration_rel; try typeclasses eauto.
  - frame_with snapshot_base.
  - frame_with snapshot_base.
  - frame_with snapshot_base.
  - intros e. frame_with snapshot_base.
  - intros lc r. rewrite end_of_pass_run. cbn [fst snd].
    split; [|discriminate]. exists 1%nat.
    destruct (signal_during_sleep w (clock r));
      cbn [metrics_history clock set_clock set_running set_trace
           set_metrics_history];
      (split; [rewrite length_app; reflexivity|]);
      change (inject_Z (Z.of_nat 1)) with 1%Q; lra.
  - frame_with snapshot_base.
Qed.

Lemma phases_snapshot_per_sleep (phases : list (string * Z))
    (r r' : RunnerState) (o : outcome bool) :
  phases_run w config phases r r' o → snapshot_per_sleep r r'.
Proof.
  apply (phases_run_rel w config snapshot_per_sleep).
  - apply iteration_snapshot_per_sleep.
  - intros p r0. snapshot_base.
  - intros t r0. snapshot_base.
Qed.

End Snapshots.

(** *** One snapshot for each pass that goes on *)

Lemma count_passed_ticks (evs : list Event) :
  count is_passed evs = count is_passed (tick_events evs).
Proof.
  unfold count, tick_events.
  induction evs as [|e evs IH]; [reflexivity|].
  destruct e as [[|]|[|]| | |]; cbn [List.filter is_passed is_tick_event length];
    rewrite ?IH; reflexivity.
Qed.

Lemma sleeps_inj (n k : nat) :
  (30 * inject_Z (Z.of_nat n) == 30 * inject_Z (Z.of_nat k))%Q → n = k.
Proof.
  intros H.
  assert (E : (inject_Z (Z.of_nat n) == inject_Z (Z.of_nat k))%Q).
  { apply (Qmult_inj_l _ _ 30); [discriminate | exact H]. }
  apply Nat2Z.inj, inject_Z_injective. exact E.
Qed.

Lemma snapshot_per_tick_preorder : PreOrder snapshot_per_tick.
Proof.
  split.
  - intros r. exists []. split; [rewrite app_nil_r; reflexivity|].
    cbn. lia.
  - intros r1 r2 r3 (e1 & H1 & L1) (e2 & H2 & L2). exists (e1 ++ e2).
    split; [rewrite H2, H1, app_assoc; reflexivity|].
    rewrite count_app. lia.
Qed.

#[local] Existing Instance snapshot_per_tick_preorder.

Section SnapshotPerTick.

Variable w : World.
Variable config : TestConfig.

Lemma iteration_snapshot_per_tick (last_checkpoint : Q) :
  keeps snapshot_per_tick (phase_iteration w config last_checkpoint).
Proof.
  intros r.
  destruct (iteration_snapshot_per_sleep w config last_checkpoint r)
    as [(n & Hn & Hcl) Hdiv].
  destruct (iteration_spec w config last_checkpoint r)
    as (r' & o & Heq & [evs Hp] & Hspec).
  rewrite Heq in Hn, Hcl, Hdiv |- *. cbn [fst snd] in Hn, Hcl, Hdiv |- *.
  split; [|exact Hdiv]. exists evs. split; [exact Hp|].
  rewrite Hn. f_equal. rewrite count_passed_ticks.
  assert (Ht : ticks r' = ticks r ++ tick_events evs)
    by (unfold ticks; rewrite Hp; apply tick_events_app).
  destruct o as [[l|b]|e|]; [| | |contradiction].
  - destruct Hspec as (Hc & _ & _ & Hticks). rewrite Hc in Hcl.
    assert (n = 1%nat) as ->.
    { apply sleeps_inj. change (inject_Z (Z.of_nat 1)) with 1%Q. lra. }
    destruct Hticks as [Hticks|Hticks]; rewrite Hticks in Ht;
      apply app_inv_head in Ht; rewrite <- Ht; reflexivity.
  - destruct Hspec as (_ & Hc & _ & _ & Hticks). rewrite Hc in Hcl.
    assert (n = 0%nat) as ->.
    { apply sleeps_inj. change (inject_Z (Z.of_nat 0)) with 0%Q. lra. }
    rewrite Hticks in Ht. apply app_inv_head in Ht. rewrite <- Ht.
    reflexivity.
  - destruct Hspec as (Hc & _ & _ & Hticks & _). rewrite Hc in Hcl.
    assert (n = 0%nat) as ->.
    { apply sleeps_inj. change (inject_Z (Z.of_nat 0)) with 0%Q. lra. }
    rewrite Hticks in Ht.
    assert (H : ticks r ++ [] = ticks r ++ tick_events evs)
      by (rewrite app_nil_r; exact Ht).
    apply app_inv_head in H. rewrite <- H. reflexivity.
Qed.

Lemma phases_snapshot_per_tick (phases : list (string * Z))
    (r r' : RunnerState) (o : outcome bool) :
  phases_run w config phases r r' o → snapshot_per_tick r r'.
Proof.
  apply (phases_run_rel w config snapshot_per_tick).
  - apply iteration_snapshot_per_tick.
  - intros p r0. exists []. split; [cbn; rewrite app_nil_r; reflexivity|].
    cbn. lia.
  - intros t r0. exists []. split; [cbn; rewrite app_nil_r; reflexivity|].
    cbn. lia.
Qed.

(** X16: the history, and with it the "checkpoints" entry of the report,
    counts passes of the loop.  [run] records one snapshot for each pass
    whose health check passed or whose recovery succeeded, and none
    otherwise, in every world: the history grows by [n] snapshots, where
    [n] is the number of such verdicts among the new events; [n] is at
    most 720, the number of sleeps of 30 seconds that fit in the budgets;
    and for a runner that starts with an empty history the report, unless
    it is empty, says ["checkpoints": n], whatever the number of
    checkpoints written. *)
Theorem X16_report_counts_ticks (r : RunnerState) :
  ∃ n : nat,
    length (metrics_history (run w config r).1)
    = (length (metrics_history r) + n)%nat
    ∧ n = count is_passed (new_events r (run w config r).1)
    ∧ (n ≤ 720)%nat
    ∧ (metrics_history r = [] →
       generate_report (metrics_history (run w config r).1) = []
       ∨ In ("checkpoints", PInt (Z.of_nat n))
           (generate_report (metrics_history (run w config r).1))).
Proof.
  destruct (run_cases w config r) as (r4 & o & r' & Hp & _ & Hfin & Hrun).
  destruct (finalize_exact w config (before_finalize r4 o))
    as (r'' & data & Hfin' & Ht & Hh & _).
  rewrite Hfin in Hfin'. injection Hfin' as <-.
  destruct (phases_snapshot_per_sleep w config _ _ _ _ Hp) as (n & Hn & Hcl).
  destruct (phases_snapshot_per_tick _ _ _ _ Hp) as (evs & Hevs & Hlen).
  cbn [metrics_history clock trace set_running] in Hn, Hcl, Hevs, Hlen.
  pose proof (phases_clock_bound w config _ _ _ _ Hp (session_whole_sleeps))
    as [_ Hub].
  change (inject_Z (total_budget session_phases)) with 21600%Q in Hub.
  cbn [clock set_running] in Hub.
  rewrite Hrun. cbn [fst]. rewrite Hh, before_finalize_history.
  exists n. split; [exact Hn|]. split.
  { assert (Hbf : ∃ evs', trace (before_finalize r4 o) = trace r4 ++ evs'
                          ∧ count is_passed evs' = 0%nat).
    { destruct o as [[|]|e|];
        [exists []|exists []|exists [EvSessionFailed e]|exists []];
        (split; [cbn; rewrite ?app_nil_r; reflexivity | reflexivity]). }
    destruct Hbf as (evs' & Hbf & H0).
    unfold new_events. rewrite Ht, Hbf, Hevs, <- !app_assoc, drop_app_length.
    rewrite !count_app, H0. cbn. lia. }
  split.
  { rewrite Hcl in Hub.
    assert (H : (inject_Z (Z.of_nat n) <= inject_Z 720)%Q)
      by (change (inject_Z 720) with 720%Q; lra).
    rewrite <- Zle_Qle in H. lia. }
  intros Hnil. rewrite Hnil in Hn. cbn [length] in Hn.
  destruct (metrics_history r4) as [|first h] eqn:Eh; [left; reflexivity|].
  right. unfold generate_report. rewrite Hn.
  do 4 right. left. reflexivity.
Qed.
End SnapshotPerTick.

(** X16 for a new runner and an absent executor. *)
Lemma X16_report_counts_ticks_witness :
  ∃ n : nat,
    length (metrics_history (run Worlds.w_absent Worlds.config0
                               (MegaTestRunner_init 0)).1) = n
    ∧ (n ≤ 720)%nat.
Proof.
  destruct (X16_report_counts_ticks Worlds.w_absent Worlds.config0
              (MegaTestRunner_init 0)) as (n & Hn & _ & Hle & _).
  exists n. split; [exact Hn | exact Hle].
Defined.

(** *** The duration in the report *)


Lemma same_elapsed_preorder : PreOrder same_elapsed.
Proof.
  split.
  - intros r. exists (metrics r). split; [destruct r|]; reflexivity.
  - intros r1 r2 r3 (m1 & -> & H1) (m2 & -> & H2). exists m2.
    split; [reflexivity|]. cbn [metrics set_metrics] in H2. congruence.
Qed.

Lemma carries_elapsed_preorder : PreOrder carries_elapsed.
Proof.
  split.
  - intros r. split; [reflexivity|]. exists [].
    split; [rewrite app_nil_r; reflexivity | constructor].
  - intros r1 r2 r3 (E1 & s1 & H1 & F1) (E2 & s2 & H2 & F2).
    split; [congruence|]. exists (s1 ++ s2).
    split; [rewrite H2, H1, app_assoc; reflexivity|].
    apply Forall_app. split; [exact F1|]. rewrite <- E1. exact F2.
Qed.

#[local] Existing Instance same_elapsed_preorder.
#[local] Existing Instance carries_elapsed_preorder.



Section Elapsed.

Variable w : World.
Variable config : TestConfig.









End Elapsed.


(** *** How often the runner checkpoints *)

Lemma checkpoint_times_app (l1 l2 : list Event) :
  checkpoint_times (l1 ++ l2) = checkpoint_times l1 ++ checkpoint_times l2.
Proof. apply omap_app. Qed.



Lemma no_checkpoint_preorder : PreOrder no_checkpoint.
Proof.
  split.
  - intros r. split; [lra|]. exists [].
    split; [rewrite app_nil_r; reflexivity | reflexivity].
  - intros r1 r2 r3 (C1 & e1 & H1 & T1) (C2 & e2 & H2 & T2).
    split; [lra|]. exists (e1 ++ e2).
    split; [rewrite H2, H1, app_assoc; reflexivity|].
    rewrite checkpoint_times_app, T1, T2. reflexivity.
Qed.

#[local] Existing Instance no_checkpoint_preorder.




Section Cadence.

Variable w : World.
Variable config : TestConfig.






Section Gap.

Variable a : Q.






End Gap.


End Cadence.


End RunnerMore.
